(** * Functional calibration of body-worn orientation sensors (align.py)

    A shallow embedding of [source/align.py]: the estimation of a joint's
    rotation axis from two orientation streams ([find_rotation_axis]), the
    construction of an anatomical frame ([create_anatomical_frame]), the
    calibration driver ([perform_calibration]) and the application of a
    calibration quaternion to a raw sample.

    Floating-point numbers are idealised as real numbers.  An array whose
    entries are all [nan] (the result of dividing the zero vector by its
    zero norm, which numpy does without raising) is modelled as [None].
    Python exceptions are modelled by the [result] monad.

    The program calls [scipy.spatial.transform.Rotation] and numpy.  Their
    arithmetic (quaternion product, inverse, rotation vector, covariance,
    cross product, ...) is written out below.  The routines that rest on
    LAPACK or on long case analyses ([numpy.linalg.eigh],
    [Rotation.from_matrix], [Rotation.as_euler]) are parameters of the
    development; what is known of them is stated as a contract where a
    theorem needs it. *)

From Stdlib Require Import Reals Lra Lia Psatz RNsatz Ascii String.
From stdpp Require Import gmap strings list pretty.

Local Open Scope R_scope.

(** * Exceptions

    The exceptions of Python that the program meets; [LinAlgError] is
    [numpy.linalg.LinAlgError]. *)

Inductive exn :=
| ValueError (msg : string)
| KeyError (key : string)
| LinAlgError (msg : string).

Inductive result (A : Type) :=
| Ok (a : A)
| Raise (e : exn).
Arguments Ok {A} a.
Arguments Raise {A} e.

#[global] Instance result_ret : MRet result := fun A a => Ok a.
#[global] Instance result_bind : MBind result :=
  fun A B f m => match m with Ok a => f a | Raise e => Raise e end.
#[global] Instance result_fmap : FMap result :=
  fun A B f m => match m with Ok a => Ok (f a) | Raise e => Raise e end.

(** [[f(x) for x in xs]], stopping at the first exception. *)
Fixpoint mapR {A B} (f : A -> result B) (xs : list A) : result (list B) :=
  match xs with
  | [] => Ok []
  | x :: xs' => y ← f x; ys ← mapR f xs'; Ok (y :: ys)
  end.

(** * Arrays *)

(** A float array of shape (3,). *)
Record vec3 := V3 { v0 : R; v1 : R; v2 : R }.

(** A float array of shape (4,): a quaternion, in the component order that
    the context fixes ([w, x, y, z] in the program's data, [x, y, z, w]
    inside scipy). *)
Record arr4 := A4 { a0 : R; a1 : R; a2 : R; a3 : R }.

(** A float array of shape (3, 3), by rows. *)
Record mat3 := M3 { m0 : vec3; m1 : vec3; m2 : vec3 }.

(** A float array of shape (4, 4), by rows. *)
Record mat4 := M4 { k0 : arr4; k1 : arr4; k2 : arr4; k3 : arr4 }.

(** A (3,) array that may hold nan: [None] is the array all of whose
    entries are nan. *)
Definition nvec3 := option vec3.

(** [np.array([x, y, z]).T]: the (3, 3) array whose columns are [x], [y]
    and [z], each of which may be nan. *)
Inductive nmat3 := Cols (x y z : nvec3).

Definition vadd (a b : vec3) : vec3 := V3 (v0 a + v0 b) (v1 a + v1 b) (v2 a + v2 b).
Definition vsub (a b : vec3) : vec3 := V3 (v0 a - v0 b) (v1 a - v1 b) (v2 a - v2 b).
Definition vscale (c : R) (a : vec3) : vec3 := V3 (c * v0 a) (c * v1 a) (c * v2 a).
Definition vzero : vec3 := V3 0 0 0.

(** [np.dot] *)
Definition dot (a b : vec3) : R := v0 a * v0 b + v1 a * v1 b + v2 a * v2 b.

(** [np.cross] *)
Definition cross (a b : vec3) : vec3 :=
  V3 (v1 a * v2 b - v2 a * v1 b)
     (v2 a * v0 b - v0 a * v2 b)
     (v0 a * v1 b - v1 a * v0 b).

(** [np.linalg.norm] *)
Definition norm (a : vec3) : R := sqrt (dot a a).

(** [v / np.linalg.norm(v)].  numpy does not raise on a division by zero:
    the norm is zero only for the zero vector, and 0/0 is nan in every
    entry. *)
Definition np_normalize (v : vec3) : nvec3 :=
  if Req_dec_T (norm v) 0 then None else Some (vscale (/ norm v) v).

(** nan propagates through every arithmetic operation. *)
Definition np_cross (a b : nvec3) : nvec3 :=
  a ≫= fun a => b ≫= fun b => Some (cross a b).

Definition np_dot (a b : nvec3) : option R :=
  a ≫= fun a => b ≫= fun b => Some (dot a b).

Definition transpose (m : mat3) : mat3 :=
  M3 (V3 (v0 (m0 m)) (v0 (m1 m)) (v0 (m2 m)))
     (V3 (v1 (m0 m)) (v1 (m1 m)) (v1 (m2 m)))
     (V3 (v2 (m0 m)) (v2 (m1 m)) (v2 (m2 m))).

(** Column [j] of a matrix: [m[:, j]]. *)
Definition col (j : nat) (m : mat3) : vec3 :=
  match j with
  | O => m0 (transpose m)
  | S O => m1 (transpose m)
  | _ => m2 (transpose m)
  end.

(** Matrix times vector. *)
Definition mulv (m : mat3) (v : vec3) : vec3 :=
  V3 (dot (m0 m) v) (dot (m1 m) v) (dot (m2 m) v).

Definition mmul (a b : mat3) : mat3 :=
  M3 (V3 (dot (m0 a) (col 0 b)) (dot (m0 a) (col 1 b)) (dot (m0 a) (col 2 b)))
     (V3 (dot (m1 a) (col 0 b)) (dot (m1 a) (col 1 b)) (dot (m1 a) (col 2 b)))
     (V3 (dot (m2 a) (col 0 b)) (dot (m2 a) (col 1 b)) (dot (m2 a) (col 2 b))).

Definition mat3_id : mat3 := M3 (V3 1 0 0) (V3 0 1 0) (V3 0 0 1).

Definition det (m : mat3) : R := dot (m0 m) (cross (m1 m) (m2 m)).

(** The finite matrix held by an array without nan. *)
Definition finite_mat (m : nmat3) : option mat3 :=
  match m with
  | Cols (Some x) (Some y) (Some z) => Some (transpose (M3 x y z))
  | _ => None
  end.

Definition dot4 (p q : arr4) : R := a0 p * a0 q + a1 p * a1 q + a2 p * a2 q + a3 p * a3 q.
Definition norm4 (q : arr4) : R := sqrt (dot4 q q).
Definition scale4 (c : R) (q : arr4) : arr4 := A4 (c * a0 q) (c * a1 q) (c * a2 q) (c * a3 q).
Definition mulv4 (m : mat4) (q : arr4) : arr4 :=
  A4 (dot4 (k0 m) q) (dot4 (k1 m) q) (dot4 (k2 m) q) (dot4 (k3 m) q).

(** Column [j] of a (4, 4) array. *)
Definition col4 (j : nat) (m : mat4) : arr4 :=
  match j with
  | O => A4 (a0 (k0 m)) (a0 (k1 m)) (a0 (k2 m)) (a0 (k3 m))
  | S O => A4 (a1 (k0 m)) (a1 (k1 m)) (a1 (k2 m)) (a1 (k3 m))
  | S (S O) => A4 (a2 (k0 m)) (a2 (k1 m)) (a2 (k2 m)) (a2 (k3 m))
  | _ => A4 (a3 (k0 m)) (a3 (k1 m)) (a3 (k2 m)) (a3 (k3 m))
  end.

(** * Quaternion layout (align.py, lines 5-11) *)

(** [quat[..., [1, 2, 3, 0]]]: from [w, x, y, z] to scipy's [x, y, z, w]. *)
Definition to_scipy_quat (quat : arr4) : arr4 :=
  A4 (a1 quat) (a2 quat) (a3 quat) (a0 quat).

(** [quat[..., [3, 0, 1, 2]]]: from scipy's [x, y, z, w] to [w, x, y, z]. *)
Definition to_wxyz_quat (quat : arr4) : arr4 :=
  A4 (a3 quat) (a0 quat) (a1 quat) (a2 quat).

(** * scipy.spatial.transform.Rotation *)

Module Rotation.

(** One rotation: scipy keeps a quaternion in scalar-last order,
    [a0 = x], [a1 = y], [a2 = z], [a3 = w].  A [Rotation] object holding a
    stack of rotations is a list of them. *)
Abbreviation t := arr4 (only parsing).

Definition zero_norm_msg : string := "Found zero norm quaternions in `quat`.".
Definition mul_length_msg (len_first len_second : nat) : string :=
  "Expected equal number of rotations in both or a single rotation in either object, got "
  +:+ pretty len_first +:+ " rotations in first and "
  +:+ pretty len_second +:+ " rotations in second object.".

(** The constructor with [normalize=True]: divide by the norm, and raise
    on a zero norm. *)
Definition normalized (q : arr4) : result t :=
  if Req_dec_T (norm4 q) 0 then Raise (ValueError zero_norm_msg)
  else Ok (scale4 (/ norm4 q) q).

(** [Rotation.from_quat] on an (N, 4) array. *)
Definition from_quat (quat : list arr4) : result (list t) := mapR normalized quat.

(** [_compose_quat(p, q)]: the Hamilton product, [q] applied first. *)
Definition compose_quat (p q : arr4) : arr4 :=
  A4 (a3 p * a0 q + a3 q * a0 p + (a1 p * a2 q - a2 p * a1 q))
     (a3 p * a1 q + a3 q * a1 p + (a2 p * a0 q - a0 p * a2 q))
     (a3 p * a2 q + a3 q * a2 p + (a0 p * a1 q - a1 p * a0 q))
     (a3 p * a3 q - a0 p * a0 q - a1 p * a1 q - a2 p * a2 q).

(** The quaternion of the inverse rotation: the vector part negated. *)
Definition conj (q : arr4) : arr4 := A4 (- a0 q) (- a1 q) (- a2 q) (a3 q).

(** [p * q] on single rotations; the product is renormalised. *)
Definition mul1 (p q : t) : result t := normalized (compose_quat p q).

(** [p.inv()] on a single rotation; the result is renormalised. *)
Definition inv1 (p : t) : result t := normalized (conj p).

(** [p * q] on stacks: element by element, a stack of one rotation being
    broadcast against the other. *)
Definition mul (p q : list t) : result (list t) :=
  if (length p =? length q)%nat then mapR (fun pq => mul1 pq.1 pq.2) (zip p q)
  else if (length p =? 1)%nat then mapR (fun x => mul1 (hd (A4 0 0 0 1) p) x) q
  else if (length q =? 1)%nat then mapR (fun x => mul1 x (hd (A4 0 0 0 1) q)) p
  else Raise (ValueError (mul_length_msg (length p) (length q))).

(** [p.inv()] on a stack. *)
Definition inv (p : list t) : result (list t) := mapR inv1 p.

(** [p.as_matrix()] *)
Definition as_matrix (q : t) : mat3 :=
  let x := a0 q in let y := a1 q in let z := a2 q in let w := a3 q in
  M3 (V3 (x*x - y*y - z*z + w*w) (2 * (x*y - z*w)) (2 * (x*z + y*w)))
     (V3 (2 * (x*y + z*w)) (- x*x + y*y - z*z + w*w) (2 * (y*z - x*w)))
     (V3 (2 * (x*z - y*w)) (2 * (y*z + x*w)) (- x*x - y*y + z*z + w*w)).

(** [p.apply(v)] for a single rotation and a single vector. *)
Definition apply (q : t) (v : vec3) : vec3 := mulv (as_matrix q) v.

(** [np.arctan2(y, x)] *)
Definition arctan2 (y x : R) : R :=
  if Rlt_dec 0 x then atan (y / x)
  else if Rlt_dec x 0 then
    (if Rle_dec 0 y then atan (y / x) + PI else atan (y / x) - PI)
  else if Rlt_dec 0 y then PI / 2
  else if Rlt_dec y 0 then - (PI / 2)
  else 0.

(** [_quat_canonical_single]: of a quaternion and its negation, the one
    whose scalar part is positive or, when that is zero, whose first
    non-zero component among x, y, z is positive. *)
Definition quat_canonical (q : t) : t :=
  if Rlt_dec (a3 q) 0 then scale4 (-1) q
  else if Req_dec_T (a3 q) 0 then
    if Rlt_dec (a0 q) 0 then scale4 (-1) q
    else if Req_dec_T (a0 q) 0 then
      if Rlt_dec (a1 q) 0 then scale4 (-1) q
      else if Req_dec_T (a1 q) 0 then
        if Rlt_dec (a2 q) 0 then scale4 (-1) q else q
      else q
    else q
  else q.

(** [p.as_rotvec()] for one rotation: the quaternion is first made
    canonical, the angle is [2 * arctan2(|v|, w)], and the vector part is
    scaled by [angle / sin(angle / 2)], by its Taylor expansion for angles
    up to [1e-3]. *)
Definition as_rotvec (q : t) : vec3 :=
  let q := quat_canonical q in
  let v := V3 (a0 q) (a1 q) (a2 q) in
  let angle := 2 * arctan2 (norm v) (a3 q) in
  let scale :=
    if Rle_dec angle (1 / 1000)
    then 2 + angle * angle / 12 + 7 * (angle * angle * angle * angle) / 2880
    else angle / sin (angle / 2) in
  vscale scale v.

(** [p.as_quat()] *)
Definition as_quat (q : t) : arr4 := q.

(** The accumulated outer products [K = sum_i q_i q_i^T] of a stack. *)
Definition outer4 (q : arr4) : mat4 :=
  M4 (scale4 (a0 q) q) (scale4 (a1 q) q) (scale4 (a2 q) q) (scale4 (a3 q) q).
Definition add4 (p q : arr4) : arr4 :=
  A4 (a0 p + a0 q) (a1 p + a1 q) (a2 p + a2 q) (a3 p + a3 q).
Definition madd4 (a b : mat4) : mat4 :=
  M4 (add4 (k0 a) (k0 b)) (add4 (k1 a) (k1 b)) (add4 (k2 a) (k2 b)) (add4 (k3 a) (k3 b)).
Definition mzero4 : mat4 := M4 (A4 0 0 0 0) (A4 0 0 0 0) (A4 0 0 0 0) (A4 0 0 0 0).
Definition accumulate (qs : list t) : mat4 :=
  foldr (fun q acc => madd4 (outer4 q) acc) mzero4 qs.

(** The same rotation: a quaternion and its negation. *)
Definition same_rotation (p q : t) : Prop := p = q \/ p = scale4 (-1) q.

End Rotation.

(** * numpy statistics *)

Definition madd (a b : mat3) : mat3 :=
  M3 (vadd (m0 a) (m0 b)) (vadd (m1 a) (m1 b)) (vadd (m2 a) (m2 b)).
Definition mscale (c : R) (a : mat3) : mat3 :=
  M3 (vscale c (m0 a)) (vscale c (m1 a)) (vscale c (m2 a)).
Definition mzero : mat3 := M3 vzero vzero vzero.

(** The outer product [a b^T]. *)
Definition outer (a b : vec3) : mat3 :=
  M3 (vscale (v0 a) b) (vscale (v1 a) b) (vscale (v2 a) b).

Definition vsum (ws : list vec3) : vec3 := foldr vadd vzero ws.

(** The average of the observations. *)
Definition vmean (ws : list vec3) : vec3 := vscale (/ INR (length ws)) (vsum ws).

(** [np.cov(ws.T)] for an (n, 3) array [ws]: every row of [ws] is one
    observation of three variables; the deviations from the average are
    accumulated and divided by [n - 1]. *)
Definition cov (ws : list vec3) : mat3 :=
  let avg := vmean ws in
  let X := map (fun w => vsub w avg) ws in
  mscale (/ (INR (length ws) - 1)) (foldr (fun x acc => madd (outer x x) acc) mzero X).

(** * Euler angle sequences of scipy *)

Inductive axis := AxisX | AxisY | AxisZ.

(** Upper-case letters name intrinsic rotations (about the axes of the
    rotating frame), lower-case letters extrinsic rotations (about the axes
    of the fixed frame). *)
Inductive euler_kind := Intrinsic | Extrinsic.

Definition axis_of_ascii (c : ascii) : option (euler_kind * axis) :=
  if decide (c = "X"%char) then Some (Intrinsic, AxisX)
  else if decide (c = "Y"%char) then Some (Intrinsic, AxisY)
  else if decide (c = "Z"%char) then Some (Intrinsic, AxisZ)
  else if decide (c = "x"%char) then Some (Extrinsic, AxisX)
  else if decide (c = "y"%char) then Some (Extrinsic, AxisY)
  else if decide (c = "z"%char) then Some (Extrinsic, AxisZ)
  else None.

Definition euler_kind_eqb (a b : euler_kind) : bool :=
  match a, b with
  | Intrinsic, Intrinsic | Extrinsic, Extrinsic => true
  | _, _ => false
  end.

(** A sequence of three letters, all of one case. *)
Definition parse_seq (seq : string) : option (euler_kind * (axis * axis * axis)) :=
  match seq with
  | String c0 (String c1 (String c2 EmptyString)) =>
      '(k0, x0) ← axis_of_ascii c0;
      '(k1, x1) ← axis_of_ascii c1;
      '(k2, x2) ← axis_of_ascii c2;
      if euler_kind_eqb k0 k1 && euler_kind_eqb k1 k2 then Some (k0, (x0, x1, x2)) else None
  | _ => None
  end.

(** [np.deg2rad] *)
Definition deg2rad (d : R) : R := d * PI / 180.

(** [_make_elementary_quat]: the rotation by [angle] about a coordinate axis. *)
Definition elementary_quat (ax : axis) (angle : R) : Rotation.t :=
  match ax with
  | AxisX => A4 (sin (angle / 2)) 0 0 (cos (angle / 2))
  | AxisY => A4 0 (sin (angle / 2)) 0 (cos (angle / 2))
  | AxisZ => A4 0 0 (sin (angle / 2)) (cos (angle / 2))
  end.

Definition axis_eqb (a b : axis) : bool :=
  match a, b with
  | AxisX, AxisX | AxisY, AxisY | AxisZ, AxisZ => true
  | _, _ => false
  end.

Definition euler_msg : string := "Expected axes from `seq` to be from ['x', 'y', 'z'] or ['X', 'Y', 'Z']".
Definition consecutive_msg : string := "Expected consecutive axes to be different".

(** [Rotation.from_euler(seq, angles, degrees)] for three angles
    ([_elementary_quat_compose]): consecutive axes have to differ; an
    intrinsic sequence composes every further elementary rotation on the
    right, an extrinsic one on the left. *)
Definition from_euler (seq : string) (degrees : bool) (angles : vec3) : result Rotation.t :=
  match parse_seq seq with
  | None => Raise (ValueError euler_msg)
  | Some (kind, (x0, x1, x2)) =>
      if axis_eqb x0 x1 || axis_eqb x1 x2 then Raise (ValueError consecutive_msg)
      else
        let conv := if degrees then deg2rad else (fun a => a) in
        let e0 := elementary_quat x0 (conv (v0 angles)) in
        let e1 := elementary_quat x1 (conv (v1 angles)) in
        let e2 := elementary_quat x2 (conv (v2 angles)) in
        match kind with
        | Intrinsic => Ok (Rotation.compose_quat (Rotation.compose_quat e0 e1) e2)
        | Extrinsic => Ok (Rotation.compose_quat e2 (Rotation.compose_quat e1 e0))
        end
  end.

(** * The program *)

Definition too_few_points_msg : string := "数据点太少，无法计算角速度。".

(** [d[key]] on a Python dict. *)
Definition getitem {A} (d : gmap string A) (key : string) : result A :=
  match d !! key with
  | Some v => Ok v
  | None => Raise (KeyError key)
  end.

(** One line of the diagnostic printed by [perform_calibration]: the side
    and the dot product of the two estimates of the thigh axis ([None]: nan). *)
Definition diagnostic : Type := string * option R.

Section Program.

(** [np.linalg.eigh] on (3, 3) and on (4, 4) arrays: eigenvalues and the
    matrix whose columns are the eigenvectors. *)
Variable eigh3 : mat3 -> vec3 * mat3.
Variable eigh4 : mat4 -> arr4 * mat4.

(** [Rotation.from_matrix] on a single (3, 3) array. *)
Variable from_matrix : nmat3 -> result Rotation.t.

(** [Rotation.as_euler(seq, degrees)] on a single rotation. *)
Variable as_euler : string -> bool -> Rotation.t -> result vec3.

(** [p.mean()]: the last column of the eigenvectors of the accumulated
    outer products; the constructor is called with [normalize=False]. *)
Definition mean (p : list Rotation.t) : Rotation.t :=
  let '(_, v) := eigh4 (Rotation.accumulate p) in col4 3 v.

(** align.py, lines 28-33: the relative rotation of the distal sensor
    with respect to the proximal one, sample by sample. *)
Definition relative_rotation (proximal_q distal_q : list arr4) : result (list Rotation.t) :=
  prox_rot ← Rotation.from_quat (map to_scipy_quat proximal_q);
  dist_rot ← Rotation.from_quat (map to_scipy_quat distal_q);
  prox_inv ← Rotation.inv prox_rot;
  Rotation.mul dist_rot prox_inv.

(** align.py, line 38: [rel[:-1].inv() * rel[1:]]. *)
Definition delta_relative_rotation (rel : list Rotation.t) : result (list Rotation.t) :=
  init_inv ← Rotation.inv (take (length rel - 1) rel);
  Rotation.mul init_inv (drop 1 rel).

(** align.py, lines 28-39. *)
Definition relative_ang_vel (proximal_q distal_q : list arr4) (fs : R) : result (list vec3) :=
  rel ← relative_rotation proximal_q distal_q;
  delta ← delta_relative_rotation rel;
  Ok (map (fun d => vscale fs (Rotation.as_rotvec d)) delta).

(** align.py, lines 13-56. *)
Definition find_rotation_axis (proximal_q distal_q : list arr4) (fs : R)
  : result (nvec3 * nvec3) :=
  w ← relative_ang_vel proximal_q distal_q fs;
  if (length w <? 2)%nat then Raise (ValueError too_few_points_msg)
  else
    let covariance_matrix := cov w in
    let '(eigenvalues, eigenvectors) := eigh3 covariance_matrix in
    let axis_p := col 2 eigenvectors in
    rel ← relative_rotation proximal_q distal_q;
    let mean_relative_rotation := mean rel in
    let axis_d := Rotation.apply mean_relative_rotation axis_p in
    Ok (np_normalize axis_p, np_normalize axis_d).

(** align.py, lines 73-87: the matrix handed to [Rotation.from_matrix]. *)
Definition rotation_matrix (primary_axis longitudinal_axis : nvec3) : nmat3 :=
  let x_axis := primary_axis ≫= np_normalize in
  let z_axis_temp := np_cross x_axis longitudinal_axis in
  let z_axis := z_axis_temp ≫= np_normalize in
  let y_axis := np_cross z_axis x_axis in
  let y_axis := y_axis ≫= np_normalize in
  Cols x_axis y_axis z_axis.

(** align.py, lines 59-89. *)
Definition create_anatomical_frame (primary_axis longitudinal_axis : nvec3)
  : result Rotation.t :=
  from_matrix (rotation_matrix primary_axis longitudinal_axis).

Definition global_up_vector : vec3 := V3 0 1 0.

(** align.py, lines 121-123, for one segment: the mean orientation of
    the sensor in the static trial. *)
Definition static_mean (q_static : list arr4) : result Rotation.t :=
  rot ← Rotation.from_quat (map to_scipy_quat q_static);
  Ok (mean rot).

(** align.py, lines 126-129, for one segment: the global up vector seen
    from the mean static orientation of the sensor. *)
Definition long_axis (rot_static_mean : Rotation.t) : result vec3 :=
  inv_mean ← Rotation.inv1 rot_static_mean;
  Ok (Rotation.apply inv_mean global_up_vector).

(** [np.tile([1, 0, 0, 0], (n, 1))] *)
Definition tile_identity (n : nat) : list arr4 := replicate n (A4 1 0 0 0).

(** The calibration quaternion, [w, x, y, z], of one segment. *)
Definition segment_calibration (ml_axis : nvec3) (long_axis : vec3) : result arr4 :=
  cal_rot ← create_anatomical_frame ml_axis (Some long_axis);
  Ok (to_wxyz_quat (Rotation.as_quat cal_rot)).

(** align.py, lines 113-170: the body of the loop over the sides; the
    state is the output printed so far and [calibration_quats]. *)
Definition calibrate_side (static_data hip_data knee_data ankle_data : gmap string (list arr4))
    (fs : R) (st : list diagnostic * gmap string arr4) (side : string)
  : result (list diagnostic * gmap string arr4) :=
  let '(printed, calibration_quats) := st in
  thigh_q_static ← getitem static_data (side +:+ "_thigh");
  shank_q_static ← getitem static_data (side +:+ "_shank");
  foot_q_static ← getitem static_data (side +:+ "_foot");
  thigh_rot_static_mean ← static_mean thigh_q_static;
  shank_rot_static_mean ← static_mean shank_q_static;
  foot_rot_static_mean ← static_mean foot_q_static;
  thigh_long_axis ← long_axis thigh_rot_static_mean;
  shank_long_axis ← long_axis shank_rot_static_mean;
  foot_long_axis ← long_axis foot_rot_static_mean;
  knee_thigh_q ← getitem knee_data (side +:+ "_thigh");
  knee_shank_q ← getitem knee_data (side +:+ "_shank");
  '(knee_axis_thigh, knee_axis_shank) ← find_rotation_axis knee_thigh_q knee_shank_q fs;
  hip_thigh_q ← getitem hip_data (side +:+ "_thigh");
  '(hip_axis_thigh, _) ← find_rotation_axis (tile_identity (length hip_thigh_q)) hip_thigh_q fs;
  ankle_shank_q ← getitem ankle_data (side +:+ "_shank");
  ankle_foot_q ← getitem ankle_data (side +:+ "_foot");
  '(ankle_axis_shank, ankle_axis_foot) ← find_rotation_axis ankle_shank_q ankle_foot_q fs;
  let printed := printed ++ [(side, np_dot knee_axis_thigh hip_axis_thigh)] in
  thigh_cal ← segment_calibration knee_axis_thigh thigh_long_axis;
  shank_cal ← segment_calibration knee_axis_shank shank_long_axis;
  foot_cal ← segment_calibration ankle_axis_foot foot_long_axis;
  Ok (printed,
      <[side +:+ "_foot" := foot_cal]>
        (<[side +:+ "_shank" := shank_cal]>
           (<[side +:+ "_thigh" := thigh_cal]> calibration_quats))).

Fixpoint foldR {A S} (f : S -> A -> result S) (s : S) (xs : list A) : result S :=
  match xs with
  | [] => Ok s
  | x :: xs' => s' ← f s x; foldR f s' xs'
  end.

(** align.py, lines 92-172: what is printed, and the returned dict. *)
Definition perform_calibration (static_data hip_data knee_data ankle_data : gmap string (list arr4))
    (fs : R) : result (list diagnostic * gmap string arr4) :=
  foldR (calibrate_side static_data hip_data knee_data ankle_data fs)
        ([], ∅) ["left"; "right"].

(** align.py, lines 252-260: the application of a calibration quaternion
    to a raw sample; the anatomical rotation, its quaternion in
    [w, x, y, z] order and its Euler angles. *)
Definition anatomical_rotation (raw_q q_cal : arr4) : result Rotation.t :=
  raw_rot ← Rotation.normalized (to_scipy_quat raw_q);
  cal_rot ← Rotation.normalized (to_scipy_quat q_cal);
  cal_inv ← Rotation.inv1 cal_rot;
  Rotation.mul1 raw_rot cal_inv.

Definition euler_seq : string := "xyz".

Definition apply_calibration (raw_q q_cal : arr4) : result (arr4 * vec3) :=
  anatomical_rot ← anatomical_rotation raw_q q_cal;
  let q_anatomical := to_wxyz_quat (Rotation.as_quat anatomical_rot) in
  anatomical_euler_angles ← as_euler euler_seq true anatomical_rot;
  Ok (q_anatomical, anatomical_euler_angles).

End Program.

(** * Vocabulary of the statements *)

Import Rotation.

(** A vector of unit length, and a quaternion of unit length. *)
Definition unit3 (a : vec3) : Prop := dot a a = 1.
Definition unit4 (q : arr4) : Prop := dot4 q q = 1.

(** The normalised quaternion. *)
Definition unitize (q : arr4) : arr4 := scale4 (/ norm4 q) q.

(** The identity rotation. *)
Definition identity : Rotation.t := A4 0 0 0 1.

(** The stack of relative rotations of two streams of non-zero
    quaternions: [unitize d_i * conj (unitize p_i)]. *)
Definition rel_stack (proximal_q distal_q : list arr4) : list t :=
  zip_with compose_quat
    (map unitize (map to_scipy_quat distal_q))
    (map conj (map unitize (map to_scipy_quat proximal_q))).

(** The stack of rotations between consecutive elements of a stack. *)
Definition delta_stack (rel : list t) : list t :=
  zip_with compose_quat (map conj (take (length rel - 1) rel)) (drop 1 rel).

(** The angular velocities of the relative rotation. *)
Definition ang_vel_stack (proximal_q distal_q : list arr4) (fs : R) : list vec3 :=
  map (fun d => vscale fs (as_rotvec d)) (delta_stack (rel_stack proximal_q distal_q)).

(** A sample that [Rotation.from_quat] accepts: its norm is not zero. *)
Definition valid_stream (q : list arr4) : Prop := Forall (fun x => norm4 x <> 0) q.

(** * Contracts of the numpy routines *)

Definition symmetric_mat (m : mat3) : Prop := transpose m = m.

(** What [np.linalg.eigh] returns on a symmetric (3, 3) array [m]: the
    eigenvalues in ascending order, and a matrix whose columns are
    orthonormal eigenvectors, column [i] for eigenvalue [i]. *)
Definition eigh3_contract (m : mat3) (out : vec3 * mat3) : Prop :=
  let '(w, v) := out in
  mmul (transpose v) v = mat3_id /\
  mulv m (col 0 v) = vscale (v0 w) (col 0 v) /\
  mulv m (col 1 v) = vscale (v1 w) (col 1 v) /\
  mulv m (col 2 v) = vscale (v2 w) (col 2 v) /\
  v0 w <= v1 w /\ v1 w <= v2 w.

Definition nth4 (i : nat) (q : arr4) : R :=
  match i with
  | O => a0 q
  | S O => a1 q
  | S (S O) => a2 q
  | _ => a3 q
  end.

(** The same on a symmetric (4, 4) array. *)
Definition eigh4_contract (m : mat4) (out : arr4 * mat4) : Prop :=
  let '(w, v) := out in
  (forall i j, (i < 4)%nat -> (j < 4)%nat ->
     dot4 (col4 i v) (col4 j v) = if (i =? j)%nat then 1 else 0) /\
  (forall i, (i < 4)%nat -> mulv4 m (col4 i v) = scale4 (nth4 i w) (col4 i v)) /\
  a0 w <= a1 w /\ a1 w <= a2 w /\ a2 w <= a3 w.

(** An eigenvector of [m] for the largest eigenvalue of [m]. *)
Definition top_eigenvector (m : mat3) (x : vec3) : Prop :=
  exists l, mulv m x = vscale l x /\
    forall mu y, y <> vzero -> mulv m y = vscale mu y -> mu <= l.

(** ** The eigen-decomposition of diagonal matrices

    On a diagonal matrix the eigenvalues are the diagonal entries and the
    eigenvectors the vectors of the canonical basis; sorting the entries
    gives an instance of the contract, used for the examples. *)

Fixpoint insert_by_value {A} (x : R * A) (l : list (R * A)) : list (R * A) :=
  match l with
  | [] => [x]
  | y :: l' => if Rle_dec x.1 y.1 then x :: l else y :: insert_by_value x l'
  end.

Definition sort_by_value {A} (l : list (R * A)) : list (R * A) :=
  foldr insert_by_value [] l.

Definition eigh3_diagonal (m : mat3) : vec3 * mat3 :=
  match sort_by_value [(v0 (m0 m), V3 1 0 0); (v1 (m1 m), V3 0 1 0); (v2 (m2 m), V3 0 0 1)] with
  | [(l0, e0); (l1, e1); (l2, e2)] => (V3 l0 l1 l2, transpose (M3 e0 e1 e2))
  | _ => (vzero, mat3_id)
  end.

Definition mat4_of_cols (c0 c1 c2 c3 : arr4) : mat4 :=
  M4 (A4 (a0 c0) (a0 c1) (a0 c2) (a0 c3))
     (A4 (a1 c0) (a1 c1) (a1 c2) (a1 c3))
     (A4 (a2 c0) (a2 c1) (a2 c2) (a2 c3))
     (A4 (a3 c0) (a3 c1) (a3 c2) (a3 c3)).

Definition mat4_id : mat4 := M4 (A4 1 0 0 0) (A4 0 1 0 0) (A4 0 0 1 0) (A4 0 0 0 1).

Definition eigh4_diagonal (m : mat4) : arr4 * mat4 :=
  match sort_by_value [(a0 (k0 m), A4 1 0 0 0); (a1 (k1 m), A4 0 1 0 0);
                       (a2 (k2 m), A4 0 0 1 0); (a3 (k3 m), A4 0 0 0 1)] with
  | [(l0, e0); (l1, e1); (l2, e2); (l3, e3)] => (A4 l0 l1 l2 l3, mat4_of_cols e0 e1 e2 e3)
  | _ => (A4 0 0 0 0, mat4_id)
  end.

Definition diagonal3 (a b c : R) : mat3 := M3 (V3 a 0 0) (V3 0 b 0) (V3 0 0 c).
Definition diagonal4 (a b c d : R) : mat4 :=
  M4 (A4 a 0 0 0) (A4 0 b 0 0) (A4 0 0 c 0) (A4 0 0 0 d).

(** * Frames *)

(** A matrix with unit, mutually orthogonal columns. *)
Definition orthonormal (m : mat3) : Prop :=
  unit3 (col 0 m) /\ unit3 (col 1 m) /\ unit3 (col 2 m) /\
  dot (col 0 m) (col 1 m) = 0 /\ dot (col 0 m) (col 2 m) = 0 /\ dot (col 1 m) (col 2 m) = 0.

(** * Round trip of a calibration

    The inverse step of the application of a calibration: the calibration
    rotation composed again on the right of the anatomical rotation. *)
Definition reapply_calibration (anatomical_rot : Rotation.t) (q_cal : arr4) : result Rotation.t :=
  cal_rot ← Rotation.normalized (to_scipy_quat q_cal);
  Rotation.mul1 anatomical_rot cal_rot.

(** * Trial data *)

(** Every stream of a trial can be processed: [Rotation.from_quat] accepts
    its samples, and it is long enough for two angular velocities. *)
Definition streams_ok (d : gmap string (list arr4)) : Prop :=
  map_Forall (fun _ q => valid_stream q /\ (3 <= length q)%nat) d.

(** A trial in which the sensors of both sides stay at rest for [n]
    samples. *)
Definition sensors_at_rest (n : nat) : gmap string (list arr4) :=
  <["left_thigh" := replicate n (A4 1 0 0 0)]>
    (<["left_shank" := replicate n (A4 1 0 0 0)]>
       (<["left_foot" := replicate n (A4 1 0 0 0)]>
          (<["right_thigh" := replicate n (A4 1 0 0 0)]>
             (<["right_shank" := replicate n (A4 1 0 0 0)]>
                (<["right_foot" := replicate n (A4 1 0 0 0)]> ∅))))).

(** * The axes as a function of the relative rotations *)

(** align.py, lines 38-56, on the stack of relative rotations: the angular
    velocities enter through their covariance, the relative rotations
    through their accumulated outer products. *)
Definition axes_from_stack (eigh3 : mat3 -> vec3 * mat3) (eigh4 : mat4 -> arr4 * mat4)
    (rel : list Rotation.t) (fs : R) : result (nvec3 * nvec3) :=
  let w := map (fun d => vscale fs (as_rotvec d)) (delta_stack rel) in
  if (length w <? 2)%nat then Raise (ValueError too_few_points_msg)
  else
    let axis_p := col 2 (eigh3 (cov w)).2 in
    let axis_d := apply (col4 3 (eigh4 (accumulate rel)).2) axis_p in
    Ok (np_normalize axis_p, np_normalize axis_d).

(** * A common rotation of both sensors *)

(** The quaternion product on [w, x, y, z] arrays: [c] composed with [q],
    [q] applied first. *)
Definition compose_wxyz (c q : arr4) : arr4 :=
  to_wxyz_quat (Rotation.compose_quat (to_scipy_quat c) (to_scipy_quat q)).

(** Every sample [q] replaced by [c] composed with [q], and by [q]
    composed with [c]. *)
Definition rotate_left (c : arr4) (stream : list arr4) : list arr4 :=
  map (compose_wxyz c) stream.
Definition rotate_right (c : arr4) (stream : list arr4) : list arr4 :=
  map (fun q => compose_wxyz q c) stream.

(** Two directions on the same line. *)
Definition same_axis (a b : vec3) : Prop := a = b \/ a = vscale (-1) b.

(** ** A knee trial of three samples

    The thigh sensor at rest, the shank sensor making a half turn about its
    x axis at the last sample; and the rotation by a third of a turn about
    the diagonal (1, 1, 1), which takes the x axis to the y axis. *)
Definition thigh_at_rest3 : list arr4 := [A4 1 0 0 0; A4 1 0 0 0; A4 1 0 0 0].
Definition shank_half_turn3 : list arr4 := [A4 1 0 0 0; A4 1 0 0 0; A4 0 1 0 0].
Definition third_turn : arr4 := A4 (1/2) (1/2) (1/2) (1/2).

(** * The double cover and the scale of the samples *)

(** A sample and a positive multiple of it; a sample and a non-zero
    multiple of it (its negation, for the factor -1). *)
Definition same_ray (q q' : arr4) : Prop := exists c, 0 < c /\ q' = scale4 c q.
Definition same_line (q q' : arr4) : Prop := exists c, c <> 0 /\ q' = scale4 c q.

(** ** A trial of five samples

    The proximal sensor at rest; the distal sensor makes half turns: about
    x, back, about y, and about y again.  Every rotation between
    consecutive relative rotations is a half turn. *)
Definition proximal_at_rest5 : list arr4 :=
  [A4 1 0 0 0; A4 1 0 0 0; A4 1 0 0 0; A4 1 0 0 0; A4 1 0 0 0].
Definition distal_half_turns5 : list arr4 :=
  [A4 1 0 0 0; A4 0 1 0 0; A4 1 0 0 0; A4 0 0 1 0; A4 (-1) 0 0 0].

(** * Contract of [Rotation.from_matrix]

    What is known of [Rotation.from_matrix] on a matrix that holds nan: the
    decomposition it runs on the matrix does not converge, and it raises. *)
Definition from_matrix_rejects_nan (from_matrix : nmat3 -> result Rotation.t) : Prop :=
  forall m, finite_mat m = None -> exists e, from_matrix m = Raise e.

(** A sample of [Rotation.from_matrix] that rejects a matrix holding nan as
    scipy does; on a finite matrix it answers the identity and is not meant
    to be scipy's. *)
Definition from_matrix_nan_check (m : nmat3) : result Rotation.t :=
  match finite_mat m with
  | Some _ => Ok identity
  | None => Raise (LinAlgError "SVD did not converge")
  end.

(** * Euler angles of the anatomical rotation *)

(** What [Rotation.as_euler] returns for the rotation [r]: angles from
    which [Rotation.from_euler], with the same sequence and unit, builds
    [r] again. *)
Definition as_euler_contract (as_euler : string -> bool -> Rotation.t -> result vec3)
    (seq : string) (degrees : bool) (r : Rotation.t) : Prop :=
  forall angles, as_euler seq degrees r = Ok angles ->
    exists r', from_euler seq degrees angles = Ok r' /\ same_rotation r' r.

(** The answer (90, 0, 90) degrees, which is right for the third of a turn
    about the diagonal read as extrinsic x-y-z angles. *)
Definition as_euler_third_turn : string -> bool -> Rotation.t -> result vec3 :=
  fun _ _ _ => Ok (V3 90 0 90).

(** The answer (0, 0, 0), which is right for the identity. *)
Definition as_euler_identity : string -> bool -> Rotation.t -> result vec3 :=
  fun _ _ _ => Ok vzero.

(** * Further vocabulary: streams *)

(** A sample that [Rotation.from_quat] rejects. *)
Definition zero_sample (q : arr4) : Prop := norm4 q = 0.

(** * Further vocabulary: frames *)

(** The opposite of an array that may hold nan. *)
Definition np_neg (a : nvec3) : nvec3 := vscale (-1) <$> a.

(** * human_move.py: the error between the model and the sensors *)

(** human_move.py, lines 124-132, for one link: the model orientation and
    the target orientation are quaternions in [x, y, z, w] order. *)
Definition link_error (model_quat target_quat : arr4) : R :=
  let q_model_inv := A4 (a0 model_quat) (a1 model_quat) (a2 model_quat) (- a3 model_quat) in
  let diff_w := a3 target_quat * a3 q_model_inv - a0 target_quat * a0 q_model_inv
                - a1 target_quat * a1 q_model_inv - a2 target_quat * a2 q_model_inv in
  1 - diff_w * diff_w.

(** human_move.py, lines 120-135: the loop over [enumerate(current_states)],
    from index [i] and the total so far; [None] is the IndexError of
    [target_quats_ordered[i]]. *)
Fixpoint accumulate_error (current_states target_quats_ordered : list arr4) (i : nat) (total_error : R)
  : option R :=
  match current_states with
  | [] => Some total_error
  | state :: rest =>
      match target_quats_ordered !! i with
      | None => None
      | Some target_quat =>
          accumulate_error rest target_quats_ordered (S i)
            (total_error + link_error state target_quat)
      end
  end.

Section Pose.

(** pybullet: the joints are set to the angles ([resetJointState]) and the
    orientations of the links with sensors are read back ([getLinkStates]). *)
Variable link_orientations : list R -> list arr4.

(** human_move.py, lines 113-135, with the global [target_quats_ordered]
    as an argument. *)
Definition cost_function (target_quats_ordered : list arr4) (angles : list R) : option R :=
  accumulate_error (link_orientations angles) target_quats_ordered 0 0.

End Pose.

(** The sum of the errors of the links, pair by pair. *)
Definition sum_errors (states targets : list arr4) : R :=
  foldr Rplus 0 (zip_with link_error states targets).

(** * data process.py: the reader of the serial stream *)

(** The tab character. *)
Definition tab : ascii := Ascii.ascii_of_nat 9.

(** Python's [str.split] with a separator of one character. *)
Fixpoint split (sep : ascii) (s : string) : list string :=
  match s with
  | EmptyString => [EmptyString]
  | String c rest =>
      if Ascii.eqb c sep then EmptyString :: split sep rest
      else match split sep rest with
           | field :: fields => String c field :: fields
           | [] => [String c EmptyString]
           end
  end.

(** Python's [dict] of a list of pairs: a later pair replaces an earlier
    one with the same key. *)
Definition dict {A} (pairs : list (string * A)) : gmap string A :=
  foldl (fun d kv => <[kv.1 := kv.2]> d) ∅ pairs.

(** data process.py, line 25. *)
Definition window_size : nat := 200.

Section Serial.

(** The floats of Python and [float] on a string; [None] is its
    ValueError. *)
Variable F : Type.
Variable float : string -> option F.

(** The globals of data process.py, lines 15-26. *)
Record reader := Reader {
  reading : bool;
  calibrating : bool;
  headers : list string;
  data_rows : list (gmap string string);
  sample_count : nat;
  x_data : list nat;
  pitch_data : list F;
  roll_data : list F;
  yaw_data : list F
}.

(** data process.py, lines 86-103: a row with as many values as headers.
    The ValueError of [float] leaves the [try] block with what was
    appended so far; the KeyError of [row[...]] is not caught.  The four
    [pop(0)] follow the four [append], so they never find an empty list. *)
Definition record_row (st : reader) (values : list string) : result reader :=
  let row := dict (zip (headers st) values) in
  let data_rows' := data_rows st ++ [row] in
  let sample_count' := S (sample_count st) in
  let x_data' := x_data st ++ [length (x_data st)] in
  pitch ← getitem row "pitch";
  match float pitch with
  | None =>
      Ok (Reader (reading st) (calibrating st) (headers st) data_rows' sample_count'
            x_data' (pitch_data st) (roll_data st) (yaw_data st))
  | Some pitch =>
      let pitch_data' := pitch_data st ++ [pitch] in
      roll ← getitem row "roll";
      match float roll with
      | None =>
          Ok (Reader (reading st) (calibrating st) (headers st) data_rows' sample_count'
                x_data' pitch_data' (roll_data st) (yaw_data st))
      | Some roll =>
          let roll_data' := roll_data st ++ [roll] in
          yaw ← getitem row "yaw";
          match float yaw with
          | None =>
              Ok (Reader (reading st) (calibrating st) (headers st) data_rows' sample_count'
                    x_data' pitch_data' roll_data' (yaw_data st))
          | Some yaw =>
              let yaw_data' := yaw_data st ++ [yaw] in
              if (window_size <? length x_data')%nat then
                Ok (Reader (reading st) (calibrating st) (headers st) data_rows' sample_count'
                      (drop 1 x_data') (drop 1 pitch_data') (drop 1 roll_data')
                      (drop 1 yaw_data'))
              else
                Ok (Reader (reading st) (calibrating st) (headers st) data_rows' sample_count'
                      x_data' pitch_data' roll_data' yaw_data')
          end
      end
  end.

(** data process.py, lines 56-103: one decoded and stripped line of the
    serial port (the status label and the printed messages are not
    modelled). *)
Definition update_line (st : reader) (line : string) : result reader :=
  if String.prefix "Calibrating" line then
    Ok (Reader (reading st) true (headers st) (data_rows st) (sample_count st)
          (x_data st) (pitch_data st) (roll_data st) (yaw_data st))
  else if String.eqb line "===CALIBRATION_DONE===" then
    Ok (Reader (reading st) false (headers st) (data_rows st) (sample_count st)
          (x_data st) (pitch_data st) (roll_data st) (yaw_data st))
  else if String.eqb line "===START===" then
    Ok (Reader true (calibrating st) (headers st) (data_rows st) (sample_count st)
          (x_data st) (pitch_data st) (roll_data st) (yaw_data st))
  else if negb (reading st) then Ok st
  else if String.prefix "timestamp" line then
    Ok (Reader (reading st) (calibrating st) (split tab line) (data_rows st) (sample_count st)
          (x_data st) (pitch_data st) (roll_data st) (yaw_data st))
  else
    let values := split tab line in
    if negb (length values =? length (headers st))%nat then Ok st
    else record_row st values.

(** data process.py, lines 47-103: the loop of [update] over the lines
    that wait on the serial port. *)
Fixpoint update_lines (st : reader) (lines : list string) : result reader :=
  match lines with
  | [] => Ok st
  | line :: rest => st' ← update_line st line; update_lines st' rest
  end.

End Serial.

Arguments Reader {F}.
Arguments reading {F}.
Arguments calibrating {F}.
Arguments headers {F}.
Arguments data_rows {F}.
Arguments sample_count {F}.
Arguments x_data {F}.
Arguments pitch_data {F}.
Arguments roll_data {F}.
Arguments yaw_data {F}.
Arguments record_row {F}.
Arguments update_line {F}.
Arguments update_lines {F}.

(** The state when the program starts (lines 15-26). *)
Definition initial_reader {F} : reader F := Reader false true [] [] 0 [] [] [] [].

(** Python's [str.join] with a separator of one character. *)
Fixpoint join (sep : ascii) (fields : list string) : string :=
  match fields with
  | [] => EmptyString
  | [field] => field
  | field :: rest => (field ++ String sep (join sep rest))%string
  end.

(** The lengths of the plotted series: each is at most the one before,
    and the last one fits the window. *)
Definition series_ordered {F} (st : reader F) : Prop :=
  (length (yaw_data st) <= length (roll_data st) <= length (pitch_data st))%nat
  /\ (length (pitch_data st) <= length (x_data st))%nat
  /\ (length (yaw_data st) <= window_size)%nat.

(** The columns that [update] reads. *)
Definition plotted_columns : list string := ["pitch"; "roll"; "yaw"].

(** A line that is a row of data or a malformed line, not a message of
    the protocol or a header. *)
Definition data_line (line : string) : Prop :=
  String.prefix "Calibrating" line = false
  /\ line <> "===CALIBRATION_DONE===" /\ line <> "===START==="
  /\ String.prefix "timestamp" line = false.

(** The headers are still empty or name every plotted column. *)
Definition columns_present {F} (st : reader F) : Prop :=
  headers st = [] \/ Forall (fun column => column ∈ headers st) plotted_columns.

(** A line that, if it is a header, names every plotted column. *)
Definition complete_header (line : string) : Prop :=
  String.prefix "timestamp" line = true ->
  Forall (fun column => column ∈ split tab line) plotted_columns.

(** A sample of [float]: it reads the digit one and nothing else. *)
Definition float_one (s : string) : option nat :=
  if String.eqb s "1" then Some 1%nat else None.

(** * human_move.py: loading the recorded data *)

(** [np.radians] on an array of three numbers. *)
Definition np_radians (a : vec3) : vec3 :=
  V3 (deg2rad (v0 a)) (deg2rad (v1 a)) (deg2rad (v2 a)).

(** An array of three numbers divided by a number. *)
Definition np_div (a : vec3) (c : R) : vec3 := V3 (v0 a / c) (v1 a / c) (v2 a / c).

(** human_move.py, lines 26-33: the columns of each sensor, the
    accelerometer first and the gyroscope after it. *)
Definition sensor_columns : gmap string (list string) :=
  dict [("thigh_r", ["accelerometer_right_thigh_x"; "accelerometer_right_thigh_y";
                     "accelerometer_right_thigh_z"; "gyroscope_right_thigh_x";
                     "gyroscope_right_thigh_y"; "gyroscope_right_thigh_z"]);
        ("shank_r", ["accelerometer_right_shin_x"; "accelerometer_right_shin_y";
                     "accelerometer_right_shin_z"; "gyroscope_right_shin_x";
                     "gyroscope_right_shin_y"; "gyroscope_right_shin_z"]);
        ("foot_r", ["accelerometer_right_foot_x"; "accelerometer_right_foot_y";
                    "accelerometer_right_foot_z"; "gyroscope_right_foot_x";
                    "gyroscope_right_foot_y"; "gyroscope_right_foot_z"]);
        ("thigh_l", ["accelerometer_left_thigh_x"; "accelerometer_left_thigh_y";
                     "accelerometer_left_thigh_z"; "gyroscope_left_thigh_x";
                     "gyroscope_left_thigh_y"; "gyroscope_left_thigh_z"]);
        ("shank_l", ["accelerometer_left_shin_x"; "accelerometer_left_shin_y";
                     "accelerometer_left_shin_z"; "gyroscope_left_shin_x";
                     "gyroscope_left_shin_y"; "gyroscope_left_shin_z"]);
        ("foot_l", ["accelerometer_left_foot_x"; "accelerometer_left_foot_y";
                    "accelerometer_left_foot_z"; "gyroscope_left_foot_x";
                    "gyroscope_left_foot_y"; "gyroscope_left_foot_z"])].

(** The columns of a sensor, none for a name that is no key. *)
Definition columns_of (name : string) : list string :=
  default [] (sensor_columns !! name).

Section Loading.

(** pandas: the rows of the table, and [row[columns].values.astype(float)]
    for three columns, with what it raises. *)
Variable Row : Type.
Variable row_values : Row -> list string -> result vec3.

(** ahrs: [Madgwick(frequency=100.0).updateIMU(q, gyr, acc)], on
    quaternions in [w, x, y, z] order. *)
Variable updateIMU : arr4 -> vec3 -> vec3 -> arr4.

(** human_move.py, lines 45-61: one link of one row; the state is
    [last_quats] and [frame_quats]. *)
Definition update_link (row : Row) (st : gmap string arr4 * gmap string arr4)
  (link_name : string) : result (gmap string arr4 * gmap string arr4) :=
  columns ← getitem sensor_columns link_name;
  values ← row_values row (take 3 columns);
  let accel := np_div values 16384 in
  values ← row_values row (take 3 (drop 3 columns));
  let gyro := np_radians values in
  q_prev ← getitem st.1 link_name;
  let q_new := updateIMU q_prev gyro accel in
  Ok (<[link_name := q_new]> st.1,
      <[link_name := A4 (a1 q_new) (a2 q_new) (a3 q_new) (a0 q_new)]> st.2).

(** human_move.py, lines 43-64: one row; the state is [last_quats] and
    [all_frames_quats]. *)
Definition load_frame (sensor_link_names : list string)
  (st : gmap string arr4 * list (list arr4)) (row : Row)
  : result (gmap string arr4 * list (list arr4)) :=
  st' ← foldR (update_link row) (st.1, ∅) sensor_link_names;
  ordered_quats ← mapR (getitem st'.2) sensor_link_names;
  Ok (st'.1, st.2 ++ [ordered_quats]).

(** human_move.py, lines 16-67; [df] is the table that [pd.read_csv]
    returns, or [None] when it raises FileNotFoundError. *)
Definition load_and_preprocess_data (df : option (list Row)) (sensor_link_names : list string)
  : result (option (list (list arr4))) :=
  match df with
  | None => Ok None
  | Some rows =>
      let last_quats := dict ((fun name => (name, A4 1 0 0 0)) <$> sensor_link_names) in
      st ← foldR (load_frame sensor_link_names) (last_quats, []) rows;
      Ok (Some st.2)
  end.

(** The filter of one sensor run over rows from the identity, when the
    values of a row are given by [values]. *)
Definition filter_step (values : Row -> list string -> vec3) (columns : list string)
  (q : arr4) (row : Row) : arr4 :=
  updateIMU q (np_radians (values row (take 3 (drop 3 columns))))
    (np_div (values row (take 3 columns)) 16384).

Definition track (values : Row -> list string -> vec3) (columns : list string)
  (rows : list Row) : arr4 :=
  foldl (filter_step values columns) (A4 1 0 0 0) rows.

(** The frames expected from independent filters: frame [k] holds, for
    each name, the filter of its sensor after rows [0..k]. *)
Definition tracked_frames (values : Row -> list string -> vec3) (rows : list Row)
  (sensor_link_names : list string) : list (list arr4) :=
  (fun k => (fun name => to_scipy_quat
                           (track values (columns_of name) (take (S k) rows)))
              <$> sensor_link_names) <$> seq 0 (length rows).

End Loading.

Arguments update_link {Row}.
Arguments load_frame {Row}.
Arguments load_and_preprocess_data {Row}.
Arguments filter_step {Row}.
Arguments track {Row}.
Arguments tracked_frames {Row}.

(** * Elementary facts on arrays *)

Lemma vec3_eq (a b : vec3) : v0 a = v0 b -> v1 a = v1 b -> v2 a = v2 b -> a = b.
Proof. destruct a, b; simpl; intros; subst; reflexivity. Qed.

Lemma arr4_eq (p q : arr4) :
  a0 p = a0 q -> a1 p = a1 q -> a2 p = a2 q -> a3 p = a3 q -> p = q.
Proof. destruct p, q; simpl; intros; subst; reflexivity. Qed.

(** Unfolding of the array operations down to real arithmetic. *)
Ltac arr_unfold :=
  cbv [mmul mulv transpose col col4 dot dot4 cross vscale vadd vsub scale4 mulv4
       mat3_id mat4_id vzero outer madd mscale mzero det nth4 mat4_of_cols
       diagonal3 diagonal4 identity to_scipy_quat to_wxyz_quat
       Rotation.compose_quat Rotation.conj Rotation.apply Rotation.as_matrix
       Rotation.outer4 Rotation.add4 Rotation.madd4 Rotation.mzero4
       m0 m1 m2 v0 v1 v2 a0 a1 a2 a3 k0 k1 k2 k3] in *.

Ltac vec_ring := apply vec3_eq; arr_unfold; ring.
Ltac quat_ring := apply arr4_eq; arr_unfold; ring.

Lemma dot4_nonneg q : 0 <= dot4 q q.
Proof. unfold dot4. nra. Qed.

Lemma dot_nonneg a : 0 <= dot a a.
Proof. unfold dot. nra. Qed.

Lemma norm4_zero_iff q : norm4 q = 0 <-> dot4 q q = 0.
Proof.
  unfold norm4. split; intros H.
  - apply sqrt_eq_0; [apply dot4_nonneg | exact H].
  - rewrite H. apply sqrt_0.
Qed.

Lemma norm_zero_iff a : norm a = 0 <-> dot a a = 0.
Proof.
  unfold norm. split; intros H.
  - apply sqrt_eq_0; [apply dot_nonneg | exact H].
  - rewrite H. apply sqrt_0.
Qed.

Lemma dot_zero_iff a : dot a a = 0 <-> a = vzero.
Proof.
  split; intros H.
  - unfold dot in H. apply vec3_eq; simpl; nra.
  - subst. unfold dot; simpl. ring.
Qed.

Lemma norm_sqr a : norm a * norm a = dot a a.
Proof. apply sqrt_sqrt, dot_nonneg. Qed.

Lemma norm4_sqr q : norm4 q * norm4 q = dot4 q q.
Proof. apply sqrt_sqrt, dot4_nonneg. Qed.

Lemma norm_nonneg a : 0 <= norm a.
Proof. apply sqrt_pos. Qed.

Lemma norm4_nonneg q : 0 <= norm4 q.
Proof. apply sqrt_pos. Qed.

Lemma dot_vscale_l c a b : dot (vscale c a) b = c * dot a b.
Proof. unfold dot; simpl. ring. Qed.

Lemma dot_vscale_r c a b : dot a (vscale c b) = c * dot a b.
Proof. unfold dot; simpl. ring. Qed.

Lemma dot_comm a b : dot a b = dot b a.
Proof. unfold dot. ring. Qed.

Lemma norm_vscale c a : norm (vscale c a) = Rabs c * norm a.
Proof.
  unfold norm. rewrite dot_vscale_l, dot_vscale_r, <- Rmult_assoc.
  rewrite sqrt_mult; [| nra | apply dot_nonneg].
  f_equal. replace (c * c) with (Rsqr c) by (unfold Rsqr; ring). apply sqrt_Rsqr_abs.
Qed.

Lemma norm4_scale4 c q : norm4 (scale4 c q) = Rabs c * norm4 q.
Proof.
  unfold norm4.
  replace (dot4 (scale4 c q) (scale4 c q)) with (c * c * dot4 q q)
    by (unfold dot4; simpl; ring).
  rewrite sqrt_mult; [| nra | apply dot4_nonneg].
  f_equal. replace (c * c) with (Rsqr c) by (unfold Rsqr; ring). apply sqrt_Rsqr_abs.
Qed.


Lemma unit3_norm a : unit3 a -> norm a = 1.
Proof. unfold unit3, norm. intros ->. apply sqrt_1. Qed.

Lemma unit4_norm q : unit4 q -> norm4 q = 1.
Proof. unfold unit4, norm4. intros ->. apply sqrt_1. Qed.

Lemma norm_unit3 a : norm a = 1 -> unit3 a.
Proof. intros H. unfold unit3. rewrite <- norm_sqr, H. ring. Qed.

Lemma vscale_1 a : vscale 1 a = a.
Proof. vec_ring. Qed.

Lemma scale4_1 q : scale4 1 q = q.
Proof. quat_ring. Qed.

Lemma np_normalize_unit a : unit3 a -> np_normalize a = Some a.
Proof.
  intros H. unfold np_normalize. rewrite (unit3_norm a H).
  destruct (Req_dec_T 1 0) as [E | _]; [lra |].
  rewrite Rinv_1, vscale_1. reflexivity.
Qed.

Lemma np_normalize_some a : norm a <> 0 -> np_normalize a = Some (vscale (/ norm a) a).
Proof. intros H. unfold np_normalize. destruct (Req_dec_T (norm a) 0); [contradiction | reflexivity]. Qed.

Lemma np_normalize_zero : np_normalize vzero = None.
Proof.
  unfold np_normalize. destruct (Req_dec_T (norm vzero) 0) as [_ | H]; [reflexivity |].
  exfalso. apply H. apply norm_zero_iff. unfold dot; simpl. ring.
Qed.

Lemma vscale_inv_norm_unit a : norm a <> 0 -> unit3 (vscale (/ norm a) a).
Proof.
  intros H. unfold unit3. rewrite dot_vscale_l, dot_vscale_r, <- norm_sqr.
  field. exact H.
Qed.


Lemma unitize_unit q : norm4 q <> 0 -> unit4 (unitize q).
Proof.
  intros H. unfold unit4, unitize.
  replace (dot4 (scale4 (/ norm4 q) q) (scale4 (/ norm4 q) q))
    with (/ norm4 q * / norm4 q * dot4 q q) by (unfold dot4; simpl; ring).
  rewrite <- norm4_sqr. field. exact H.
Qed.

Lemma unitize_of_unit q : unit4 q -> unitize q = q.
Proof. intros H. unfold unitize. rewrite (unit4_norm q H), Rinv_1. apply scale4_1. Qed.

Lemma unit4_norm_nonzero q : unit4 q -> norm4 q <> 0.
Proof. intros H. rewrite (unit4_norm q H). lra. Qed.

Module RotationFacts.

Lemma normalized_ok q : norm4 q <> 0 -> normalized q = Ok (unitize q).
Proof. intros H. unfold normalized. destruct (Req_dec_T (norm4 q) 0); [contradiction | reflexivity]. Qed.

Lemma normalized_unit q : unit4 q -> normalized q = Ok q.
Proof.
  intros H. rewrite normalized_ok by (apply unit4_norm_nonzero, H).
  rewrite unitize_of_unit by exact H. reflexivity.
Qed.

Lemma normalized_zero q : norm4 q = 0 -> normalized q = Raise (ValueError zero_norm_msg).
Proof. intros H. unfold normalized. destruct (Req_dec_T (norm4 q) 0); [reflexivity | contradiction]. Qed.

Lemma normalized_inv q r : normalized q = Ok r -> norm4 q <> 0 /\ r = unitize q.
Proof.
  unfold normalized. destruct (Req_dec_T (norm4 q) 0); [discriminate |].
  intros [= <-]. split; [assumption | reflexivity].
Qed.

Lemma dot4_compose p q : dot4 (compose_quat p q) (compose_quat p q) = dot4 p p * dot4 q q.
Proof. unfold dot4, compose_quat; simpl. ring. Qed.

Lemma dot4_conj p : dot4 (conj p) (conj p) = dot4 p p.
Proof. unfold dot4, conj; simpl. ring. Qed.

Lemma compose_unit p q : unit4 p -> unit4 q -> unit4 (compose_quat p q).
Proof. unfold unit4. intros Hp Hq. rewrite dot4_compose, Hp, Hq. ring. Qed.

Lemma conj_unit p : unit4 p -> unit4 (conj p).
Proof. unfold unit4. rewrite dot4_conj. trivial. Qed.

Lemma compose_assoc p q r :
  compose_quat (compose_quat p q) r = compose_quat p (compose_quat q r).
Proof. quat_ring. Qed.


Lemma compose_id_l p : compose_quat identity p = p.
Proof. quat_ring. Qed.

Lemma compose_id_r p : compose_quat p identity = p.
Proof. quat_ring. Qed.

Lemma compose_conj_r p : unit4 p -> compose_quat p (conj p) = identity.
Proof.
  unfold unit4, dot4. intros H. apply arr4_eq; simpl; try ring.
  rewrite <- H. ring.
Qed.

Lemma compose_conj_l p : unit4 p -> compose_quat (conj p) p = identity.
Proof.
  unfold unit4, dot4. intros H. apply arr4_eq; simpl; try ring.
  rewrite <- H. ring.
Qed.

Lemma conj_compose p q : conj (compose_quat p q) = compose_quat (conj q) (conj p).
Proof. quat_ring. Qed.

Lemma conj_conj p : conj (conj p) = p.
Proof. quat_ring. Qed.

Lemma mul1_unit p q : unit4 p -> unit4 q -> mul1 p q = Ok (compose_quat p q).
Proof. intros Hp Hq. apply normalized_unit, compose_unit; assumption. Qed.

Lemma inv1_unit p : unit4 p -> inv1 p = Ok (conj p).
Proof. intros Hp. apply normalized_unit, conj_unit, Hp. Qed.

End RotationFacts.

(** ** Lists of results *)

Lemma mapR_ok {A B} (f : A -> result B) (g : A -> B) (xs : list A) :
  Forall (fun x => f x = Ok (g x)) xs -> mapR f xs = Ok (map g xs).
Proof.
  induction 1 as [| x xs Hx _ IH]; simpl; [reflexivity |].
  rewrite Hx; simpl. rewrite IH; simpl. reflexivity.
Qed.

Lemma mapR_length {A B} (f : A -> result B) (xs : list A) (ys : list B) :
  mapR f xs = Ok ys -> length ys = length xs.
Proof.
  revert ys. induction xs as [| x xs IH]; simpl; intros ys H.
  - injection H as <-. reflexivity.
  - destruct (f x) as [y |]; simpl in H; [| discriminate].
    destruct (mapR f xs) as [ys' |]; simpl in H; [| discriminate].
    injection H as <-. simpl. f_equal. apply IH. reflexivity.
Qed.


(** ** Stacks of unit quaternions *)

Module StackFacts.
Import RotationFacts.

Lemma norm4_to_scipy q : norm4 (to_scipy_quat q) = norm4 q.
Proof. unfold norm4. f_equal. unfold dot4; simpl. ring. Qed.

Lemma from_quat_ok qs :
  Forall (fun q => norm4 q <> 0) qs -> from_quat qs = Ok (map unitize qs).
Proof.
  intros H. apply mapR_ok. eapply Forall_impl; [exact H |].
  intros q Hq. apply normalized_ok, Hq.
Qed.

Lemma from_quat_units qs : Forall (fun q => norm4 q <> 0) qs -> Forall unit4 (map unitize qs).
Proof.
  intros H. apply Forall_fmap. eapply Forall_impl; [exact H |].
  intros q Hq. apply unitize_unit, Hq.
Qed.

Lemma inv_ok ps : Forall unit4 ps -> inv ps = Ok (map conj ps).
Proof.
  intros H. apply mapR_ok. eapply Forall_impl; [exact H |].
  intros q Hq. apply inv1_unit, Hq.
Qed.

Lemma inv_units ps : Forall unit4 ps -> Forall unit4 (map conj ps).
Proof.
  intros H. apply Forall_fmap. eapply Forall_impl; [exact H |].
  intros q Hq. apply conj_unit, Hq.
Qed.

Lemma mapR_zip_mul1 ps qs :
  Forall unit4 ps -> Forall unit4 qs ->
  mapR (fun pq => mul1 pq.1 pq.2) (zip ps qs) = Ok (zip_with compose_quat ps qs).
Proof.
  intros Hp. revert qs. induction Hp as [| p ps Hp _ IH]; intros qs Hq.
  - reflexivity.
  - destruct Hq as [| q qs Hq Hqs]; [reflexivity |].
    simpl. rewrite (mul1_unit p q Hp Hq); simpl.
    rewrite (IH qs Hqs); simpl. reflexivity.
Qed.

Lemma mul_ok ps qs :
  length ps = length qs -> Forall unit4 ps -> Forall unit4 qs ->
  mul ps qs = Ok (zip_with compose_quat ps qs).
Proof.
  intros Hlen Hp Hq. unfold mul.
  rewrite Hlen, Nat.eqb_refl. apply mapR_zip_mul1; assumption.
Qed.

Lemma zip_with_units ps qs :
  Forall unit4 ps -> Forall unit4 qs -> Forall unit4 (zip_with compose_quat ps qs).
Proof.
  intros Hp. revert qs. induction Hp as [| p ps Hp _ IH]; intros qs Hq.
  - constructor.
  - destruct Hq as [| q qs Hq Hqs]; [constructor |].
    simpl. constructor; [apply compose_unit; assumption | apply IH, Hqs].
Qed.


Lemma Forall_nonzero_to_scipy qs :
  Forall (fun q => norm4 q <> 0) qs ->
  Forall (fun q => norm4 q <> 0) (map to_scipy_quat qs).
Proof.
  intros H. apply Forall_fmap. eapply Forall_impl; [exact H |].
  intros q Hq. simpl. rewrite norm4_to_scipy. exact Hq.
Qed.

Lemma rel_stack_units proximal_q distal_q :
  Forall (fun q => norm4 q <> 0) proximal_q ->
  Forall (fun q => norm4 q <> 0) distal_q ->
  Forall unit4 (rel_stack proximal_q distal_q).
Proof.
  intros Hp Hd. apply zip_with_units.
  - apply from_quat_units, Forall_nonzero_to_scipy, Hd.
  - apply inv_units, from_quat_units, Forall_nonzero_to_scipy, Hp.
Qed.

Lemma rel_stack_length proximal_q distal_q :
  length proximal_q = length distal_q ->
  length (rel_stack proximal_q distal_q) = length proximal_q.
Proof.
  intros H. unfold rel_stack. rewrite length_zip_with, !length_fmap. lia.
Qed.

Lemma relative_rotation_ok proximal_q distal_q :
  length proximal_q = length distal_q ->
  Forall (fun q => norm4 q <> 0) proximal_q ->
  Forall (fun q => norm4 q <> 0) distal_q ->
  relative_rotation proximal_q distal_q = Ok (rel_stack proximal_q distal_q).
Proof.
  intros Hlen Hp Hd. unfold relative_rotation.
  rewrite (from_quat_ok _ (Forall_nonzero_to_scipy _ Hp)); simpl.
  rewrite (from_quat_ok _ (Forall_nonzero_to_scipy _ Hd)); simpl.
  rewrite inv_ok by (apply from_quat_units, Forall_nonzero_to_scipy, Hp); simpl.
  apply mul_ok.
  - rewrite !length_fmap. symmetry. exact Hlen.
  - apply from_quat_units, Forall_nonzero_to_scipy, Hd.
  - apply inv_units, from_quat_units, Forall_nonzero_to_scipy, Hp.
Qed.

Lemma delta_stack_length rel : length (delta_stack rel) = (length rel - 1)%nat.
Proof.
  unfold delta_stack. rewrite length_zip_with, length_fmap, length_take, length_drop. lia.
Qed.

Lemma delta_relative_rotation_ok rel :
  Forall unit4 rel -> delta_relative_rotation rel = Ok (delta_stack rel).
Proof.
  intros H. unfold delta_relative_rotation.
  rewrite inv_ok by (apply Forall_take, H); simpl.
  apply mul_ok.
  - rewrite length_fmap, length_take, length_drop. lia.
  - apply inv_units, Forall_take, H.
  - apply Forall_drop, H.
Qed.


Lemma relative_ang_vel_ok proximal_q distal_q fs :
  length proximal_q = length distal_q ->
  Forall (fun q => norm4 q <> 0) proximal_q ->
  Forall (fun q => norm4 q <> 0) distal_q ->
  relative_ang_vel proximal_q distal_q fs = Ok (ang_vel_stack proximal_q distal_q fs).
Proof.
  intros Hlen Hp Hd. unfold relative_ang_vel.
  rewrite (relative_rotation_ok _ _ Hlen Hp Hd); simpl.
  rewrite (delta_relative_rotation_ok _ (rel_stack_units _ _ Hp Hd)); simpl.
  reflexivity.
Qed.

Lemma ang_vel_stack_length proximal_q distal_q fs :
  length proximal_q = length distal_q ->
  length (ang_vel_stack proximal_q distal_q fs) = (length proximal_q - 1)%nat.
Proof.
  intros H. unfold ang_vel_stack.
  rewrite length_fmap, delta_stack_length, rel_stack_length by exact H. reflexivity.
Qed.

Lemma rel_stack_lookup proximal_q distal_q i p d :
  proximal_q !! i = Some p -> distal_q !! i = Some d ->
  rel_stack proximal_q distal_q !! i
  = Some (compose_quat (unitize (to_scipy_quat d)) (conj (unitize (to_scipy_quat p)))).
Proof.
  intros Hp Hd. unfold rel_stack.
  rewrite lookup_zip_with, !list_lookup_fmap, Hp, Hd. reflexivity.
Qed.

Lemma delta_stack_lookup rel i r r' :
  rel !! i = Some r -> rel !! S i = Some r' ->
  delta_stack rel !! i = Some (compose_quat (conj r) r').
Proof.
  intros Hr Hr'. unfold delta_stack.
  assert (S i < length rel)%nat by (eapply lookup_lt_Some; exact Hr').
  rewrite lookup_zip_with, list_lookup_fmap.
  rewrite lookup_take_lt by lia.
  rewrite lookup_drop. simpl. rewrite Hr, Hr'. reflexivity.
Qed.

End StackFacts.

(** * Relative motion (align.py, lines 28-42) *)

Import RotationFacts StackFacts.



(** C1: for two streams of the same length N, the relative rotation has N
    elements, [rel[i] = distal[i] * inverse(proximal[i])] on the normalised
    samples, and the angular velocity has N - 1 elements,
    [w[i] = as_rotvec(inverse(rel[i]) * rel[i+1]) * fs], built from the
    consecutive pairs only. *)
Theorem relative_ang_vel_consecutive (proximal distal : list arr4) (fs : R) :
  length proximal = length distal ->
  valid_stream proximal -> valid_stream distal ->
  exists rel w,
    relative_rotation proximal distal = Ok rel /\
    length rel = length proximal /\
    (forall i p d, proximal !! i = Some p -> distal !! i = Some d ->
       rel !! i = Some (compose_quat (unitize (to_scipy_quat d))
                                     (conj (unitize (to_scipy_quat p))))) /\
    relative_ang_vel proximal distal fs = Ok w /\
    length w = (length proximal - 1)%nat /\
    (forall i r r', rel !! i = Some r -> rel !! S i = Some r' ->
       w !! i = Some (vscale fs (as_rotvec (compose_quat (conj r) r')))) /\
    (forall i, (length proximal - 1 <= i)%nat -> w !! i = None).
Proof.
  intros Hlen Hp Hd.
  exists (rel_stack proximal distal), (ang_vel_stack proximal distal fs).
  split; [apply relative_rotation_ok; assumption |].
  split; [apply rel_stack_length; assumption |].
  split; [intros i p d; apply rel_stack_lookup |].
  split; [apply relative_ang_vel_ok; assumption |].
  split; [apply ang_vel_stack_length; assumption |].
  split.
  - intros i r r' Hr Hr'. unfold ang_vel_stack.
    rewrite list_lookup_fmap, (delta_stack_lookup _ i r r' Hr Hr'). reflexivity.
  - intros i Hi. apply lookup_ge_None.
    rewrite ang_vel_stack_length by assumption. exact Hi.
Qed.

Lemma norm4_wxyz_identity : norm4 (A4 1 0 0 0) <> 0.
Proof. rewrite norm4_zero_iff. unfold dot4; simpl. lra. Qed.

Lemma relative_ang_vel_consecutive_witness :
  exists rel w,
    relative_rotation [A4 1 0 0 0; A4 1 0 0 0] [A4 1 0 0 0; A4 1 0 0 0] = Ok rel /\
    length rel = 2%nat /\
    relative_ang_vel [A4 1 0 0 0; A4 1 0 0 0] [A4 1 0 0 0; A4 1 0 0 0] 100 = Ok w /\
    length w = 1%nat.
Proof.
  destruct (relative_ang_vel_consecutive
              [A4 1 0 0 0; A4 1 0 0 0] [A4 1 0 0 0; A4 1 0 0 0] 100)
    as (rel & w & H1 & H2 & _ & H4 & H5 & _).
  - reflexivity.
  - repeat constructor; apply norm4_wxyz_identity.
  - repeat constructor; apply norm4_wxyz_identity.
  - exists rel, w. repeat split; assumption.
Defined.

(** * Too few samples (align.py, lines 41-42) *)

Section TooFew.
Variable eigh3 : mat3 -> vec3 * mat3.
Variable eigh4 : mat4 -> arr4 * mat4.

Lemma find_rotation_axis_short proximal distal fs :
  length proximal = length distal ->
  valid_stream proximal -> valid_stream distal ->
  (length proximal < 3)%nat ->
  find_rotation_axis eigh3 eigh4 proximal distal fs = Raise (ValueError too_few_points_msg).
Proof.
  intros Hlen Hp Hd Hn. unfold find_rotation_axis.
  rewrite (relative_ang_vel_ok _ _ fs Hlen Hp Hd); simpl.
  rewrite (ang_vel_stack_length _ _ fs Hlen).
  destruct (Nat.ltb_spec (length proximal - 1) 2) as [_ | H]; [reflexivity | lia].
Qed.

Lemma find_rotation_axis_long proximal distal fs :
  length proximal = length distal ->
  valid_stream proximal -> valid_stream distal ->
  (3 <= length proximal)%nat ->
  find_rotation_axis eigh3 eigh4 proximal distal fs
  = let axis_p := col 2 (eigh3 (cov (ang_vel_stack proximal distal fs))).2 in
    let axis_d := apply (mean eigh4 (rel_stack proximal distal)) axis_p in
    Ok (np_normalize axis_p, np_normalize axis_d).
Proof.
  intros Hlen Hp Hd Hn. unfold find_rotation_axis.
  rewrite (relative_ang_vel_ok _ _ fs Hlen Hp Hd); simpl.
  rewrite (ang_vel_stack_length _ _ fs Hlen).
  destruct (Nat.ltb_spec (length proximal - 1) 2) as [H | _]; [lia |].
  destruct (eigh3 (cov (ang_vel_stack proximal distal fs))) as [eigenvalues eigenvectors].
  rewrite (relative_rotation_ok _ _ Hlen Hp Hd); simpl. reflexivity.
Qed.
End TooFew.

(** C4: on two streams of the same length N, [find_rotation_axis] raises
    its error for too few points exactly when N - 1 < 2; it then returns no
    axes, and it returns axes otherwise.  (The error is the [ValueError] of
    line 42, the InsufficientDataError of the design.) *)
Theorem find_rotation_axis_insufficient_data eigh3 eigh4 (proximal distal : list arr4) (fs : R) :
  length proximal = length distal ->
  valid_stream proximal -> valid_stream distal ->
  0 < fs ->
  (find_rotation_axis eigh3 eigh4 proximal distal fs = Raise (ValueError too_few_points_msg)
   <-> (Z.of_nat (length proximal) - 1 < 2)%Z) /\
  ((Z.of_nat (length proximal) - 1 < 2)%Z ->
   forall axes, find_rotation_axis eigh3 eigh4 proximal distal fs <> Ok axes) /\
  (~ (Z.of_nat (length proximal) - 1 < 2)%Z ->
   exists axes, find_rotation_axis eigh3 eigh4 proximal distal fs = Ok axes).
Proof.
  intros Hlen Hp Hd _.
  destruct (Nat.lt_ge_cases (length proximal) 3) as [Hn | Hn].
  - pose proof (find_rotation_axis_short eigh3 eigh4 _ _ fs Hlen Hp Hd Hn) as E.
    split; [split; [lia | intros _; exact E] |].
    split; [intros _ axes; rewrite E; discriminate | lia].
  - pose proof (find_rotation_axis_long eigh3 eigh4 _ _ fs Hlen Hp Hd Hn) as E.
    split; [split; [rewrite E; discriminate | lia] |].
    split; [lia |]. intros _. rewrite E. eexists. reflexivity.
Qed.

(** Two samples per stream: one angular velocity, and the error. *)
Lemma find_rotation_axis_insufficient_data_witness :
  find_rotation_axis eigh3_diagonal eigh4_diagonal
    [A4 1 0 0 0; A4 1 0 0 0] [A4 1 0 0 0; A4 1 0 0 0] 100
  = Raise (ValueError too_few_points_msg).
Proof.
  apply (find_rotation_axis_insufficient_data eigh3_diagonal eigh4_diagonal
           [A4 1 0 0 0; A4 1 0 0 0] [A4 1 0 0 0; A4 1 0 0 0] 100).
  - reflexivity.
  - repeat constructor; apply norm4_wxyz_identity.
  - repeat constructor; apply norm4_wxyz_identity.
  - lra.
  - simpl. lia.
Defined.

(** * The eigen-decomposition *)

Lemma mat3_eq (a b : mat3) : m0 a = m0 b -> m1 a = m1 b -> m2 a = m2 b -> a = b.
Proof. destruct a, b; simpl; intros; subst; reflexivity. Qed.

Lemma mat4_eq (a b : mat4) : k0 a = k0 b -> k1 a = k1 b -> k2 a = k2 b -> k3 a = k3 b -> a = b.
Proof. destruct a, b; simpl; intros; subst; reflexivity. Qed.

Lemma transpose_madd a b : transpose (madd a b) = madd (transpose a) (transpose b).
Proof. reflexivity. Qed.

Lemma transpose_mscale c a : transpose (mscale c a) = mscale c (transpose a).
Proof. reflexivity. Qed.

Lemma transpose_outer x : transpose (outer x x) = outer x x.
Proof. apply mat3_eq; vec_ring. Qed.

Lemma cov_symmetric ws : symmetric_mat (cov ws).
Proof.
  unfold symmetric_mat, cov. rewrite transpose_mscale. f_equal.
  induction (map (fun w => vsub w (vmean ws)) ws) as [| x xs IH]; simpl.
  - reflexivity.
  - rewrite transpose_madd, transpose_outer, IH. reflexivity.
Qed.

Lemma dot_mulv_transpose m x y : dot x (mulv m y) = dot (mulv (transpose m) x) y.
Proof. unfold mulv, transpose, dot; simpl. ring. Qed.

Lemma dot_mulv_symmetric m x y : symmetric_mat m -> dot x (mulv m y) = dot (mulv m x) y.
Proof. intros H. rewrite dot_mulv_transpose, H. reflexivity. Qed.

(** Three orthonormal vectors span the space: a vector orthogonal to all
    of them is zero. *)
Lemma orthonormal_complete v x :
  mmul (transpose v) v = mat3_id ->
  dot (col 0 v) x = 0 -> dot (col 1 v) x = 0 -> dot (col 2 v) x = 0 -> x = vzero.
Proof.
  destruct v as [[a b c] [d e f] [g h i]], x as [x0 x1 x2].
  unfold mmul, mat3_id, dot, col, transpose; simpl.
  intros [= G00 G01 G02 G10 G11 G12 G20 G21 G22] H0 H1 H2.
  apply vec3_eq; simpl; nsatz.
Qed.

Lemma contract_columns_unit m w v :
  eigh3_contract m (w, v) -> unit3 (col 0 v) /\ unit3 (col 1 v) /\ unit3 (col 2 v).
Proof.
  intros (G & _). destruct v as [[a b c] [d e f] [g h i]].
  unfold mmul, mat3_id, dot, col, transpose in G; simpl in G.
  injection G as G00 G01 G02 G10 G11 G12 G20 G21 G22.
  unfold unit3, dot, col, transpose; simpl. repeat split; lra.
Qed.

(** Under the contract, the last column is an eigenvector for the largest
    eigenvalue of a symmetric matrix. *)
Lemma contract_top_eigenvector m w v :
  symmetric_mat m -> eigh3_contract m (w, v) -> top_eigenvector m (col 2 v).
Proof.
  intros Hsym (G & E0 & E1 & E2 & L01 & L12).
  exists (v2 w). split; [exact E2 |].
  intros mu y Hy Ey.
  assert (Hi : forall c l, mulv m c = vscale l c -> (l - mu) * dot c y = 0).
  { intros c l Ec.
    assert (dot c (mulv m y) = dot (mulv m c) y) by (apply dot_mulv_symmetric, Hsym).
    rewrite Ey, Ec, dot_vscale_l, dot_vscale_r in H. lra. }
  destruct (Req_dec (dot (col 2 v) y) 0) as [Z2 | N2].
  - destruct (Req_dec (dot (col 1 v) y) 0) as [Z1 | N1].
    + destruct (Req_dec (dot (col 0 v) y) 0) as [Z0 | N0].
      * exfalso. apply Hy. eapply orthonormal_complete; eassumption.
      * pose proof (Hi _ _ E0). nra.
    + pose proof (Hi _ _ E1). nra.
  - pose proof (Hi _ _ E2). nra.
Qed.

(** A unit quaternion rotates without changing lengths. *)
Lemma apply_dot q x : dot (apply q x) (apply q x) = dot4 q q * dot4 q q * dot x x.
Proof. unfold apply, mulv, as_matrix, dot4, dot; simpl. ring. Qed.

Lemma apply_unit q x : unit4 q -> unit3 x -> unit3 (apply q x).
Proof. unfold unit4, unit3. intros Hq Hx. rewrite apply_dot, Hq, Hx. ring. Qed.

Lemma contract4_last_unit m w v : eigh4_contract m (w, v) -> unit4 (col4 3 v).
Proof. intros (G & _). unfold unit4. apply (G 3%nat 3%nat); lia. Qed.

(** ** Diagonal matrices *)

Lemma eigh3_diagonal_contract a b c :
  eigh3_contract (diagonal3 a b c) (eigh3_diagonal (diagonal3 a b c)).
Proof.
  unfold eigh3_diagonal, sort_by_value, diagonal3; simpl.
  repeat (destruct (Rle_dec _ _); simpl);
    try lra.
  all: (split; [apply mat3_eq; vec_ring |]).
  all: repeat split; try lra. all: try vec_ring.
Qed.

Lemma eigh4_diagonal_contract a b c d :
  eigh4_contract (diagonal4 a b c d) (eigh4_diagonal (diagonal4 a b c d)).
Proof.
  unfold eigh4_diagonal, sort_by_value, diagonal4; simpl.
  repeat (destruct (Rle_dec _ _); simpl);
    try lra;
    (split; [| split; [| repeat split; lra]]);
    intros [| [| [| [| i]]]]; try lia;
    try (intros [| [| [| [| j]]]]; try lia);
    intros; unfold dot4; simpl; try ring; try quat_ring.
Qed.

(** * Evaluation on concrete streams *)

Lemma unit4_wxyz q : unit4 q -> unit4 (to_scipy_quat q).
Proof. unfold unit4. arr_unfold. intros H. rewrite <- H. ring. Qed.

Lemma unitize_to_scipy q : unit4 q -> unitize (to_scipy_quat q) = to_scipy_quat q.
Proof. intros H. apply unitize_of_unit, unit4_wxyz, H. Qed.

(** A quaternion with a positive scalar part is canonical. *)
Lemma quat_canonical_pos q : 0 < a3 q -> quat_canonical q = q.
Proof.
  intros H. unfold quat_canonical.
  destruct (Rlt_dec (a3 q) 0); [lra |].
  destruct (Req_dec_T (a3 q) 0); [lra | reflexivity].
Qed.

(** A quaternion and its negation have the same canonical form. *)
Lemma quat_canonical_neg q : quat_canonical (scale4 (-1) q) = quat_canonical q.
Proof.
  destruct q as [x y z w]. unfold quat_canonical, scale4. cbn [a0 a1 a2 a3].
  repeat match goal with
         | |- context [Rlt_dec ?a ?b] => destruct (Rlt_dec a b)
         | |- context [Req_dec_T ?a ?b] => destruct (Req_dec_T a b)
         end;
    try lra; f_equal; lra.
Qed.

(** The rotation vector of the identity rotation. *)
Lemma as_rotvec_identity : as_rotvec identity = vzero.
Proof.
  unfold as_rotvec. rewrite quat_canonical_pos by (unfold identity; simpl; lra).
  unfold identity. cbn [a0 a1 a2 a3].
  match goal with |- vscale ?s _ = _ => generalize s end.
  intros s. vec_ring.
Qed.

Lemma unit4_wxyz_identity : unit4 (A4 1 0 0 0).
Proof. unfold unit4. arr_unfold. lra. Qed.

Lemma rel_stack_units_eq proximal distal :
  Forall unit4 proximal -> Forall unit4 distal ->
  rel_stack proximal distal
  = zip_with compose_quat (map to_scipy_quat distal) (map conj (map to_scipy_quat proximal)).
Proof.
  intros Hp Hd. unfold rel_stack.
  assert (E : forall l, Forall unit4 l -> map unitize (map to_scipy_quat l) = map to_scipy_quat l).
  { intros l Hl. induction Hl as [| x l Hx _ IH]; simpl; [reflexivity |].
    rewrite (unitize_to_scipy x Hx). f_equal. exact IH. }
  rewrite (E _ Hp), (E _ Hd). reflexivity.
Qed.


Ltac quat_lra := apply arr4_eq; arr_unfold; lra.
Ltac vec_lra := apply vec3_eq; arr_unfold; lra.
Ltac list_quat_eq := repeat (apply (f_equal2 cons); [quat_lra |]); reflexivity.

Lemma PI_gt_3 : 3 < PI.
Proof. pose proof PI2_3_2. lra. Qed.

(** The rotation vector of a half turn: the angle of a canonical
    quaternion without scalar part is pi. *)
Lemma as_rotvec_half_turn x y z :
  x * x + y * y + z * z = 1 -> quat_canonical (A4 x y z 0) = A4 x y z 0 ->
  as_rotvec (A4 x y z 0) = vscale PI (V3 x y z).
Proof.
  intros H Hc. unfold as_rotvec. rewrite Hc. cbn [a0 a1 a2 a3].
  assert (N : norm (V3 x y z) = 1) by (apply unit3_norm; unfold unit3; arr_unfold; lra).
  rewrite N. unfold arctan2.
  destruct (Rlt_dec 0 0); [lra |].
  destruct (Rlt_dec 0 1); [| lra].
  pose proof PI_gt_3.
  destruct (Rle_dec (2 * (PI / 2)) (1 / 1000)); [lra |].
  replace (2 * (PI / 2) / 2) with (PI / 2) by field.
  rewrite sin_PI2. f_equal. field.
Qed.

(** The half turns about the x and y axes. *)
Lemma as_rotvec_i : as_rotvec (A4 1 0 0 0) = vscale PI (V3 1 0 0).
Proof.
  apply as_rotvec_half_turn; [lra |]. unfold quat_canonical. cbn [a0 a1 a2 a3].
  destruct (Rlt_dec 0 0); [lra |]. destruct (Req_dec_T 0 0); [| lra].
  destruct (Rlt_dec 1 0); [lra |]. destruct (Req_dec_T 1 0); [lra | reflexivity].
Qed.

Lemma as_rotvec_j : as_rotvec (A4 0 1 0 0) = vscale PI (V3 0 1 0).
Proof.
  apply as_rotvec_half_turn; [lra |]. unfold quat_canonical. cbn [a0 a1 a2 a3].
  destruct (Rlt_dec 0 0); [lra |]. destruct (Req_dec_T 0 0); [| lra].
  destruct (Rlt_dec 1 0); [lra |]. destruct (Req_dec_T 1 0); [lra | reflexivity].
Qed.

Lemma ang_vel_stack_still fs : ang_vel_stack [A4 1 0 0 0; A4 1 0 0 0; A4 1 0 0 0] [A4 1 0 0 0; A4 1 0 0 0; A4 1 0 0 0] fs = [vzero; vzero].
Proof.
  unfold ang_vel_stack.
  rewrite rel_stack_units_eq by (repeat constructor; apply unit4_wxyz_identity).
  replace (zip_with _ _ _) with [identity; identity; identity]
    by (cbn [map fmap list_fmap zip_with]; list_quat_eq).
  unfold delta_stack. cbn [map fmap list_fmap zip_with length take drop Nat.sub].
  replace (compose_quat (conj identity) identity) with identity by quat_lra.
  rewrite as_rotvec_identity.
  repeat (apply (f_equal2 cons); [vec_lra |]); reflexivity.
Qed.

Lemma cov_still : cov [vzero; vzero] = diagonal3 0 0 0.
Proof.
  unfold cov, vmean, vsum. cbn [map fmap list_fmap foldr length INR].
  apply mat3_eq; apply vec3_eq; arr_unfold; field.
Qed.

Lemma accumulate_still : accumulate [identity; identity; identity] = diagonal4 0 0 0 3.
Proof.
  unfold accumulate. cbn [foldr].
  apply mat4_eq; apply arr4_eq; arr_unfold; lra.
Qed.

(** * The estimated axes (align.py, lines 44-56) *)

(** C2: with at least two angular velocities, and [np.linalg.eigh]
    meeting its contract on the covariance matrix and on the accumulated
    outer products of the relative rotations, the returned [axis_p] is a
    unit eigenvector of the covariance matrix of the angular velocities for
    its largest eigenvalue, the returned [axis_d] is the mean relative
    rotation applied to [axis_p], and both have unit length. *)
Theorem find_rotation_axis_principal_axis eigh3 eigh4 (proximal distal : list arr4) (fs : R) :
  length proximal = length distal ->
  valid_stream proximal -> valid_stream distal ->
  (2 <= length (ang_vel_stack proximal distal fs))%nat ->
  eigh3_contract (cov (ang_vel_stack proximal distal fs))
                 (eigh3 (cov (ang_vel_stack proximal distal fs))) ->
  eigh4_contract (accumulate (rel_stack proximal distal))
                 (eigh4 (accumulate (rel_stack proximal distal))) ->
  exists axis_p axis_d,
    find_rotation_axis eigh3 eigh4 proximal distal fs = Ok (Some axis_p, Some axis_d) /\
    unit3 axis_p /\
    top_eigenvector (cov (ang_vel_stack proximal distal fs)) axis_p /\
    axis_d = apply (mean eigh4 (rel_stack proximal distal)) axis_p /\
    unit3 axis_d.
Proof.
  intros Hlen Hp Hd Hn H3 H4.
  rewrite (ang_vel_stack_length _ _ fs Hlen) in Hn.
  rewrite (find_rotation_axis_long eigh3 eigh4 _ _ fs Hlen Hp Hd) by lia.
  unfold mean.
  destruct (eigh3 (cov (ang_vel_stack proximal distal fs))) as [w v].
  destruct (eigh4 (accumulate (rel_stack proximal distal))) as [w4 v4].
  cbv zeta. cbn [snd].
  destruct (contract_columns_unit _ _ _ H3) as (_ & _ & U2).
  pose proof (contract4_last_unit _ _ _ H4) as U4.
  pose proof (apply_unit _ _ U4 U2) as Ud.
  exists (col 2 v), (apply (col4 3 v4) (col 2 v)).
  rewrite (np_normalize_unit _ U2), (np_normalize_unit _ Ud).
  split; [reflexivity |]. split; [exact U2 |].
  split; [apply (contract_top_eigenvector _ w), H3; apply cov_symmetric |].
  split; [reflexivity | exact Ud].
Qed.

Lemma rel_stack_still :
  rel_stack [A4 1 0 0 0; A4 1 0 0 0; A4 1 0 0 0] [A4 1 0 0 0; A4 1 0 0 0; A4 1 0 0 0]
  = [identity; identity; identity].
Proof.
  rewrite rel_stack_units_eq by (repeat constructor; apply unit4_wxyz_identity).
  cbn [map fmap list_fmap zip_with]. list_quat_eq.
Qed.

Lemma valid_stream_still n : valid_stream (replicate n (A4 1 0 0 0)).
Proof. apply Forall_replicate, norm4_wxyz_identity. Qed.

(** Three samples of two sensors at rest. *)
Lemma find_rotation_axis_principal_axis_witness :
  exists axis_p axis_d,
    find_rotation_axis eigh3_diagonal eigh4_diagonal
      [A4 1 0 0 0; A4 1 0 0 0; A4 1 0 0 0] [A4 1 0 0 0; A4 1 0 0 0; A4 1 0 0 0] 100
    = Ok (Some axis_p, Some axis_d) /\
    unit3 axis_p /\ unit3 axis_d.
Proof.
  destruct (find_rotation_axis_principal_axis eigh3_diagonal eigh4_diagonal
              [A4 1 0 0 0; A4 1 0 0 0; A4 1 0 0 0] [A4 1 0 0 0; A4 1 0 0 0; A4 1 0 0 0] 100)
    as (p & d & H1 & H2 & _ & _ & H5).
  - reflexivity.
  - apply (valid_stream_still 3).
  - apply (valid_stream_still 3).
  - rewrite ang_vel_stack_still. simpl. lia.
  - rewrite ang_vel_stack_still, cov_still. apply eigh3_diagonal_contract.
  - rewrite rel_stack_still, accumulate_still. apply eigh4_diagonal_contract.
  - exists p, d. repeat split; assumption.
Defined.

(** * The anatomical frame (align.py, lines 59-89) *)

Lemma vzero_norm a : a <> vzero -> norm a <> 0.
Proof. intros H E. apply H, dot_zero_iff, norm_zero_iff, E. Qed.

Lemma cross_vscale_l c a b : cross (vscale c a) b = vscale c (cross a b).
Proof. vec_ring. Qed.

Lemma vscale_zero_iff c a : c <> 0 -> vscale c a = vzero -> a = vzero.
Proof.
  intros Hc H. destruct a as [x y z]. unfold vscale, vzero in *; simpl in *.
  injection H as H0 H1 H2. apply vec3_eq; simpl; nra.
Qed.

(** Two orthogonal unit vectors and their cross product. *)
Lemma frame_algebra x z :
  unit3 x -> unit3 z -> dot z x = 0 ->
  unit3 (cross z x) /\
  dot x (cross z x) = 0 /\ dot x z = 0 /\ dot (cross z x) z = 0 /\
  det (transpose (M3 x (cross z x) z)) = 1.
Proof.
  destruct x as [x0 x1 x2], z as [z0 z1 z2]. unfold unit3. arr_unfold.
  intros Hx Hz Hzx. repeat split; nsatz.
Qed.

Lemma dot_cross_l a b : dot (cross a b) a = 0.
Proof. arr_unfold. ring. Qed.

(** C3: for a non-zero primary axis and a non-zero longitudinal axis that
    is not parallel to it, the matrix handed to [Rotation.from_matrix] has
    the columns [x = normalize(primary)], [y = normalize(cross(z, x))] and
    [z = normalize(cross(x, longitudinal))], in this order; its columns
    have unit length and are mutually orthogonal, and its determinant is 1. *)
Theorem create_anatomical_frame_orthonormal
    (from_matrix : nmat3 -> result Rotation.t) (primary longitudinal : vec3) :
  primary <> vzero -> longitudinal <> vzero -> cross primary longitudinal <> vzero ->
  exists x y z m,
    x = vscale (/ norm primary) primary /\
    z = vscale (/ norm (cross x longitudinal)) (cross x longitudinal) /\
    y = vscale (/ norm (cross z x)) (cross z x) /\
    rotation_matrix (Some primary) (Some longitudinal) = Cols (Some x) (Some y) (Some z) /\
    create_anatomical_frame from_matrix (Some primary) (Some longitudinal)
    = from_matrix (Cols (Some x) (Some y) (Some z)) /\
    finite_mat (Cols (Some x) (Some y) (Some z)) = Some m /\
    col 0 m = x /\ col 1 m = y /\ col 2 m = z /\
    orthonormal m /\ det m = 1.
Proof.
  intros Hp Hl Hc.
  pose proof (vzero_norm _ Hp) as Np.
  set (x := vscale (/ norm primary) primary).
  assert (Ux : unit3 x) by (apply vscale_inv_norm_unit, Np).
  assert (Hc' : cross x longitudinal <> vzero).
  { unfold x. rewrite cross_vscale_l. intros E. apply Hc.
    apply (vscale_zero_iff (/ norm primary)); [apply Rinv_neq_0_compat, Np | exact E]. }
  pose proof (vzero_norm _ Hc') as Nc.
  set (z := vscale (/ norm (cross x longitudinal)) (cross x longitudinal)).
  assert (Uz : unit3 z) by (apply vscale_inv_norm_unit, Nc).
  assert (Hzx : dot z x = 0).
  { unfold z. rewrite dot_vscale_l, dot_cross_l. ring. }
  destruct (frame_algebra x z Ux Uz Hzx) as (Uy & Hxy & Hxz & Hyz & Hdet).
  assert (Ny : norm (cross z x) = 1) by (apply unit3_norm, Uy).
  set (y := vscale (/ norm (cross z x)) (cross z x)).
  assert (Ey : y = cross z x) by (unfold y; rewrite Ny, Rinv_1; apply vscale_1).
  assert (Erm : rotation_matrix (Some primary) (Some longitudinal)
                = Cols (Some x) (Some y) (Some z)).
  { unfold rotation_matrix. cbn [mbind option_bind np_cross].
    rewrite (np_normalize_some _ Np). fold x. cbn [mbind option_bind np_cross].
    rewrite (np_normalize_some _ Nc). fold z. cbn [mbind option_bind np_cross].
    rewrite np_normalize_some by (rewrite Ny; lra). reflexivity. }
  exists x, y, z, (transpose (M3 x y z)).
  split; [reflexivity |]. split; [reflexivity |]. split; [reflexivity |].
  split; [exact Erm |].
  split; [unfold create_anatomical_frame; rewrite Erm; reflexivity |].
  split; [reflexivity |].
  split; [destruct x, y, z; reflexivity |].
  split; [destruct x, y, z; reflexivity |].
  split; [destruct x, y, z; reflexivity |].
  rewrite Ey. split.
  - unfold orthonormal.
    replace (col 0 (transpose (M3 x (cross z x) z))) with x by (destruct x, z; reflexivity).
    replace (col 1 (transpose (M3 x (cross z x) z))) with (cross z x) by (destruct x, z; reflexivity).
    replace (col 2 (transpose (M3 x (cross z x) z))) with z by (destruct x, z; reflexivity).
    repeat split; assumption.
  - exact Hdet.
Qed.

Lemma vec3_neq_0 (a b c : R) : a <> 0 -> V3 a b c <> vzero.
Proof. intros H E. apply H. injection E. auto. Qed.

Lemma vec3_neq_1 (a b c : R) : b <> 0 -> V3 a b c <> vzero.
Proof. intros H E. apply H. injection E. auto. Qed.

Lemma vec3_neq_2 (a b c : R) : c <> 0 -> V3 a b c <> vzero.
Proof. intros H E. apply H. injection E. auto. Qed.

Lemma create_anatomical_frame_orthonormal_witness :
  exists m,
    finite_mat (rotation_matrix (Some (V3 1 0 0)) (Some (V3 0 1 0))) = Some m /\
    orthonormal m /\ det m = 1.
Proof.
  destruct (create_anatomical_frame_orthonormal (fun _ => Ok identity) (V3 1 0 0) (V3 0 1 0))
    as (x & y & z & m & _ & _ & _ & Hm & _ & Hf & _ & _ & _ & Ho & Hd).
  - apply vec3_neq_0. lra.
  - apply vec3_neq_1. lra.
  - unfold cross; simpl. apply vec3_neq_2. lra.
  - exists m. rewrite Hm. split; [exact Hf | split; assumption].
Defined.

(** * Parallel axes *)

Lemma rotation_matrix_parallel (primary longitudinal : vec3) :
  cross primary longitudinal = vzero ->
  finite_mat (rotation_matrix (Some primary) (Some longitudinal)) = None.
Proof.
  intros Hc. unfold rotation_matrix. cbn [mbind option_bind].
  destruct (np_normalize primary) as [x |] eqn:Ex; [| reflexivity].
  assert (Hx : x = vscale (/ norm primary) primary).
  { unfold np_normalize in Ex. destruct (Req_dec_T (norm primary) 0); [discriminate |].
    injection Ex as <-. reflexivity. }
  cbn [np_cross mbind option_bind].
  rewrite Hx, cross_vscale_l, Hc.
  replace (vscale (/ norm primary) vzero) with vzero by vec_ring.
  rewrite np_normalize_zero. reflexivity.
Qed.


Lemma from_matrix_nan_check_rejects_nan : from_matrix_rejects_nan from_matrix_nan_check.
Proof.
  intros m Hm. unfold from_matrix_nan_check. rewrite Hm. eexists. reflexivity.
Qed.


(** * Application of a calibration (align.py, lines 252-260) *)

Lemma to_wxyz_to_scipy q : to_wxyz_quat (to_scipy_quat q) = q.
Proof. destruct q. reflexivity. Qed.

Lemma anatomical_rotation_unit raw_q q_cal :
  unit4 raw_q -> unit4 q_cal ->
  anatomical_rotation raw_q q_cal
  = Ok (compose_quat (to_scipy_quat raw_q) (conj (to_scipy_quat q_cal))).
Proof.
  intros Hr Hc. unfold anatomical_rotation.
  rewrite (normalized_unit _ (unit4_wxyz _ Hr)); simpl.
  rewrite (normalized_unit _ (unit4_wxyz _ Hc)); simpl.
  rewrite (inv1_unit _ (unit4_wxyz _ Hc)); simpl.
  apply mul1_unit; [| apply conj_unit]; apply unit4_wxyz; assumption.
Qed.

(** C8: for unit quaternions, the anatomical rotation is
    [raw * inverse(cal)], and composing the calibration again on its right
    gives back the raw rotation. *)
Theorem calibration_round_trip (raw_q q_cal : arr4) :
  unit4 raw_q -> unit4 q_cal ->
  exists anatomical_rot,
    anatomical_rotation raw_q q_cal = Ok anatomical_rot /\
    anatomical_rot = compose_quat (to_scipy_quat raw_q) (conj (to_scipy_quat q_cal)) /\
    unit4 anatomical_rot /\
    reapply_calibration anatomical_rot q_cal = Ok (to_scipy_quat raw_q) /\
    to_wxyz_quat (as_quat (to_scipy_quat raw_q)) = raw_q.
Proof.
  intros Hr Hc.
  pose proof (unit4_wxyz _ Hr) as Ur. pose proof (unit4_wxyz _ Hc) as Uc.
  eexists. split; [apply anatomical_rotation_unit; assumption |].
  split; [reflexivity |].
  assert (Ua : unit4 (compose_quat (to_scipy_quat raw_q) (conj (to_scipy_quat q_cal))))
    by (apply compose_unit; [| apply conj_unit]; assumption).
  split; [exact Ua |]. split.
  - unfold reapply_calibration. rewrite (normalized_unit _ Uc); simpl.
    rewrite (mul1_unit _ _ Ua Uc), compose_assoc, (compose_conj_l _ Uc), compose_id_r.
    reflexivity.
  - apply to_wxyz_to_scipy.
Qed.

Lemma calibration_round_trip_witness :
  exists anatomical_rot,
    anatomical_rotation (A4 0 1 0 0) (A4 (3/5) 0 (4/5) 0) = Ok anatomical_rot /\
    reapply_calibration anatomical_rot (A4 (3/5) 0 (4/5) 0) = Ok (to_scipy_quat (A4 0 1 0 0)).
Proof.
  destruct (calibration_round_trip (A4 0 1 0 0) (A4 (3/5) 0 (4/5) 0))
    as (r & H1 & _ & _ & H4 & _).
  - unfold unit4. arr_unfold. lra.
  - unfold unit4. arr_unfold. lra.
  - exists r. split; assumption.
Defined.

(** * The hip trial (align.py, lines 139-164) *)

Section Hip.
Variable eigh3 : mat3 -> vec3 * mat3.
Variable eigh4 : mat4 -> arr4 * mat4.
Variable from_matrix : nmat3 -> result Rotation.t.

Lemma hip_axis_ok side (hip : gmap string (list arr4)) fs q :
  streams_ok hip -> hip !! (side +:+ "_thigh") = Some q ->
  exists axes, find_rotation_axis eigh3 eigh4 (tile_identity (length q)) q fs = Ok axes.
Proof.
  intros Hok Hq. destruct (Hok _ _ Hq) as [Hv Hl].
  rewrite find_rotation_axis_long.
  - eexists. reflexivity.
  - unfold tile_identity. apply length_replicate.
  - apply valid_stream_still.
  - exact Hv.
  - unfold tile_identity. rewrite length_replicate. exact Hl.
Qed.

Lemma calibrate_side_hip static hip1 hip2 knee ankle fs printed1 printed2 quats side :
  dom hip1 = dom hip2 -> streams_ok hip1 -> streams_ok hip2 ->
  snd <$> calibrate_side eigh3 eigh4 from_matrix static hip1 knee ankle fs (printed1, quats) side
  = snd <$> calibrate_side eigh3 eigh4 from_matrix static hip2 knee ankle fs (printed2, quats) side.
Proof.
  intros Hdom H1 H2. unfold calibrate_side, getitem.
  repeat match goal with
  | |- context [static !! ?k] => destruct (static !! k); simpl; [| reflexivity]
  | |- context [static_mean ?e ?q] => destruct (static_mean e q); simpl; [| reflexivity]
  | |- context [long_axis ?m] => destruct (long_axis m); simpl; [| reflexivity]
  | |- context [knee !! ?k] => destruct (knee !! k); simpl; [| reflexivity]
  end.
  destruct (find_rotation_axis eigh3 eigh4 _ _ fs) as [[knee_axis_thigh knee_axis_shank] |];
    simpl; [| reflexivity].
  destruct (hip1 !! (side +:+ "_thigh")) as [q1 |] eqn:E1.
  - assert (is_Some (hip2 !! (side +:+ "_thigh"))) as [q2 E2].
    { apply elem_of_dom. rewrite <- Hdom. apply elem_of_dom. eauto. }
    rewrite E2. simpl.
    destruct (hip_axis_ok side hip1 fs q1 H1 E1) as [[h1 ?] ->].
    destruct (hip_axis_ok side hip2 fs q2 H2 E2) as [[h2 ?] ->].
    simpl.
    repeat match goal with
    | |- context [ankle !! ?k] => destruct (ankle !! k); simpl; [| reflexivity]
    end.
    destruct (find_rotation_axis eigh3 eigh4 _ _ fs) as [[ankle_axis_shank ankle_axis_foot] |];
      simpl; [| reflexivity].
    repeat match goal with
    | |- context [segment_calibration ?f ?a ?b] =>
        destruct (segment_calibration f a b); simpl; [| reflexivity]
    end.
    reflexivity.
  - assert (hip2 !! (side +:+ "_thigh") = None) as ->.
    { apply not_elem_of_dom. rewrite <- Hdom. apply not_elem_of_dom. exact E1. }
    reflexivity.
Qed.

Lemma foldR_calibrate_side static hip1 hip2 knee ankle fs sides printed1 printed2 quats :
  dom hip1 = dom hip2 -> streams_ok hip1 -> streams_ok hip2 ->
  snd <$> foldR (calibrate_side eigh3 eigh4 from_matrix static hip1 knee ankle fs) (printed1, quats) sides
  = snd <$> foldR (calibrate_side eigh3 eigh4 from_matrix static hip2 knee ankle fs) (printed2, quats) sides.
Proof.
  intros Hdom H1 H2. revert printed1 printed2 quats.
  induction sides as [| side sides IH]; intros printed1 printed2 quats; cbn [foldR].
  - reflexivity.
  - pose proof (calibrate_side_hip static hip1 hip2 knee ankle fs printed1 printed2 quats side
                  Hdom H1 H2) as Hs.
    destruct (calibrate_side eigh3 eigh4 from_matrix static hip1 knee ankle fs (printed1, quats) side)
      as [[p1 c1] |];
    destruct (calibrate_side eigh3 eigh4 from_matrix static hip2 knee ankle fs (printed2, quats) side)
      as [[p2 c2] |]; simpl in Hs; try discriminate.
    + injection Hs as ->. simpl. apply IH.
    + simpl. exact Hs.
Qed.

End Hip.

(** C9: the hip trial does not reach the returned calibration quaternions.
    For two hip dicts with the same keys, whose streams can all be
    processed, and the same other arguments, [perform_calibration] returns
    the same dict (or raises the same exception). *)
Theorem perform_calibration_ignores_hip eigh3 eigh4 from_matrix
    (static_data hip1 hip2 knee_data ankle_data : gmap string (list arr4)) (fs : R) :
  dom hip1 = dom hip2 -> streams_ok hip1 -> streams_ok hip2 ->
  snd <$> perform_calibration eigh3 eigh4 from_matrix static_data hip1 knee_data ankle_data fs
  = snd <$> perform_calibration eigh3 eigh4 from_matrix static_data hip2 knee_data ankle_data fs.
Proof.
  intros Hdom H1 H2. unfold perform_calibration.
  apply foldR_calibrate_side; assumption.
Qed.

Lemma streams_ok_sensors_at_rest n : (3 <= n)%nat -> streams_ok (sensors_at_rest n).
Proof.
  intros Hn. unfold streams_ok, sensors_at_rest.
  repeat (apply map_Forall_insert_2;
          [split; [apply valid_stream_still | rewrite length_replicate; exact Hn] |]).
  apply map_Forall_empty.
Qed.

Lemma perform_calibration_ignores_hip_witness :
  snd <$> perform_calibration eigh3_diagonal eigh4_diagonal (fun _ => Ok identity)
            (sensors_at_rest 3) (sensors_at_rest 3) (sensors_at_rest 3) (sensors_at_rest 3) 100
  = snd <$> perform_calibration eigh3_diagonal eigh4_diagonal (fun _ => Ok identity)
              (sensors_at_rest 3) (sensors_at_rest 5) (sensors_at_rest 3) (sensors_at_rest 3) 100.
Proof.
  apply (perform_calibration_ignores_hip eigh3_diagonal eigh4_diagonal (fun _ => Ok identity)).
  - unfold sensors_at_rest. rewrite !dom_insert_L. reflexivity.
  - apply streams_ok_sensors_at_rest. lia.
  - apply streams_ok_sensors_at_rest. lia.
Defined.

(** * A common rotation of both sensors (align.py, lines 31-53) *)

Lemma find_rotation_axis_stack eigh3 eigh4 proximal distal fs :
  length proximal = length distal ->
  valid_stream proximal -> valid_stream distal ->
  find_rotation_axis eigh3 eigh4 proximal distal fs
  = axes_from_stack eigh3 eigh4 (rel_stack proximal distal) fs.
Proof.
  intros Hlen Hp Hd. unfold find_rotation_axis, axes_from_stack.
  rewrite (relative_ang_vel_ok _ _ fs Hlen Hp Hd); simpl.
  fold (ang_vel_stack proximal distal fs).
  destruct (length (ang_vel_stack proximal distal fs) <? 2)%nat; [reflexivity |].
  unfold mean.
  destruct (eigh3 (cov (ang_vel_stack proximal distal fs))) as [eigenvalues eigenvectors].
  rewrite (relative_rotation_ok _ _ Hlen Hp Hd); simpl.
  destruct (eigh4 (accumulate (rel_stack proximal distal))) as [w4 v4]. reflexivity.
Qed.

Lemma to_scipy_to_wxyz q : to_scipy_quat (to_wxyz_quat q) = q.
Proof. destruct q. reflexivity. Qed.

Lemma norm4_compose a b : norm4 (compose_quat a b) = norm4 a * norm4 b.
Proof.
  unfold norm4. rewrite dot4_compose. apply sqrt_mult; apply dot4_nonneg.
Qed.

Lemma unitize_compose a b :
  norm4 a <> 0 -> norm4 b <> 0 ->
  unitize (compose_quat a b) = compose_quat (unitize a) (unitize b).
Proof.
  intros Ha Hb. unfold unitize. rewrite norm4_compose, Rinv_mult.
  generalize (/ norm4 a), (/ norm4 b). intros s t. quat_ring.
Qed.

Lemma norm4_compose_wxyz c q : norm4 (compose_wxyz c q) = norm4 c * norm4 q.
Proof.
  unfold compose_wxyz. rewrite <- (norm4_to_scipy (to_wxyz_quat _)), to_scipy_to_wxyz.
  rewrite norm4_compose, !norm4_to_scipy. reflexivity.
Qed.

Lemma valid_rotate_left c stream :
  norm4 c <> 0 -> valid_stream stream -> valid_stream (rotate_left c stream).
Proof.
  intros Hc H. apply Forall_fmap. eapply Forall_impl; [exact H |].
  intros q Hq. simpl. rewrite norm4_compose_wxyz. nra.
Qed.

Lemma valid_rotate_right c stream :
  norm4 c <> 0 -> valid_stream stream -> valid_stream (rotate_right c stream).
Proof.
  intros Hc H. apply Forall_fmap. eapply Forall_impl; [exact H |].
  intros q Hq. simpl. rewrite norm4_compose_wxyz. nra.
Qed.

Lemma unitize_scipy_compose_wxyz c q :
  norm4 c <> 0 -> norm4 q <> 0 ->
  unitize (to_scipy_quat (compose_wxyz c q))
  = compose_quat (unitize (to_scipy_quat c)) (unitize (to_scipy_quat q)).
Proof.
  intros Hc Hq. unfold compose_wxyz. rewrite to_scipy_to_wxyz.
  apply unitize_compose; rewrite norm4_to_scipy; assumption.
Qed.

(** The relative rotation does not see a common rotation composed on the
    right of every sample. *)
Lemma rel_stack_rotate_right c proximal distal :
  norm4 c <> 0 -> valid_stream proximal -> valid_stream distal ->
  rel_stack (rotate_right c proximal) (rotate_right c distal) = rel_stack proximal distal.
Proof.
  intros Hc Hp. revert distal. unfold rel_stack, rotate_right.
  induction Hp as [| p ps Hp _ IH]; intros distal Hd.
  - simpl. rewrite !zip_with_nil_r. reflexivity.
  - destruct Hd as [| d ds Hd Hds]; [reflexivity |].
    cbn [map fmap list_fmap zip_with]. f_equal; [| apply IH, Hds].
    rewrite !unitize_scipy_compose_wxyz by assumption.
    assert (Uc : unit4 (unitize (to_scipy_quat c)))
      by (apply unitize_unit; rewrite norm4_to_scipy; exact Hc).
    rewrite conj_compose, compose_assoc, <- (compose_assoc (unitize (to_scipy_quat c))).
    rewrite (compose_conj_r _ Uc), compose_id_l. reflexivity.
Qed.

(** A common rotation composed on the left conjugates the relative rotation. *)
Lemma rel_stack_rotate_left c proximal distal :
  norm4 c <> 0 -> valid_stream proximal -> valid_stream distal ->
  rel_stack (rotate_left c proximal) (rotate_left c distal)
  = map (fun r => compose_quat (unitize (to_scipy_quat c))
                    (compose_quat r (conj (unitize (to_scipy_quat c)))))
        (rel_stack proximal distal).
Proof.
  intros Hc Hp. revert distal. unfold rel_stack, rotate_left.
  induction Hp as [| p ps Hp _ IH]; intros distal Hd.
  - simpl. rewrite !zip_with_nil_r. reflexivity.
  - destruct Hd as [| d ds Hd Hds]; [reflexivity |].
    cbn [map fmap list_fmap zip_with]. f_equal; [| apply IH, Hds].
    rewrite !unitize_scipy_compose_wxyz by assumption.
    rewrite conj_compose, !compose_assoc. reflexivity.
Qed.

(** ** Evaluation of the diagonal eigen-decomposition *)

Lemma eigh3_diagonal_top_x a b c :
  b < a -> c < a -> col 2 (eigh3_diagonal (diagonal3 a b c)).2 = V3 1 0 0.
Proof.
  intros Hb Hc. unfold eigh3_diagonal, sort_by_value, diagonal3; simpl.
  repeat (destruct (Rle_dec _ _); simpl); try lra; reflexivity.
Qed.

Lemma eigh3_diagonal_top_y a b c :
  a < b -> c < b -> col 2 (eigh3_diagonal (diagonal3 a b c)).2 = V3 0 1 0.
Proof.
  intros Ha Hc. unfold eigh3_diagonal, sort_by_value, diagonal3; simpl.
  repeat (destruct (Rle_dec _ _); simpl); try lra; reflexivity.
Qed.

Lemma eigh4_diagonal_top_w a b c d :
  a < d -> b < d -> c < d -> col4 3 (eigh4_diagonal (diagonal4 a b c d)).2 = identity.
Proof.
  intros Ha Hb Hc. unfold eigh4_diagonal, sort_by_value, diagonal4; simpl.
  repeat (destruct (Rle_dec _ _); simpl); try lra; reflexivity.
Qed.

Lemma apply_identity x : apply identity x = x.
Proof. vec_ring. Qed.

Lemma unit3_e1 : unit3 (V3 1 0 0). Proof. unfold unit3. arr_unfold. lra. Qed.
Lemma unit3_e2 : unit3 (V3 0 1 0). Proof. unfold unit3. arr_unfold. lra. Qed.


(** ** The knee trial of three samples *)

Lemma unit4_third_turn : unit4 third_turn.
Proof. unfold unit4, third_turn. arr_unfold. lra. Qed.

Lemma unit4_wxyz_i : unit4 (A4 0 1 0 0).
Proof. unfold unit4. arr_unfold. lra. Qed.

Lemma units_thigh_at_rest3 : Forall unit4 thigh_at_rest3.
Proof. repeat constructor; apply unit4_wxyz_identity. Qed.

Lemma units_shank_half_turn3 : Forall unit4 shank_half_turn3.
Proof. repeat constructor; first [apply unit4_wxyz_identity | apply unit4_wxyz_i]. Qed.

Lemma units_valid stream : Forall unit4 stream -> valid_stream stream.
Proof. intros H. eapply Forall_impl; [exact H |]. intros q. apply unit4_norm_nonzero. Qed.

Lemma rel_stack_knee3 :
  rel_stack thigh_at_rest3 shank_half_turn3 = [identity; identity; A4 1 0 0 0].
Proof.
  rewrite rel_stack_units_eq by first [apply units_thigh_at_rest3 | apply units_shank_half_turn3].
  unfold thigh_at_rest3, shank_half_turn3.
  cbn [map fmap list_fmap zip_with]. list_quat_eq.
Qed.

Lemma rel_stack_knee3_rotated :
  rel_stack (rotate_left third_turn thigh_at_rest3) (rotate_left third_turn shank_half_turn3)
  = [identity; identity; A4 0 1 0 0].
Proof.
  rewrite rel_stack_rotate_left;
    [| apply unit4_norm_nonzero, unit4_third_turn
     | apply units_valid, units_thigh_at_rest3
     | apply units_valid, units_shank_half_turn3].
  rewrite rel_stack_knee3, (unitize_to_scipy _ unit4_third_turn).
  unfold third_turn. cbn [map fmap list_fmap]. list_quat_eq.
Qed.

Lemma delta_stack3 r0 r1 r2 :
  delta_stack [r0; r1; r2] = [compose_quat (conj r0) r1; compose_quat (conj r1) r2].
Proof. reflexivity. Qed.

Lemma cov_pair (a b : vec3) :
  cov [a; b] = mscale (/ 2) (outer (vsub a b) (vsub a b)).
Proof.
  unfold cov, vmean, vsum. cbn [map fmap list_fmap foldr length INR].
  apply mat3_eq; apply vec3_eq; arr_unfold; field.
Qed.

Lemma ang_vel_knee3 fs :
  map (fun d => vscale fs (as_rotvec d)) (delta_stack [identity; identity; A4 1 0 0 0])
  = [vzero; V3 (fs * PI) 0 0].
Proof.
  rewrite delta_stack3. cbn [map fmap list_fmap].
  replace (compose_quat (conj identity) identity) with identity by quat_lra.
  replace (compose_quat (conj identity) (A4 1 0 0 0)) with (A4 1 0 0 0) by quat_lra.
  rewrite as_rotvec_identity, as_rotvec_i.
  repeat (apply (f_equal2 cons); [vec_ring |]); reflexivity.
Qed.

Lemma ang_vel_knee3_rotated fs :
  map (fun d => vscale fs (as_rotvec d)) (delta_stack [identity; identity; A4 0 1 0 0])
  = [vzero; V3 0 (fs * PI) 0].
Proof.
  rewrite delta_stack3. cbn [map fmap list_fmap].
  replace (compose_quat (conj identity) identity) with identity by quat_lra.
  replace (compose_quat (conj identity) (A4 0 1 0 0)) with (A4 0 1 0 0) by quat_lra.
  rewrite as_rotvec_identity, as_rotvec_j.
  repeat (apply (f_equal2 cons); [vec_ring |]); reflexivity.
Qed.

Lemma cov_knee3 fs : cov [vzero; V3 (fs * PI) 0 0] = diagonal3 (fs * PI * (fs * PI) / 2) 0 0.
Proof. rewrite cov_pair. apply mat3_eq; apply vec3_eq; arr_unfold; field. Qed.

Lemma cov_knee3_rotated fs :
  cov [vzero; V3 0 (fs * PI) 0] = diagonal3 0 (fs * PI * (fs * PI) / 2) 0.
Proof. rewrite cov_pair. apply mat3_eq; apply vec3_eq; arr_unfold; field. Qed.

Lemma accumulate_knee3 : accumulate [identity; identity; A4 1 0 0 0] = diagonal4 1 0 0 2.
Proof. unfold accumulate. cbn [foldr]. apply mat4_eq; apply arr4_eq; arr_unfold; lra. Qed.

Lemma accumulate_knee3_rotated : accumulate [identity; identity; A4 0 1 0 0] = diagonal4 0 1 0 2.
Proof. unfold accumulate. cbn [foldr]. apply mat4_eq; apply arr4_eq; arr_unfold; lra. Qed.

Lemma fs_PI_sqr_pos : 0 < 100 * PI * (100 * PI) / 2.
Proof. pose proof PI_gt_3. nra. Qed.

(** The estimated axes are the x axis of the thigh sensor... *)
Lemma find_rotation_axis_knee3 :
  find_rotation_axis eigh3_diagonal eigh4_diagonal thigh_at_rest3 shank_half_turn3 100
  = Ok (Some (V3 1 0 0), Some (V3 1 0 0)).
Proof.
  rewrite find_rotation_axis_stack;
    [| reflexivity | apply units_valid, units_thigh_at_rest3
     | apply units_valid, units_shank_half_turn3].
  rewrite rel_stack_knee3. unfold axes_from_stack.
  rewrite ang_vel_knee3, cov_knee3, accumulate_knee3.
  cbn [length Nat.ltb Nat.leb].
  pose proof fs_PI_sqr_pos.
  rewrite eigh3_diagonal_top_x, eigh4_diagonal_top_w by lra.
  rewrite apply_identity, (np_normalize_unit _ unit3_e1). reflexivity.
Qed.

(** ... and its y axis once every sample is rotated on the left. *)
Lemma find_rotation_axis_knee3_rotated :
  find_rotation_axis eigh3_diagonal eigh4_diagonal
    (rotate_left third_turn thigh_at_rest3) (rotate_left third_turn shank_half_turn3) 100
  = Ok (Some (V3 0 1 0), Some (V3 0 1 0)).
Proof.
  rewrite find_rotation_axis_stack;
    [| reflexivity
     | apply valid_rotate_left;
       [apply unit4_norm_nonzero, unit4_third_turn | apply units_valid, units_thigh_at_rest3]
     | apply valid_rotate_left;
       [apply unit4_norm_nonzero, unit4_third_turn | apply units_valid, units_shank_half_turn3]].
  rewrite rel_stack_knee3_rotated. unfold axes_from_stack.
  rewrite ang_vel_knee3_rotated, cov_knee3_rotated, accumulate_knee3_rotated.
  cbn [length Nat.ltb Nat.leb].
  pose proof fs_PI_sqr_pos.
  rewrite eigh3_diagonal_top_y, eigh4_diagonal_top_w by lra.
  rewrite apply_identity, (np_normalize_unit _ unit3_e2). reflexivity.
Qed.

Lemma ang_vel_stack_unfold proximal distal fs :
  ang_vel_stack proximal distal fs
  = map (fun d => vscale fs (as_rotvec d)) (delta_stack (rel_stack proximal distal)).
Proof. reflexivity. Qed.

(** C6, as the code has it.  The relative rotation is
    [distal * inverse(proximal)]: a common rotation composed on the right
    of every sample of both streams cancels, and both returned axes are
    unchanged; a common rotation [c] composed on the left turns every
    relative rotation [r] into [c * r * inverse(c)]. *)
Theorem common_rotation_of_both_streams eigh3 eigh4 (c : arr4) (proximal distal : list arr4) (fs : R) :
  norm4 c <> 0 ->
  length proximal = length distal ->
  valid_stream proximal -> valid_stream distal ->
  find_rotation_axis eigh3 eigh4 (rotate_right c proximal) (rotate_right c distal) fs
  = find_rotation_axis eigh3 eigh4 proximal distal fs /\
  relative_rotation (rotate_right c proximal) (rotate_right c distal)
  = relative_rotation proximal distal /\
  relative_rotation (rotate_left c proximal) (rotate_left c distal)
  = (map (fun r => compose_quat (unitize (to_scipy_quat c))
                     (compose_quat r (conj (unitize (to_scipy_quat c)))))
     <$> relative_rotation proximal distal).
Proof.
  intros Hc Hlen Hp Hd.
  assert (Hlr : length (rotate_right c proximal) = length (rotate_right c distal))
    by (unfold rotate_right; rewrite !length_fmap; exact Hlen).
  assert (Hll : length (rotate_left c proximal) = length (rotate_left c distal))
    by (unfold rotate_left; rewrite !length_fmap; exact Hlen).
  pose proof (valid_rotate_right c _ Hc Hp) as Hpr.
  pose proof (valid_rotate_right c _ Hc Hd) as Hdr.
  pose proof (valid_rotate_left c _ Hc Hp) as Hpl.
  pose proof (valid_rotate_left c _ Hc Hd) as Hdl.
  split; [| split].
  - rewrite !find_rotation_axis_stack by assumption.
    rewrite rel_stack_rotate_right by assumption. reflexivity.
  - rewrite !relative_rotation_ok by assumption.
    rewrite rel_stack_rotate_right by assumption. reflexivity.
  - rewrite !relative_rotation_ok by assumption.
    rewrite rel_stack_rotate_left by assumption. reflexivity.
Qed.

Lemma common_rotation_of_both_streams_witness :
  find_rotation_axis eigh3_diagonal eigh4_diagonal
    (rotate_right third_turn thigh_at_rest3) (rotate_right third_turn shank_half_turn3) 100
  = find_rotation_axis eigh3_diagonal eigh4_diagonal thigh_at_rest3 shank_half_turn3 100.
Proof.
  apply (common_rotation_of_both_streams eigh3_diagonal eigh4_diagonal third_turn
           thigh_at_rest3 shank_half_turn3 100).
  - apply unit4_norm_nonzero, unit4_third_turn.
  - reflexivity.
  - apply units_valid, units_thigh_at_rest3.
  - apply units_valid, units_shank_half_turn3.
Defined.

Lemma eigh3_contract_knee3 :
  eigh3_contract (cov (ang_vel_stack thigh_at_rest3 shank_half_turn3 100))
    (eigh3_diagonal (cov (ang_vel_stack thigh_at_rest3 shank_half_turn3 100))).
Proof.
  rewrite ang_vel_stack_unfold, rel_stack_knee3, ang_vel_knee3, cov_knee3.
  apply eigh3_diagonal_contract.
Qed.

Lemma eigh3_contract_knee3_rotated :
  eigh3_contract
    (cov (ang_vel_stack (rotate_left third_turn thigh_at_rest3)
            (rotate_left third_turn shank_half_turn3) 100))
    (eigh3_diagonal
       (cov (ang_vel_stack (rotate_left third_turn thigh_at_rest3)
               (rotate_left third_turn shank_half_turn3) 100))).
Proof.
  rewrite ang_vel_stack_unfold, rel_stack_knee3_rotated, ang_vel_knee3_rotated, cov_knee3_rotated.
  apply eigh3_diagonal_contract.
Qed.

(** The claim C6 fails for a rotation composed on the left, as it is
    stated: with the three samples above and the third of a turn about the
    diagonal, [np.linalg.eigh] meeting its contract, the estimated axis goes
    from the x axis to the y axis. *)
Lemma common_left_rotation_changes_axes :
  ~ (forall eigh3 eigh4 (c : arr4) (proximal distal : list arr4) (fs : R)
            (axis_p axis_d axis_p' axis_d' : vec3),
       unit4 c -> 0 < fs ->
       length proximal = length distal ->
       Forall unit4 proximal -> Forall unit4 distal ->
       eigh3_contract (cov (ang_vel_stack proximal distal fs))
         (eigh3 (cov (ang_vel_stack proximal distal fs))) ->
       eigh3_contract
         (cov (ang_vel_stack (rotate_left c proximal) (rotate_left c distal) fs))
         (eigh3 (cov (ang_vel_stack (rotate_left c proximal) (rotate_left c distal) fs))) ->
       eigh4_contract (accumulate (rel_stack proximal distal))
         (eigh4 (accumulate (rel_stack proximal distal))) ->
       eigh4_contract
         (accumulate (rel_stack (rotate_left c proximal) (rotate_left c distal)))
         (eigh4 (accumulate (rel_stack (rotate_left c proximal) (rotate_left c distal)))) ->
       find_rotation_axis eigh3 eigh4 proximal distal fs = Ok (Some axis_p, Some axis_d) ->
       find_rotation_axis eigh3 eigh4 (rotate_left c proximal) (rotate_left c distal) fs
       = Ok (Some axis_p', Some axis_d') ->
       same_axis axis_p' axis_p /\ same_axis axis_d' axis_d).
Proof.
  intros H.
  destruct (H eigh3_diagonal eigh4_diagonal third_turn thigh_at_rest3 shank_half_turn3 100
              (V3 1 0 0) (V3 1 0 0) (V3 0 1 0) (V3 0 1 0)) as [[E | E] _].
  - apply unit4_third_turn.
  - lra.
  - reflexivity.
  - apply units_thigh_at_rest3.
  - apply units_shank_half_turn3.
  - apply eigh3_contract_knee3.
  - apply eigh3_contract_knee3_rotated.
  - rewrite rel_stack_knee3, accumulate_knee3. apply eigh4_diagonal_contract.
  - rewrite rel_stack_knee3_rotated, accumulate_knee3_rotated. apply eigh4_diagonal_contract.
  - apply find_rotation_axis_knee3.
  - apply find_rotation_axis_knee3_rotated.
  - injection E. lra.
  - unfold vscale in E; simpl in E. injection E. lra.
Qed.

(** * The double cover and the scale of the samples *)

Lemma scale4_scale4 c d q : scale4 c (scale4 d q) = scale4 (c * d) q.
Proof. quat_ring. Qed.

Lemma to_scipy_scale4 c q : to_scipy_quat (scale4 c q) = scale4 c (to_scipy_quat q).
Proof. reflexivity. Qed.

Lemma unitize_scale_pos c q : 0 < c -> norm4 q <> 0 -> unitize (scale4 c q) = unitize q.
Proof.
  intros Hc Hq. unfold unitize. rewrite norm4_scale4, Rabs_pos_eq by lra.
  rewrite scale4_scale4. f_equal. field. split; [exact Hq | lra].
Qed.

Lemma unitize_scale_neg c q :
  c < 0 -> norm4 q <> 0 -> unitize (scale4 c q) = scale4 (-1) (unitize q).
Proof.
  intros Hc Hq. unfold unitize. rewrite norm4_scale4, Rabs_left by lra.
  rewrite !scale4_scale4. f_equal. field. split; [exact Hq | lra].
Qed.

Lemma same_rotation_refl q : same_rotation q q.
Proof. left. reflexivity. Qed.

Lemma unitize_same_line q q' :
  norm4 q <> 0 -> same_line q q' ->
  same_rotation (unitize (to_scipy_quat q')) (unitize (to_scipy_quat q)).
Proof.
  intros Hq (c & Hc & ->). rewrite to_scipy_scale4.
  assert (norm4 (to_scipy_quat q) <> 0) by (rewrite norm4_to_scipy; exact Hq).
  destruct (Rlt_dec 0 c).
  - left. apply unitize_scale_pos; assumption.
  - right. apply unitize_scale_neg; [lra | assumption].
Qed.

Lemma unitize_same_ray q q' :
  norm4 q <> 0 -> same_ray q q' -> unitize (to_scipy_quat q') = unitize (to_scipy_quat q).
Proof.
  intros Hq (c & Hc & ->). rewrite to_scipy_scale4.
  apply unitize_scale_pos; [exact Hc | rewrite norm4_to_scipy; exact Hq].
Qed.

Lemma same_line_valid stream stream' :
  valid_stream stream -> Forall2 same_line stream stream' -> valid_stream stream'.
Proof.
  intros Hv H. induction H as [| q q' l l' (c & Hc & ->) _ IH]; [constructor |].
  inversion Hv; subst. constructor; [| apply IH; assumption].
  rewrite norm4_scale4. apply Rmult_integral_contrapositive. split; [| assumption].
  apply Rabs_no_R0, Hc.
Qed.

Lemma same_ray_line q q' : same_ray q q' -> same_line q q'.
Proof. intros (c & Hc & E). exists c. split; [lra | exact E]. Qed.

Lemma same_rotation_compose p p' q q' :
  same_rotation p' p -> same_rotation q' q ->
  same_rotation (compose_quat p' q') (compose_quat p q).
Proof.
  intros [-> | ->] [-> | ->].
  - left. reflexivity.
  - right. quat_ring.
  - right. quat_ring.
  - left. quat_ring.
Qed.

Lemma same_rotation_conj p p' : same_rotation p' p -> same_rotation (conj p') (conj p).
Proof. intros [-> | ->]; [left; reflexivity | right; quat_ring]. Qed.

Lemma rel_stack_same_ray proximal distal proximal' distal' :
  valid_stream proximal -> valid_stream distal ->
  Forall2 same_ray proximal proximal' -> Forall2 same_ray distal distal' ->
  rel_stack proximal' distal' = rel_stack proximal distal.
Proof.
  intros Hp Hd Fp Fd. unfold rel_stack.
  assert (E : forall l l', valid_stream l -> Forall2 same_ray l l' ->
                map unitize (map to_scipy_quat l') = map unitize (map to_scipy_quat l)).
  { intros l l' Hv H. induction H as [| q q' l l' Hq _ IH]; [reflexivity |].
    inversion Hv; subst. simpl. rewrite (unitize_same_ray q q') by assumption.
    f_equal. apply IH. assumption. }
  rewrite (E _ _ Hp Fp), (E _ _ Hd Fd). reflexivity.
Qed.

Lemma rel_stack_same_line proximal distal proximal' distal' :
  valid_stream proximal -> valid_stream distal ->
  Forall2 same_line proximal proximal' -> Forall2 same_line distal distal' ->
  Forall2 same_rotation (rel_stack proximal' distal') (rel_stack proximal distal).
Proof.
  intros Hp Hd Fp. revert distal distal' Hd. unfold rel_stack.
  induction Fp as [| p p' ps ps' Hpp _ IH]; intros distal distal' Hd Fd.
  - simpl. rewrite !zip_with_nil_r. constructor.
  - destruct Fd as [| d d' ds ds' Hdd Fd]; [constructor |].
    inversion Hp; subst. inversion Hd; subst.
    cbn [map fmap list_fmap zip_with]. constructor.
    + apply same_rotation_compose; [| apply same_rotation_conj];
        apply unitize_same_line; assumption.
    + apply IH; assumption.
Qed.

Lemma Forall2_same_rotation_zip a a' b b' :
  Forall2 same_rotation a' a -> Forall2 same_rotation b' b ->
  Forall2 same_rotation (zip_with compose_quat a' b') (zip_with compose_quat a b).
Proof.
  intros Ha. revert b b'. induction Ha as [| x' x l' l Hx _ IH]; intros b b' Hb.
  - constructor.
  - destruct Hb as [| y' y k' k Hy Hk]; [constructor |].
    simpl. constructor; [apply same_rotation_compose; assumption | apply IH, Hk].
Qed.

Lemma delta_stack_same_rotation rel rel' :
  Forall2 same_rotation rel' rel ->
  Forall2 same_rotation (delta_stack rel') (delta_stack rel).
Proof.
  intros H. unfold delta_stack. rewrite (Forall2_length _ _ _ H).
  apply Forall2_same_rotation_zip.
  - apply Forall2_fmap. apply Forall2_take.
    eapply Forall2_impl; [exact H |]. intros x y. apply same_rotation_conj.
  - apply Forall2_drop, H.
Qed.

(** A quaternion and its negation have the same rotation vector, half
    turns included. *)
Lemma as_rotvec_neg q : as_rotvec (scale4 (-1) q) = as_rotvec q.
Proof. unfold as_rotvec. rewrite quat_canonical_neg. reflexivity. Qed.

Lemma as_rotvec_same_rotation d d' :
  same_rotation d' d -> as_rotvec d' = as_rotvec d.
Proof. intros [-> | ->]; [reflexivity | apply as_rotvec_neg]. Qed.

Lemma outer4_neg q : outer4 (scale4 (-1) q) = outer4 q.
Proof. apply mat4_eq; quat_ring. Qed.

Lemma accumulate_same_rotation rel rel' :
  Forall2 same_rotation rel' rel -> accumulate rel' = accumulate rel.
Proof.
  induction 1 as [| q' q l' l [-> | ->] _ IH]; simpl.
  - reflexivity.
  - rewrite IH. reflexivity.
  - rewrite IH, outer4_neg. reflexivity.
Qed.

Lemma ang_vel_same_rotation fs delta delta' :
  Forall2 same_rotation delta' delta ->
  map (fun d => vscale fs (as_rotvec d)) delta' = map (fun d => vscale fs (as_rotvec d)) delta.
Proof.
  intros H. induction H as [| d' d l' l Hd _ IH]; [reflexivity |].
  simpl. rewrite (as_rotvec_same_rotation d d' Hd).
  f_equal. apply IH.
Qed.

Lemma axes_from_stack_same_rotation eigh3 eigh4 rel rel' fs :
  Forall2 same_rotation rel' rel ->
  axes_from_stack eigh3 eigh4 rel' fs = axes_from_stack eigh3 eigh4 rel fs.
Proof.
  intros H. unfold axes_from_stack.
  rewrite (ang_vel_same_rotation fs _ _ (delta_stack_same_rotation _ _ H)).
  rewrite (accumulate_same_rotation _ _ H). reflexivity.
Qed.

(** C10: [find_rotation_axis] does not see the sign or the length of a
    sample.  Every sample is normalised on entry, so a positive factor on
    any sample of either stream changes nothing; a negative factor (the
    negation of a sample among them) changes the sign of quaternions on the
    way, which neither the canonical form taken by [as_rotvec] nor the
    outer products of the mean rotation see.  Both returned axes are the
    same, half turns included. *)
Theorem sample_sign_and_scale eigh3 eigh4
    (proximal distal proximal' distal' : list arr4) (fs : R) :
  length proximal = length distal ->
  valid_stream proximal -> valid_stream distal ->
  Forall2 same_line proximal proximal' -> Forall2 same_line distal distal' ->
  find_rotation_axis eigh3 eigh4 proximal' distal' fs
  = find_rotation_axis eigh3 eigh4 proximal distal fs.
Proof.
  intros Hlen Hp Hd Lp Ld.
  assert (Hlen' : length proximal' = length distal')
    by (rewrite <- (Forall2_length _ _ _ Lp), <- (Forall2_length _ _ _ Ld); exact Hlen).
  pose proof (same_line_valid _ _ Hp Lp) as Hp'.
  pose proof (same_line_valid _ _ Hd Ld) as Hd'.
  rewrite (find_rotation_axis_stack eigh3 eigh4 _ _ fs Hlen' Hp' Hd').
  rewrite (find_rotation_axis_stack eigh3 eigh4 _ _ fs Hlen Hp Hd).
  apply axes_from_stack_same_rotation.
  apply rel_stack_same_line; assumption.
Qed.

Lemma same_line_neg q : same_line q (scale4 (-1) q).
Proof. exists (-1). split; [lra | reflexivity]. Qed.

Lemma same_line_refl q : same_line q q.
Proof. exists 1. split; [lra | symmetry; apply scale4_1]. Qed.

Lemma same_line_pos c q : 0 < c -> same_line q (scale4 c q).
Proof. intros H. exists c. split; [lra | reflexivity]. Qed.

Lemma delta_stack_still3 : delta_stack [identity; identity; identity] = [identity; identity].
Proof. rewrite delta_stack3. replace (compose_quat (conj identity) identity) with identity by quat_lra. reflexivity. Qed.

(** ** The trial of five samples *)

Lemma units_proximal_at_rest5 : Forall unit4 proximal_at_rest5.
Proof. repeat constructor; unfold unit4; arr_unfold; lra. Qed.

Lemma units_distal_half_turns5 : Forall unit4 distal_half_turns5.
Proof. repeat constructor; unfold unit4; arr_unfold; lra. Qed.

Lemma sample_sign_and_scale_witness :
  find_rotation_axis eigh3_diagonal eigh4_diagonal
    (<[0%nat := scale4 2 (A4 1 0 0 0)]> proximal_at_rest5)
    (<[2%nat := scale4 (-1) (A4 1 0 0 0)]> distal_half_turns5) 100
  = find_rotation_axis eigh3_diagonal eigh4_diagonal proximal_at_rest5 distal_half_turns5 100.
Proof.
  apply (sample_sign_and_scale eigh3_diagonal eigh4_diagonal).
  - reflexivity.
  - apply units_valid, units_proximal_at_rest5.
  - apply units_valid, units_distal_half_turns5.
  - unfold proximal_at_rest5. cbn [insert list_insert].
    repeat match goal with
           | |- Forall2 _ (_ :: _) (_ :: _) =>
               constructor; [first [apply same_line_refl | apply same_line_pos; lra] |]
           end.
    constructor.
  - unfold distal_half_turns5. cbn [insert list_insert].
    repeat match goal with
           | |- Forall2 _ (_ :: _) (_ :: _) =>
               constructor; [first [apply same_line_refl | apply same_line_neg] |]
           end.
    constructor.
Defined.

(** * Euler angles of the anatomical rotation (align.py, line 260) *)

Lemma parse_euler_seq : parse_seq euler_seq = Some (Extrinsic, (AxisX, AxisY, AxisZ)).
Proof. reflexivity. Qed.

Lemma parse_XYZ : parse_seq "XYZ" = Some (Intrinsic, (AxisX, AxisY, AxisZ)).
Proof. reflexivity. Qed.

Lemma from_euler_xyz degrees angles :
  from_euler euler_seq degrees angles
  = let conv := if degrees then deg2rad else (fun a => a) in
    Ok (compose_quat (elementary_quat AxisZ (conv (v2 angles)))
          (compose_quat (elementary_quat AxisY (conv (v1 angles)))
             (elementary_quat AxisX (conv (v0 angles))))).
Proof. reflexivity. Qed.

Lemma from_euler_XYZ degrees angles :
  from_euler "XYZ" degrees angles
  = let conv := if degrees then deg2rad else (fun a => a) in
    Ok (compose_quat
          (compose_quat (elementary_quat AxisX (conv (v0 angles)))
             (elementary_quat AxisY (conv (v1 angles))))
          (elementary_quat AxisZ (conv (v2 angles)))).
Proof. reflexivity. Qed.

Lemma half_sqrt2 : 1 / sqrt 2 * (1 / sqrt 2) = 1 / 2.
Proof.
  assert (H : sqrt 2 * sqrt 2 = 2) by (apply sqrt_sqrt; lra).
  assert (sqrt 2 <> 0) by (intros E; rewrite E in H; lra).
  replace (1 / sqrt 2 * (1 / sqrt 2)) with (1 / (sqrt 2 * sqrt 2)) by (field; assumption).
  rewrite H. reflexivity.
Qed.

Lemma elementary_quat_90 ax :
  elementary_quat ax (deg2rad 90)
  = match ax with
    | AxisX => A4 (1 / sqrt 2) 0 0 (1 / sqrt 2)
    | AxisY => A4 0 (1 / sqrt 2) 0 (1 / sqrt 2)
    | AxisZ => A4 0 0 (1 / sqrt 2) (1 / sqrt 2)
    end.
Proof.
  unfold elementary_quat, deg2rad.
  replace (90 * PI / 180 / 2) with (PI / 4) by field.
  rewrite sin_PI4, cos_PI4. destruct ax; reflexivity.
Qed.

Lemma elementary_quat_0 ax : elementary_quat ax (deg2rad 0) = identity.
Proof.
  unfold elementary_quat, deg2rad.
  replace (0 * PI / 180 / 2) with 0 by field.
  rewrite sin_0, cos_0. destruct ax; reflexivity.
Qed.

Lemma from_euler_xyz_third_turn :
  from_euler euler_seq true (V3 90 0 90) = Ok (A4 (1/2) (1/2) (1/2) (1/2)).
Proof.
  rewrite from_euler_xyz. cbn [v0 v1 v2]. cbv zeta.
  rewrite !elementary_quat_90, elementary_quat_0. f_equal.
  pose proof half_sqrt2. apply arr4_eq; arr_unfold; lra.
Qed.

Lemma from_euler_XYZ_third_turn :
  from_euler "XYZ" true (V3 90 0 90) = Ok (A4 (1/2) (-1/2) (1/2) (1/2)).
Proof.
  rewrite from_euler_XYZ. cbn [v0 v1 v2]. cbv zeta.
  rewrite !elementary_quat_90, elementary_quat_0. f_equal.
  pose proof half_sqrt2. apply arr4_eq; arr_unfold; lra.
Qed.

(** C7, as the code has it.  The sequence handed to [as_euler] is the
    lower-case "xyz", which scipy reads as extrinsic rotations: the three
    angles, in degrees, rebuild the anatomical rotation as a rotation about
    the fixed x axis, then about the fixed y axis, then about the fixed z
    axis. *)
Theorem anatomical_euler_angles_extrinsic
    (as_euler : string -> bool -> Rotation.t -> result vec3)
    (raw_q q_cal q_anatomical : arr4) (angles : vec3) :
  (forall r, anatomical_rotation raw_q q_cal = Ok r -> as_euler_contract as_euler euler_seq true r) ->
  apply_calibration as_euler raw_q q_cal = Ok (q_anatomical, angles) ->
  parse_seq euler_seq = Some (Extrinsic, (AxisX, AxisY, AxisZ)) /\
  exists anatomical_rot,
    anatomical_rotation raw_q q_cal = Ok anatomical_rot /\
    q_anatomical = to_wxyz_quat anatomical_rot /\
    as_euler euler_seq true anatomical_rot = Ok angles /\
    same_rotation
      (compose_quat (elementary_quat AxisZ (deg2rad (v2 angles)))
         (compose_quat (elementary_quat AxisY (deg2rad (v1 angles)))
            (elementary_quat AxisX (deg2rad (v0 angles)))))
      anatomical_rot.
Proof.
  intros Hc Ha. split; [reflexivity |].
  unfold apply_calibration in Ha.
  destruct (anatomical_rotation raw_q q_cal) as [r |] eqn:Er; simpl in Ha; [| discriminate].
  destruct (as_euler euler_seq true r) as [a |] eqn:Ea; simpl in Ha; [| discriminate].
  injection Ha as <- <-.
  exists r. split; [reflexivity |]. split; [reflexivity |]. split; [exact Ea |].
  destruct (Hc r eq_refl a Ea) as (r' & Hr' & Hs).
  rewrite from_euler_xyz in Hr'. cbv zeta in Hr'. injection Hr' as <-. exact Hs.
Qed.

Lemma anatomical_rotation_identity :
  anatomical_rotation (A4 1 0 0 0) (A4 1 0 0 0) = Ok identity.
Proof.
  rewrite anatomical_rotation_unit by apply unit4_wxyz_identity.
  f_equal. quat_lra.
Qed.

Lemma anatomical_euler_angles_extrinsic_witness :
  exists anatomical_rot,
    anatomical_rotation (A4 1 0 0 0) (A4 1 0 0 0) = Ok anatomical_rot /\
    same_rotation
      (compose_quat (elementary_quat AxisZ (deg2rad 0))
         (compose_quat (elementary_quat AxisY (deg2rad 0)) (elementary_quat AxisX (deg2rad 0))))
      anatomical_rot.
Proof.
  destruct (anatomical_euler_angles_extrinsic as_euler_identity
              (A4 1 0 0 0) (A4 1 0 0 0) (A4 1 0 0 0) vzero)
    as (_ & r & H1 & _ & _ & H4).
  - intros r Hr angles [= <-].
    rewrite anatomical_rotation_identity in Hr. injection Hr as <-.
    exists identity. split; [| left; reflexivity].
    rewrite from_euler_xyz. cbn [v0 v1 v2 vzero]. cbv zeta.
    rewrite !elementary_quat_0. f_equal. quat_lra.
  - unfold apply_calibration. rewrite anatomical_rotation_identity. reflexivity.
  - exists r. split; assumption.
Defined.

Lemma anatomical_rotation_third_turn :
  anatomical_rotation third_turn (A4 1 0 0 0) = Ok (A4 (1/2) (1/2) (1/2) (1/2)).
Proof.
  rewrite anatomical_rotation_unit by first [apply unit4_third_turn | apply unit4_wxyz_identity].
  f_equal. unfold third_turn. quat_lra.
Qed.

(** The claim C7 fails as it is stated: for the third of a turn about the
    diagonal, the angles (90, 0, 90) are what [as_euler] has to return for
    "xyz", and they are not intrinsic X-Y-Z angles of this rotation. *)
Lemma anatomical_euler_angles_not_intrinsic :
  ~ (forall (as_euler : string -> bool -> Rotation.t -> result vec3)
            (raw_q q_cal q_anatomical : arr4) (angles : vec3) (anatomical_rot : Rotation.t),
       unit4 raw_q -> unit4 q_cal ->
       anatomical_rotation raw_q q_cal = Ok anatomical_rot ->
       as_euler_contract as_euler euler_seq true anatomical_rot ->
       apply_calibration as_euler raw_q q_cal = Ok (q_anatomical, angles) ->
       exists r', from_euler "XYZ" true angles = Ok r' /\ same_rotation r' anatomical_rot).
Proof.
  intros H.
  destruct (H as_euler_third_turn third_turn (A4 1 0 0 0)
              (to_wxyz_quat (A4 (1/2) (1/2) (1/2) (1/2))) (V3 90 0 90)
              (A4 (1/2) (1/2) (1/2) (1/2))) as (r' & Hr' & Hs).
  - apply unit4_third_turn.
  - apply unit4_wxyz_identity.
  - apply anatomical_rotation_third_turn.
  - intros angles [= <-]. eexists. split; [apply from_euler_xyz_third_turn | left; reflexivity].
  - unfold apply_calibration. rewrite anatomical_rotation_third_turn. reflexivity.
  - rewrite from_euler_XYZ_third_turn in Hr'. injection Hr' as <-.
    destruct Hs as [E | E].
    + apply (f_equal a1) in E. simpl in E. lra.
    + apply (f_equal a0) in E. simpl in E. lra.
Qed.

(** * The examples do not depend on the choice of the eigenvectors *)

Lemma diagonal3_symmetric a b c : symmetric_mat (diagonal3 a b c).
Proof. reflexivity. Qed.

(** Whatever [np.linalg.eigh] returns within its contract, the last
    eigenvector of a diagonal matrix with a dominant first entry lies on the
    x axis, and on the y axis for a dominant second entry. *)
Lemma contract_diagonal_top_x eigh3 a b c :
  b < a -> c < a ->
  eigh3_contract (diagonal3 a b c) (eigh3 (diagonal3 a b c)) ->
  same_axis (col 2 (eigh3 (diagonal3 a b c)).2) (V3 1 0 0).
Proof.
  intros Hb Hc H. destruct (eigh3 (diagonal3 a b c)) as [w v]. cbn [snd].
  destruct (contract_columns_unit _ _ _ H) as (_ & _ & U).
  destruct (contract_top_eigenvector _ _ _ (diagonal3_symmetric a b c) H) as (l & El & Hl).
  assert (Ha : a <= l).
  { apply (Hl a (V3 1 0 0)); [apply vec3_neq_0; lra | vec_ring]. }
  destruct (col 2 v) as [x0 x1 x2]. unfold unit3 in U.
  unfold diagonal3, mulv, vscale, dot in El, U; simpl in El, U.
  injection El as E0 E1 E2.
  assert (x1 = 0) by nra. assert (x2 = 0) by nra. subst x1 x2.
  assert (Hx : (x0 - 1) * (x0 + 1) = 0) by nra.
  apply Rmult_integral in Hx. unfold same_axis, vscale; simpl.
  destruct Hx; [left | right]; apply vec3_eq; simpl; lra.
Qed.

Lemma contract_diagonal_top_y eigh3 a b c :
  a < b -> c < b ->
  eigh3_contract (diagonal3 a b c) (eigh3 (diagonal3 a b c)) ->
  same_axis (col 2 (eigh3 (diagonal3 a b c)).2) (V3 0 1 0).
Proof.
  intros Hb Hc H. destruct (eigh3 (diagonal3 a b c)) as [w v]. cbn [snd].
  destruct (contract_columns_unit _ _ _ H) as (_ & _ & U).
  destruct (contract_top_eigenvector _ _ _ (diagonal3_symmetric a b c) H) as (l & El & Hl).
  assert (Ha : b <= l).
  { apply (Hl b (V3 0 1 0)); [apply vec3_neq_1; lra | vec_ring]. }
  destruct (col 2 v) as [x0 x1 x2]. unfold unit3 in U.
  unfold diagonal3, mulv, vscale, dot in El, U; simpl in El, U.
  injection El as E0 E1 E2.
  assert (x0 = 0) by nra. assert (x2 = 0) by nra. subst x0 x2.
  assert (Hx : (x1 - 1) * (x1 + 1) = 0) by nra.
  apply Rmult_integral in Hx. unfold same_axis, vscale; simpl.
  destruct Hx; [left | right]; apply vec3_eq; simpl; lra.
Qed.

Lemma same_axis_unit a b : unit3 b -> same_axis a b -> unit3 a.
Proof.
  unfold unit3. intros Hb [-> | ->]; [exact Hb |].
  rewrite dot_vscale_l, dot_vscale_r, Hb. ring.
Qed.

(** The axis estimated from the knee trial of three samples lies on the x
    axis for every [np.linalg.eigh] within the contract, and on the y axis
    once the samples are rotated on the left. *)
Lemma knee3_axis_p_any_eigh eigh3 eigh4 axis_p axis_d :
  eigh3_contract (cov (ang_vel_stack thigh_at_rest3 shank_half_turn3 100))
    (eigh3 (cov (ang_vel_stack thigh_at_rest3 shank_half_turn3 100))) ->
  find_rotation_axis eigh3 eigh4 thigh_at_rest3 shank_half_turn3 100
  = Ok (Some axis_p, axis_d) ->
  same_axis axis_p (V3 1 0 0).
Proof.
  rewrite ang_vel_stack_unfold, rel_stack_knee3, ang_vel_knee3, cov_knee3. intros Hc.
  rewrite find_rotation_axis_stack;
    [| reflexivity | apply units_valid, units_thigh_at_rest3
     | apply units_valid, units_shank_half_turn3].
  rewrite rel_stack_knee3. unfold axes_from_stack.
  rewrite ang_vel_knee3, cov_knee3. cbn [length Nat.ltb Nat.leb].
  pose proof fs_PI_sqr_pos.
  pose proof Hc as Hs. apply contract_diagonal_top_x in Hs; [| lra | lra].
  rewrite (np_normalize_unit _ (same_axis_unit _ _ unit3_e1 Hs)).
  intros [= <- _]. exact Hs.
Qed.

Lemma knee3_rotated_axis_p_any_eigh eigh3 eigh4 axis_p axis_d :
  eigh3_contract
    (cov (ang_vel_stack (rotate_left third_turn thigh_at_rest3)
            (rotate_left third_turn shank_half_turn3) 100))
    (eigh3 (cov (ang_vel_stack (rotate_left third_turn thigh_at_rest3)
                   (rotate_left third_turn shank_half_turn3) 100))) ->
  find_rotation_axis eigh3 eigh4
    (rotate_left third_turn thigh_at_rest3) (rotate_left third_turn shank_half_turn3) 100
  = Ok (Some axis_p, axis_d) ->
  same_axis axis_p (V3 0 1 0).
Proof.
  rewrite ang_vel_stack_unfold, rel_stack_knee3_rotated, ang_vel_knee3_rotated, cov_knee3_rotated.
  intros Hc.
  rewrite find_rotation_axis_stack;
    [| reflexivity
     | apply valid_rotate_left;
       [apply unit4_norm_nonzero, unit4_third_turn | apply units_valid, units_thigh_at_rest3]
     | apply valid_rotate_left;
       [apply unit4_norm_nonzero, unit4_third_turn | apply units_valid, units_shank_half_turn3]].
  rewrite rel_stack_knee3_rotated. unfold axes_from_stack.
  rewrite ang_vel_knee3_rotated, cov_knee3_rotated. cbn [length Nat.ltb Nat.leb].
  pose proof fs_PI_sqr_pos.
  pose proof Hc as Hs. apply contract_diagonal_top_y in Hs; [| lra | lra].
  rewrite (np_normalize_unit _ (same_axis_unit _ _ unit3_e2 Hs)).
  intros [= <- _]. exact Hs.
Qed.

(** * Further properties of the relative motion (align.py, lines 5-42) *)

(** ** Quaternion layout *)

(** X1: the two changes of layout are inverse to each other, and keep the
    norm of the quaternion. *)
Theorem quat_layout_round_trip q :
  to_wxyz_quat (to_scipy_quat q) = q /\ to_scipy_quat (to_wxyz_quat q) = q /\
  norm4 (to_scipy_quat q) = norm4 q /\ norm4 (to_wxyz_quat q) = norm4 q.
Proof.
  split; [apply to_wxyz_to_scipy |]. split; [apply to_scipy_to_wxyz |].
  split; [apply norm4_to_scipy |].
  unfold norm4. f_equal. unfold dot4; simpl. ring.
Qed.

(** ** Samples of norm zero *)

Lemma normalized_cases q :
  normalized q = Ok (unitize q) /\ norm4 q <> 0 \/
  normalized q = Raise (ValueError zero_norm_msg) /\ norm4 q = 0.
Proof.
  unfold normalized. destruct (Req_dec_T (norm4 q) 0); [right | left]; split; trivial.
Qed.

Lemma from_quat_zero qs :
  Exists zero_sample qs -> from_quat qs = Raise (ValueError zero_norm_msg).
Proof.
  induction qs as [| q qs IH]; intros H; [inversion H |].
  unfold from_quat in *. simpl.
  destruct (normalized_cases q) as [[-> Hq] | [-> Hq]]; simpl; [| reflexivity].
  inversion H as [? ? Hz | ? ? Hz]; subst; [contradiction |].
  rewrite (IH Hz). reflexivity.
Qed.

Lemma valid_or_zero qs : valid_stream qs \/ Exists zero_sample qs.
Proof.
  induction qs as [| q qs [IH | IH]].
  - left. constructor.
  - destruct (Req_dec_T (norm4 q) 0) as [Hq | Hq].
    + right. left. exact Hq.
    + left. constructor; assumption.
  - right. right. exact IH.
Qed.

Lemma Exists_zero_to_scipy qs :
  Exists zero_sample qs -> Exists zero_sample (map to_scipy_quat qs).
Proof.
  intros H. apply Exists_fmap. eapply Exists_impl; [exact H |].
  intros q Hq. unfold zero_sample in *. simpl. rewrite norm4_to_scipy. exact Hq.
Qed.

(** X2: a sample of norm zero in either stream makes [find_rotation_axis]
    raise the error of [Rotation.from_quat], whatever the lengths. *)
Theorem find_rotation_axis_zero_sample eigh3 eigh4 (proximal distal : list arr4) (fs : R) :
  Exists zero_sample proximal \/ Exists zero_sample distal ->
  find_rotation_axis eigh3 eigh4 proximal distal fs = Raise (ValueError zero_norm_msg).
Proof.
  intros H. unfold find_rotation_axis, relative_ang_vel, relative_rotation.
  destruct (valid_or_zero proximal) as [Hp | Hp].
  - destruct H as [H | H].
    + rewrite (from_quat_zero _ (Exists_zero_to_scipy _ H)). reflexivity.
    + rewrite (from_quat_ok _ (Forall_nonzero_to_scipy _ Hp)); simpl.
      rewrite (from_quat_zero _ (Exists_zero_to_scipy _ H)). reflexivity.
  - rewrite (from_quat_zero _ (Exists_zero_to_scipy _ Hp)). reflexivity.
Qed.

Lemma zero_sample_zero : zero_sample (A4 0 0 0 0).
Proof. apply norm4_zero_iff. unfold dot4; simpl. ring. Qed.

Lemma find_rotation_axis_zero_sample_witness :
  find_rotation_axis eigh3_diagonal eigh4_diagonal
    [A4 1 0 0 0; A4 0 0 0 0; A4 1 0 0 0] [A4 1 0 0 0; A4 1 0 0 0; A4 1 0 0 0] 100
  = Raise (ValueError zero_norm_msg).
Proof.
  apply find_rotation_axis_zero_sample.
  left. right. left. apply zero_sample_zero.
Defined.

(** ** Streams of different lengths *)

(** X3: two valid streams of different lengths, neither of one sample,
    make [find_rotation_axis] raise the error of the product of rotations,
    whose message counts the distal samples first. *)
Theorem find_rotation_axis_length_mismatch eigh3 eigh4 (proximal distal : list arr4) (fs : R) :
  valid_stream proximal -> valid_stream distal ->
  length proximal <> length distal ->
  length proximal <> 1%nat -> length distal <> 1%nat ->
  find_rotation_axis eigh3 eigh4 proximal distal fs
  = Raise (ValueError (mul_length_msg (length distal) (length proximal))).
Proof.
  intros Hp Hd Hne Hp1 Hd1.
  unfold find_rotation_axis, relative_ang_vel, relative_rotation.
  rewrite (from_quat_ok _ (Forall_nonzero_to_scipy _ Hp)); simpl.
  rewrite (from_quat_ok _ (Forall_nonzero_to_scipy _ Hd)); simpl.
  rewrite inv_ok by (apply from_quat_units, Forall_nonzero_to_scipy, Hp); simpl.
  unfold mul. rewrite !length_fmap.
  destruct (Nat.eqb_spec (length distal) (length proximal)); [congruence |].
  destruct (Nat.eqb_spec (length distal) 1); [congruence |].
  destruct (Nat.eqb_spec (length proximal) 1); [congruence |].
  reflexivity.
Qed.

Lemma find_rotation_axis_length_mismatch_witness :
  find_rotation_axis eigh3_diagonal eigh4_diagonal
    (replicate 3 (A4 1 0 0 0)) (replicate 4 (A4 1 0 0 0)) 100
  = Raise (ValueError (mul_length_msg 4 3)).
Proof.
  apply (find_rotation_axis_length_mismatch eigh3_diagonal eigh4_diagonal
           (replicate 3 (A4 1 0 0 0)) (replicate 4 (A4 1 0 0 0)) 100).
  - apply valid_stream_still.
  - apply valid_stream_still.
  - simpl. lia.
  - simpl. lia.
  - simpl. lia.
Defined.

Lemma mapR_map {A B} (f : A -> result B) (g : A -> B) xs :
  (forall x, x ∈ xs -> f x = Ok (g x)) -> mapR f xs = Ok (map g xs).
Proof.
  intros H. apply mapR_ok. apply Forall_forall. exact H.
Qed.

(** The stack of angular velocities is a function of the relative
    rotations alone. *)
Lemma find_rotation_axis_via_rel eigh3 eigh4 proximal distal fs rel :
  relative_rotation proximal distal = Ok rel -> Forall unit4 rel ->
  find_rotation_axis eigh3 eigh4 proximal distal fs = axes_from_stack eigh3 eigh4 rel fs.
Proof.
  intros Hr Hu. unfold find_rotation_axis, relative_ang_vel, axes_from_stack.
  rewrite Hr; simpl. rewrite (delta_relative_rotation_ok _ Hu); simpl.
  destruct (length _ <? 2)%nat; [reflexivity |].
  unfold mean.
  destruct (eigh3 _) as [eigenvalues eigenvectors]. simpl.
  destruct (eigh4 (accumulate rel)) as [w4 v4]. reflexivity.
Qed.

Lemma relative_rotation_single p distal :
  norm4 p <> 0 -> valid_stream distal ->
  relative_rotation [p] distal
  = relative_rotation (replicate (length distal) p) distal.
Proof.
  intros Hp Hd.
  assert (Hrep : valid_stream (replicate (length distal) p)) by (apply Forall_replicate, Hp).
  rewrite (relative_rotation_ok (replicate (length distal) p) distal)
    by (rewrite ?length_replicate; trivial).
  destruct (Nat.eq_dec (length distal) 1%nat) as [E | E].
  - rewrite E. simpl. apply relative_rotation_ok; [symmetry; exact E | | exact Hd].
    constructor; [exact Hp | constructor].
  - unfold relative_rotation.
    rewrite (from_quat_ok (map to_scipy_quat [p]))
      by (apply Forall_nonzero_to_scipy; constructor; [exact Hp | constructor]).
    simpl.
    rewrite (from_quat_ok _ (Forall_nonzero_to_scipy _ Hd)); simpl.
    assert (Up : unit4 (unitize (to_scipy_quat p)))
      by (apply unitize_unit; rewrite norm4_to_scipy; exact Hp).
    unfold inv. simpl. rewrite (inv1_unit _ Up). simpl.
    unfold mul. rewrite !length_fmap. simpl.
    destruct (Nat.eqb_spec (length distal) 1%nat); [contradiction |].
    rewrite (mapR_map _ (fun x => compose_quat x (conj (unitize (to_scipy_quat p))))).
    + f_equal. unfold rel_stack. rewrite !fmap_replicate.
      rewrite zip_with_replicate_r_eq by (rewrite !length_fmap; reflexivity).
      reflexivity.
    + intros x Hx. apply mul1_unit; [| apply conj_unit, Up].
      pose proof (from_quat_units _ (Forall_nonzero_to_scipy _ Hd)) as Hu.
      rewrite Forall_forall in Hu. apply Hu, Hx.
Qed.

(** X4: a proximal stream of one sample is not rejected: it is broadcast
    against the distal stream, as if it were repeated for every sample. *)
Theorem find_rotation_axis_broadcast eigh3 eigh4 (p : arr4) (distal : list arr4) (fs : R) :
  norm4 p <> 0 -> valid_stream distal ->
  find_rotation_axis eigh3 eigh4 [p] distal fs
  = find_rotation_axis eigh3 eigh4 (replicate (length distal) p) distal fs.
Proof.
  intros Hp Hd.
  assert (Hrep : valid_stream (replicate (length distal) p)) by (apply Forall_replicate, Hp).
  assert (Hlen : length (replicate (length distal) p) = length distal) by apply length_replicate.
  pose proof (relative_rotation_single p distal Hp Hd) as E.
  rewrite (relative_rotation_ok _ _ Hlen Hrep Hd) in E.
  rewrite (find_rotation_axis_via_rel eigh3 eigh4 _ _ fs _ E (rel_stack_units _ _ Hrep Hd)).
  symmetry. apply find_rotation_axis_via_rel.
  - apply relative_rotation_ok; assumption.
  - apply rel_stack_units; assumption.
Qed.

Lemma find_rotation_axis_broadcast_witness :
  find_rotation_axis eigh3_diagonal eigh4_diagonal [A4 1 0 0 0] shank_half_turn3 100
  = find_rotation_axis eigh3_diagonal eigh4_diagonal
      (replicate (length shank_half_turn3) (A4 1 0 0 0)) shank_half_turn3 100.
Proof.
  apply find_rotation_axis_broadcast.
  - apply norm4_wxyz_identity.
  - apply units_valid, units_shank_half_turn3.
Defined.

(** ** No relative motion *)

Lemma rel_stack_rigid c proximal :
  norm4 c <> 0 -> valid_stream proximal ->
  rel_stack proximal (rotate_left c proximal)
  = replicate (length proximal) (unitize (to_scipy_quat c)).
Proof.
  intros Hc Hp. unfold rel_stack, rotate_left.
  induction Hp as [| p ps Hp _ IH]; [reflexivity |].
  cbn [map fmap list_fmap zip_with length replicate]. f_equal; [| exact IH].
  rewrite unitize_scipy_compose_wxyz by assumption.
  assert (Up : unit4 (unitize (to_scipy_quat p)))
    by (apply unitize_unit; rewrite norm4_to_scipy; exact Hp).
  rewrite compose_assoc, (compose_conj_r _ Up), compose_id_r. reflexivity.
Qed.

Lemma delta_stack_replicate n u :
  unit4 u -> delta_stack (replicate n u) = replicate (n - 1) identity.
Proof.
  intros Hu. unfold delta_stack.
  rewrite length_replicate, take_replicate, drop_replicate, fmap_replicate.
  replace ((n - 1) `min` n)%nat with (n - 1)%nat by lia.
  rewrite zip_with_replicate, (compose_conj_l _ Hu). reflexivity.
Qed.

(** X5: when every distal sample is the proximal sample under one and the
    same rotation on the left, the relative rotation is constant and every
    angular velocity is the zero vector. *)
Theorem relative_ang_vel_rigid (c : arr4) (proximal : list arr4) (fs : R) :
  norm4 c <> 0 -> valid_stream proximal ->
  relative_ang_vel proximal (rotate_left c proximal) fs
  = Ok (replicate (length proximal - 1) vzero).
Proof.
  intros Hc Hp.
  rewrite relative_ang_vel_ok;
    [| unfold rotate_left; rewrite length_fmap; reflexivity
     | exact Hp | apply valid_rotate_left; assumption].
  f_equal. unfold ang_vel_stack.
  rewrite (rel_stack_rigid _ _ Hc Hp).
  rewrite delta_stack_replicate
    by (apply unitize_unit; rewrite norm4_to_scipy; exact Hc).
  rewrite fmap_replicate, as_rotvec_identity. f_equal. vec_ring.
Qed.

Lemma relative_ang_vel_rigid_witness :
  relative_ang_vel shank_half_turn3 (rotate_left third_turn shank_half_turn3) 100
  = Ok [vzero; vzero].
Proof.
  apply (relative_ang_vel_rigid third_turn shank_half_turn3 100).
  - apply unit4_norm_nonzero, unit4_third_turn.
  - apply units_valid, units_shank_half_turn3.
Defined.

(** * The sampling rate (align.py, lines 39-48) *)

Lemma vscale_vscale c d a : vscale c (vscale d a) = vscale (c * d) a.
Proof. vec_ring. Qed.

Lemma ang_vel_stack_scale proximal distal fs c :
  ang_vel_stack proximal distal (c * fs) = map (vscale c) (ang_vel_stack proximal distal fs).
Proof.
  unfold ang_vel_stack. rewrite <- list_fmap_compose. apply list_fmap_ext.
  intros i d _. simpl. symmetry. apply vscale_vscale.
Qed.

Lemma vsum_scale c ws : vsum (map (vscale c) ws) = vscale c (vsum ws).
Proof.
  unfold vsum. induction ws as [| w ws IH]; simpl; [vec_ring |].
  rewrite IH. vec_ring.
Qed.

Lemma cov_scale c ws : cov (map (vscale c) ws) = mscale (c * c) (cov ws).
Proof.
  unfold cov, vmean. rewrite vsum_scale, !length_fmap.
  set (n := INR (length ws)). set (m := vsum ws).
  rewrite <- list_fmap_compose.
  assert (E : forall l : list vec3,
             foldr (fun x acc => madd (outer x x) acc) mzero
               (map ((fun w => vsub w (vscale (/ n) (vscale c m))) ∘ vscale c) l)
             = mscale (c * c)
                 (foldr (fun x acc => madd (outer x x) acc) mzero
                    (map (fun w => vsub w (vscale (/ n) m)) l))).
  { induction l as [| w l IH]; simpl.
    - apply mat3_eq; vec_ring.
    - rewrite IH. apply mat3_eq; vec_ring. }
  rewrite E. apply mat3_eq; vec_ring.
Qed.

Lemma mulv_mscale c m x : mulv (mscale c m) x = vscale c (mulv m x).
Proof. vec_ring. Qed.

Lemma unit3_nonzero x : unit3 x -> x <> vzero.
Proof. intros H E. subst. unfold unit3 in H. arr_unfold. lra. Qed.

(** With a simple largest eigenvalue, the unit eigenvectors for it are the
    last column of the eigenvectors and its opposite. *)
Lemma top_eigenvector_unique m w v x :
  symmetric_mat m -> eigh3_contract m (w, v) -> v1 w < v2 w ->
  unit3 x -> top_eigenvector m x -> same_axis x (col 2 v).
Proof.
  intros Hsym Hc Hgap Ux (l & El & Hl).
  pose proof Hc as (G & E0 & E1 & E2 & L01 & L12).
  destruct (contract_columns_unit _ _ _ Hc) as (U0 & U1 & U2).
  destruct (contract_top_eigenvector _ _ _ Hsym Hc) as (l2 & El2 & Hl2).
  assert (l2 = v2 w).
  { assert (H : vscale l2 (col 2 v) = vscale (v2 w) (col 2 v)) by congruence.
    apply (f_equal (dot (col 2 v))) in H. rewrite !dot_vscale_r in H.
    unfold unit3 in U2. rewrite U2 in H. lra. }
  subst l2.
  assert (Hle : l <= v2 w) by (apply (Hl2 l x); [apply unit3_nonzero, Ux | exact El]).
  assert (Hge : v2 w <= l) by (apply (Hl (v2 w) (col 2 v)); [apply unit3_nonzero, U2 | exact E2]).
  assert (l = v2 w) by lra. subst l.
  assert (Hi : forall c li, mulv m c = vscale li c -> (li - v2 w) * dot c x = 0).
  { intros c li Ec.
    assert (H : dot c (mulv m x) = dot (mulv m c) x) by (apply dot_mulv_symmetric, Hsym).
    rewrite El, Ec, dot_vscale_l, dot_vscale_r in H. lra. }
  assert (D0 : dot (col 0 v) x = 0) by (pose proof (Hi _ _ E0); nra).
  assert (D1 : dot (col 1 v) x = 0) by (pose proof (Hi _ _ E1); nra).
  set (t := dot (col 2 v) x).
  assert (Ex : vsub x (vscale t (col 2 v)) = vzero).
  { apply (orthonormal_complete v); [exact G | | |].
    - destruct v as [[a b c] [d e f] [g h i]], x as [x0 x1 x2].
      unfold mmul, mat3_id, dot, col, transpose in G; simpl in G.
      injection G as G00 G01 G02 G10 G11 G12 G20 G21 G22.
      unfold t. arr_unfold. nsatz.
    - destruct v as [[a b c] [d e f] [g h i]], x as [x0 x1 x2].
      unfold mmul, mat3_id, dot, col, transpose in G; simpl in G.
      injection G as G00 G01 G02 G10 G11 G12 G20 G21 G22.
      unfold t. arr_unfold. nsatz.
    - unfold t. unfold unit3 in U2.
      destruct (col 2 v) as [c0 c1 c2], x as [x0 x1 x2]. arr_unfold. nsatz. }
  assert (Ext : x = vscale t (col 2 v)).
  { destruct x as [x0 x1 x2], (col 2 v) as [c0 c1 c2].
    unfold vsub, vscale, vzero in *; simpl in *. injection Ex as ? ? ?.
    apply vec3_eq; simpl; lra. }
  assert (Ht : t * t = 1).
  { unfold unit3 in Ux, U2. rewrite Ext, dot_vscale_l, dot_vscale_r, U2 in Ux. lra. }
  assert (Ht' : (t - 1) * (t + 1) = 0) by lra.
  apply Rmult_integral in Ht'. unfold same_axis. rewrite Ext.
  destruct Ht' as [H1 | H1]; [left | right].
  - replace t with 1 by lra. apply vscale_1.
  - replace t with (-1) by lra. reflexivity.
Qed.

Lemma same_axis_sym a b : same_axis a b -> same_axis b a.
Proof.
  intros [-> | ->]; [left; reflexivity | right].
  rewrite vscale_vscale. replace (-1 * -1) with 1 by ring. symmetry. apply vscale_1.
Qed.

Lemma same_axis_trans a b c : same_axis a b -> same_axis b c -> same_axis a c.
Proof.
  intros [-> | ->] [-> | ->]; [left | right | right | left]; try reflexivity.
  rewrite vscale_vscale. replace (-1 * -1) with 1 by ring. apply vscale_1.
Qed.

Lemma apply_vscale q c x : apply q (vscale c x) = vscale c (apply q x).
Proof. vec_ring. Qed.

Lemma norm_neg x : norm (vscale (-1) x) = norm x.
Proof. rewrite norm_vscale, Rabs_left by lra. ring. Qed.

Lemma np_normalize_neg x y :
  np_normalize x = Some y -> np_normalize (vscale (-1) x) = Some (vscale (-1) y).
Proof.
  unfold np_normalize. rewrite norm_neg.
  destruct (Req_dec_T (norm x) 0); [discriminate |].
  intros [= <-]. f_equal. vec_ring.
Qed.

Lemma np_normalize_same_axis x x' y y' :
  same_axis x' x -> np_normalize x = Some y -> np_normalize x' = Some y' -> same_axis y' y.
Proof.
  intros [-> | ->] Hy Hy'.
  - left. congruence.
  - right. rewrite (np_normalize_neg _ _ Hy) in Hy'. congruence.
Qed.

(** X6: the sampling rate only scales the angular velocities.  With
    [np.linalg.eigh] meeting its contract and a simple largest eigenvalue of
    the covariance matrix, another sampling rate gives the same two axes up
    to sign. *)
Theorem find_rotation_axis_sampling_rate eigh3 eigh4 (proximal distal : list arr4) (fs c : R)
    (axis_p axis_d axis_p' axis_d' : vec3) :
  length proximal = length distal ->
  valid_stream proximal -> valid_stream distal ->
  c <> 0 ->
  eigh3_contract (cov (ang_vel_stack proximal distal fs))
    (eigh3 (cov (ang_vel_stack proximal distal fs))) ->
  v1 (eigh3 (cov (ang_vel_stack proximal distal fs))).1
  < v2 (eigh3 (cov (ang_vel_stack proximal distal fs))).1 ->
  eigh3_contract (cov (ang_vel_stack proximal distal (c * fs)))
    (eigh3 (cov (ang_vel_stack proximal distal (c * fs)))) ->
  find_rotation_axis eigh3 eigh4 proximal distal fs = Ok (Some axis_p, Some axis_d) ->
  find_rotation_axis eigh3 eigh4 proximal distal (c * fs) = Ok (Some axis_p', Some axis_d') ->
  same_axis axis_p' axis_p /\ same_axis axis_d' axis_d.
Proof.
  intros Hlen Hp Hd Hc H3 Hgap H3' Hr Hr'.
  rewrite (find_rotation_axis_stack _ _ _ _ _ Hlen Hp Hd) in Hr.
  rewrite (find_rotation_axis_stack _ _ _ _ _ Hlen Hp Hd) in Hr'.
  unfold axes_from_stack in Hr, Hr'.
  fold (ang_vel_stack proximal distal fs) in Hr.
  fold (ang_vel_stack proximal distal (c * fs)) in Hr'.
  destruct (length (ang_vel_stack proximal distal fs) <? 2)%nat; [discriminate |].
  destruct (length (ang_vel_stack proximal distal (c * fs)) <? 2)%nat; [discriminate |].
  rewrite ang_vel_stack_scale, cov_scale in H3', Hr'.
  set (M := cov (ang_vel_stack proximal distal fs)) in *.
  destruct (eigh3 M) as [w v] eqn:EM.
  destruct (eigh3 (mscale (c * c) M)) as [w' v'] eqn:EM'.
  cbn [fst snd] in *.
  set (m := col4 3 (eigh4 (accumulate (rel_stack proximal distal))).2) in *.
  injection Hr as Hap Had. injection Hr' as Hap' Had'.
  assert (Hsym : symmetric_mat M) by apply cov_symmetric.
  assert (Hsym' : symmetric_mat (mscale (c * c) M)).
  { unfold symmetric_mat. rewrite transpose_mscale, Hsym. reflexivity. }
  destruct (contract_columns_unit _ _ _ H3') as (_ & _ & U2').
  destruct (contract_top_eigenvector _ _ _ Hsym' H3') as (l' & El' & Hl').
  assert (Hcc : 0 < c * c) by nra.
  assert (Hs : same_axis (col 2 v') (col 2 v)).
  { apply (top_eigenvector_unique M w v); try assumption.
    exists (l' / (c * c)). split.
    - rewrite mulv_mscale in El'.
      apply (f_equal (vscale (/ (c * c)))) in El'. rewrite !vscale_vscale in El'.
      replace (/ (c * c) * (c * c)) with 1 in El' by (field; lra).
      rewrite vscale_1 in El'. rewrite El'. f_equal. field. lra.
    - intros mu y Hy Ey.
      assert (c * c * mu <= l').
      { apply (Hl' _ y Hy). rewrite mulv_mscale, Ey, vscale_vscale. reflexivity. }
      assert (Hd' : l' / (c * c) * (c * c) = l') by (field; lra).
      set (q := l' / (c * c)) in *. nra. }
  split.
  - exact (np_normalize_same_axis _ _ _ _ Hs Hap Hap').
  - refine (np_normalize_same_axis (apply m (col 2 v)) (apply m (col 2 v')) _ _ _ Had Had').
    destruct Hs as [-> | ->]; [left; reflexivity | right; apply apply_vscale].
Qed.

Lemma eigh3_diagonal_values_x a :
  0 < a -> (eigh3_diagonal (diagonal3 a 0 0)).1 = V3 0 0 a.
Proof.
  intros Ha. unfold eigh3_diagonal, sort_by_value, diagonal3; simpl.
  repeat (destruct (Rle_dec _ _); simpl); try lra; reflexivity.
Qed.

Lemma knee3_variance_pos fs : fs <> 0 -> 0 < fs * PI * (fs * PI) / 2.
Proof.
  intros H. pose proof PI_gt_3.
  assert (Hs : fs * PI <> 0) by (apply Rmult_integral_contrapositive; split; lra).
  set (s := fs * PI) in *. nra.
Qed.

Lemma find_rotation_axis_knee3_any_fs fs :
  fs <> 0 ->
  find_rotation_axis eigh3_diagonal eigh4_diagonal thigh_at_rest3 shank_half_turn3 fs
  = Ok (Some (V3 1 0 0), Some (V3 1 0 0)).
Proof.
  intros Hfs.
  rewrite find_rotation_axis_stack;
    [| reflexivity | apply units_valid, units_thigh_at_rest3
     | apply units_valid, units_shank_half_turn3].
  rewrite rel_stack_knee3. unfold axes_from_stack.
  rewrite ang_vel_knee3, cov_knee3, accumulate_knee3.
  cbn [length Nat.ltb Nat.leb].
  pose proof (knee3_variance_pos fs Hfs).
  rewrite eigh3_diagonal_top_x, eigh4_diagonal_top_w by lra.
  rewrite apply_identity, (np_normalize_unit _ unit3_e1). reflexivity.
Qed.

Lemma find_rotation_axis_sampling_rate_witness :
  find_rotation_axis eigh3_diagonal eigh4_diagonal thigh_at_rest3 shank_half_turn3 (2 * 100)
  = Ok (Some (V3 1 0 0), Some (V3 1 0 0)) /\
  same_axis (V3 1 0 0) (V3 1 0 0).
Proof.
  split; [apply find_rotation_axis_knee3_any_fs; lra |].
  apply (find_rotation_axis_sampling_rate eigh3_diagonal eigh4_diagonal
           thigh_at_rest3 shank_half_turn3 100 2 (V3 1 0 0) (V3 1 0 0) (V3 1 0 0) (V3 1 0 0)).
  - reflexivity.
  - apply units_valid, units_thigh_at_rest3.
  - apply units_valid, units_shank_half_turn3.
  - lra.
  - apply eigh3_contract_knee3.
  - rewrite ang_vel_stack_unfold, rel_stack_knee3, ang_vel_knee3, cov_knee3.
    rewrite eigh3_diagonal_values_x by (apply knee3_variance_pos; lra).
    simpl. apply knee3_variance_pos. lra.
  - rewrite ang_vel_stack_unfold, rel_stack_knee3, ang_vel_knee3, cov_knee3.
    apply eigh3_diagonal_contract.
  - apply find_rotation_axis_knee3_any_fs. lra.
  - apply find_rotation_axis_knee3_any_fs. lra.
Defined.

(** * Further properties of the anatomical frame (align.py, lines 72-89) *)

Lemma np_normalize_scale a v : 0 < a -> np_normalize (vscale a v) = np_normalize v.
Proof.
  intros Ha. unfold np_normalize. rewrite norm_vscale, Rabs_pos_eq by lra.
  destruct (Req_dec_T (norm v) 0) as [E | E].
  - rewrite E, Rmult_0_r. destruct (Req_dec_T 0 0); [reflexivity | contradiction].
  - destruct (Req_dec_T (a * norm v) 0) as [E' | E'].
    + exfalso. apply Rmult_integral in E'. destruct E'; [lra | contradiction].
    + f_equal. rewrite vscale_vscale. f_equal. field. split; [exact E | lra].
Qed.

Lemma np_normalize_opp v : np_normalize (vscale (-1) v) = np_neg (np_normalize v).
Proof.
  unfold np_normalize, np_neg. rewrite norm_neg.
  destruct (Req_dec_T (norm v) 0); [reflexivity |]. simpl. f_equal. vec_ring.
Qed.

Lemma cross_vscale_r c a b : cross a (vscale c b) = vscale c (cross a b).
Proof. vec_ring. Qed.

Lemma cross_vadd_r a b c : cross a (vadd b c) = vadd (cross a b) (cross a c).
Proof. vec_ring. Qed.

Lemma cross_self a : cross a a = vzero.
Proof. vec_ring. Qed.

Lemma np_normalize_none v : norm v = 0 -> np_normalize v = None.
Proof. intros H. unfold np_normalize. destruct (Req_dec_T (norm v) 0); [reflexivity | contradiction]. Qed.

(** X7: the frame only sees the directions of its arguments: positive
    factors on the primary and on the longitudinal axis change nothing. *)
Theorem rotation_matrix_scale (a b : R) (primary longitudinal : vec3) :
  0 < a -> 0 < b ->
  rotation_matrix (Some (vscale a primary)) (Some (vscale b longitudinal))
  = rotation_matrix (Some primary) (Some longitudinal).
Proof.
  intros Ha Hb. unfold rotation_matrix. cbn [mbind option_bind].
  rewrite (np_normalize_scale a primary Ha).
  destruct (np_normalize primary) as [x |]; [| reflexivity].
  cbn [np_cross mbind option_bind].
  rewrite cross_vscale_r, (np_normalize_scale b _ Hb). reflexivity.
Qed.

Lemma rotation_matrix_scale_witness :
  rotation_matrix (Some (vscale 2 (V3 1 0 0))) (Some (vscale 3 (V3 0 1 0)))
  = rotation_matrix (Some (V3 1 0 0)) (Some (V3 0 1 0)).
Proof. apply rotation_matrix_scale; lra. Defined.

(** X8: the part of the longitudinal axis along the primary axis is lost:
    adding a multiple of the primary axis to it changes nothing. *)
Theorem rotation_matrix_shear (t : R) (primary longitudinal : vec3) :
  rotation_matrix (Some primary) (Some (vadd longitudinal (vscale t primary)))
  = rotation_matrix (Some primary) (Some longitudinal).
Proof.
  unfold rotation_matrix. cbn [mbind option_bind].
  destruct (Req_dec_T (norm primary) 0) as [E | E].
  { rewrite (np_normalize_none _ E). reflexivity. }
  rewrite (np_normalize_some _ E).
  cbn [np_cross mbind option_bind].
  replace (cross (vscale (/ norm primary) primary) (vadd longitudinal (vscale t primary)))
    with (cross (vscale (/ norm primary) primary) longitudinal) by vec_ring.
  reflexivity.
Qed.

(** X9: the opposite longitudinal axis gives the same first column and the
    opposite second and third columns, nan included. *)
Theorem rotation_matrix_opposite_longitudinal (primary longitudinal : nvec3) :
  rotation_matrix primary (np_neg longitudinal)
  = match rotation_matrix primary longitudinal with
    | Cols x y z => Cols x (np_neg y) (np_neg z)
    end.
Proof.
  unfold rotation_matrix.
  destruct (primary ≫= np_normalize) as [x |]; [| reflexivity].
  destruct longitudinal as [l |]; [| reflexivity].
  cbn [np_neg fmap option_fmap option_map np_cross mbind option_bind].
  rewrite cross_vscale_r, np_normalize_opp.
  destruct (np_normalize (cross x l)) as [z |]; [| reflexivity].
  cbn [np_neg fmap option_fmap option_map np_cross mbind option_bind].
  rewrite cross_vscale_l, np_normalize_opp. reflexivity.
Qed.

(** X10: a primary axis that is zero or nan leaves no finite column; a
    longitudinal axis that is nan leaves the first column only.  Nothing is
    raised on the way. *)
Theorem rotation_matrix_nan (primary longitudinal : nvec3) :
  rotation_matrix None longitudinal = Cols None None None /\
  rotation_matrix (Some vzero) longitudinal = Cols None None None /\
  rotation_matrix primary None = Cols (primary ≫= np_normalize) None None.
Proof.
  split; [reflexivity |]. split.
  - unfold rotation_matrix. cbn [mbind option_bind]. rewrite np_normalize_zero. reflexivity.
  - unfold rotation_matrix. destruct (primary ≫= np_normalize); reflexivity.
Qed.

Lemma rotation_matrix_columns primary longitudinal :
  primary <> vzero -> cross primary longitudinal <> vzero ->
  let x := vscale (/ norm primary) primary in
  let z := vscale (/ norm (cross x longitudinal)) (cross x longitudinal) in
  rotation_matrix (Some primary) (Some longitudinal) = Cols (Some x) (Some (cross z x)) (Some z) /\
  unit3 x /\ unit3 z /\ dot z x = 0 /\ norm (cross x longitudinal) <> 0.
Proof.
  intros Hp Hc x z.
  pose proof (vzero_norm _ Hp) as Np.
  assert (Ux : unit3 x) by (apply vscale_inv_norm_unit, Np).
  assert (Hc' : cross x longitudinal <> vzero).
  { unfold x. rewrite cross_vscale_l. intros E. apply Hc.
    apply (vscale_zero_iff (/ norm primary)); [apply Rinv_neq_0_compat, Np | exact E]. }
  pose proof (vzero_norm _ Hc') as Nc.
  assert (Uz : unit3 z) by (apply vscale_inv_norm_unit, Nc).
  assert (Hzx : dot z x = 0) by (unfold z; rewrite dot_vscale_l, dot_cross_l; ring).
  destruct (frame_algebra x z Ux Uz Hzx) as (Uy & _).
  split; [| repeat split; assumption].
  unfold rotation_matrix. cbn [mbind option_bind np_cross].
  rewrite (np_normalize_some _ Np). fold x. cbn [mbind option_bind np_cross].
  rewrite (np_normalize_some _ Nc). fold z. cbn [mbind option_bind np_cross].
  rewrite (np_normalize_unit _ Uy). reflexivity.
Qed.

Lemma cross_cross_unit x l : unit3 x -> cross (cross x l) x = vsub l (vscale (dot l x) x).
Proof.
  destruct x as [x0 x1 x2], l as [l0 l1 l2]. unfold unit3. arr_unfold. intros U.
  apply vec3_eq; simpl; nsatz.
Qed.

Lemma lagrange_unit x l : unit3 x -> dot (cross x l) (cross x l) = dot l l - dot l x * dot l x.
Proof.
  destruct x as [x0 x1 x2], l as [l0 l1 l2]. unfold unit3. arr_unfold. intros U. nsatz.
Qed.

(** X11: the first column points along the primary axis; the third column is
    orthogonal to both arguments; the second column is the normalised part of
    the longitudinal axis orthogonal to the primary axis, and points to the
    side of the longitudinal axis. *)
Theorem rotation_matrix_orientation (primary longitudinal : vec3) :
  primary <> vzero -> cross primary longitudinal <> vzero ->
  exists x y z,
    rotation_matrix (Some primary) (Some longitudinal) = Cols (Some x) (Some y) (Some z) /\
    dot x primary = norm primary /\ 0 < norm primary /\
    dot z primary = 0 /\ dot z longitudinal = 0 /\
    y = vscale (/ norm (cross x longitudinal)) (vsub longitudinal (vscale (dot longitudinal x) x)) /\
    dot y longitudinal = norm (cross x longitudinal) /\ 0 < dot y longitudinal.
Proof.
  intros Hp Hc.
  destruct (rotation_matrix_columns _ _ Hp Hc) as (Erm & Ux & Uz & Hzx & Nc).
  set (x := vscale (/ norm primary) primary) in *.
  set (c := cross x longitudinal) in *.
  pose proof (vzero_norm _ Hp) as Np.
  pose proof (norm_nonneg primary). pose proof (norm_nonneg c).
  exists x, (cross (vscale (/ norm c) c) x), (vscale (/ norm c) c).
  split; [exact Erm |].
  assert (Ey : cross (vscale (/ norm c) c) x
               = vscale (/ norm c) (vsub longitudinal (vscale (dot longitudinal x) x))).
  { rewrite cross_vscale_l. unfold c. rewrite (cross_cross_unit _ _ Ux). reflexivity. }
  assert (Hyl : dot (cross (vscale (/ norm c) c) x) longitudinal = norm c).
  { rewrite Ey, dot_vscale_l.
    replace (dot (vsub longitudinal (vscale (dot longitudinal x) x)) longitudinal)
      with (dot longitudinal longitudinal - dot longitudinal x * dot longitudinal x)
      by (arr_unfold; ring).
    rewrite <- (lagrange_unit _ _ Ux). fold c. rewrite <- norm_sqr. field. exact Nc. }
  split.
  { unfold x. rewrite dot_vscale_l, <- norm_sqr. field. exact Np. }
  split; [lra |].
  split.
  { rewrite dot_vscale_l. unfold c, x. rewrite cross_vscale_l, dot_vscale_l, dot_cross_l. ring. }
  split.
  { rewrite dot_vscale_l. unfold c.
    replace (dot (cross x longitudinal) longitudinal) with 0 by (arr_unfold; ring). ring. }
  split; [exact Ey |].
  split; [exact Hyl |]. rewrite Hyl. lra.
Qed.

Lemma rotation_matrix_orientation_witness :
  exists x y z,
    rotation_matrix (Some (V3 2 0 0)) (Some (V3 1 3 0)) = Cols (Some x) (Some y) (Some z) /\
    0 < dot y (V3 1 3 0).
Proof.
  destruct (rotation_matrix_orientation (V3 2 0 0) (V3 1 3 0))
    as (x & y & z & H1 & _ & _ & _ & _ & _ & _ & H8).
  - apply vec3_neq_0. lra.
  - unfold cross; simpl. apply vec3_neq_2. lra.
  - exists x, y, z. split; assumption.
Defined.

(** * Further properties of the calibration driver (align.py, lines 92-172) *)

Section Calibration.
Variable eigh3 : mat3 -> vec3 * mat3.
Variable eigh4 : mat4 -> arr4 * mat4.
Variable from_matrix : nmat3 -> result Rotation.t.

Ltac side_step H :=
  match type of H with
  | context [@lookup _ _ (gmap string (list arr4)) _ ?k ?d] =>
      let E := fresh "Ek" in destruct (d !! k) eqn:E; simpl in H; [| discriminate H]
  | context [static_mean ?e ?q] =>
      let E := fresh "Em" in destruct (static_mean e q) eqn:E; simpl in H; [| discriminate H]
  | context [long_axis ?m] =>
      let E := fresh "El" in destruct (long_axis m) eqn:E; simpl in H; [| discriminate H]
  | context [find_rotation_axis ?a ?b ?p ?d ?fs] =>
      let E := fresh "Ef" in
      destruct (find_rotation_axis a b p d fs) as [[? ?] |] eqn:E; simpl in H; [| discriminate H]
  | context [segment_calibration ?f ?a ?l] =>
      let E := fresh "Es" in
      destruct (segment_calibration f a l) eqn:E; simpl in H; [| discriminate H]
  end.

Lemma calibrate_side_ok static hip knee ankle fs printed quats side printed' quats' :
  calibrate_side eigh3 eigh4 from_matrix static hip knee ankle fs (printed, quats) side
  = Ok (printed', quats') ->
  (exists d, printed' = printed ++ [(side, d)]) /\
  (exists t s f, quats' = <[side +:+ "_foot" := f]>
                            (<[side +:+ "_shank" := s]> (<[side +:+ "_thigh" := t]> quats))) /\
  (is_Some (static !! (side +:+ "_thigh")) /\ is_Some (static !! (side +:+ "_shank")) /\
   is_Some (static !! (side +:+ "_foot"))) /\
  (is_Some (knee !! (side +:+ "_thigh")) /\ is_Some (knee !! (side +:+ "_shank"))) /\
  (exists q axes, hip !! (side +:+ "_thigh") = Some q /\
     find_rotation_axis eigh3 eigh4 (tile_identity (length q)) q fs = Ok axes) /\
  (is_Some (ankle !! (side +:+ "_shank")) /\ is_Some (ankle !! (side +:+ "_foot"))).
Proof.
  intros H. unfold calibrate_side, getitem in H.
  repeat side_step H.
  injection H as <- <-.
  repeat split; eauto.
Qed.

Lemma perform_calibration_ok static hip knee ankle fs printed quats :
  perform_calibration eigh3 eigh4 from_matrix static hip knee ankle fs = Ok (printed, quats) ->
  exists printed1 quats1,
    calibrate_side eigh3 eigh4 from_matrix static hip knee ankle fs ([], ∅) "left"
    = Ok (printed1, quats1) /\
    calibrate_side eigh3 eigh4 from_matrix static hip knee ankle fs (printed1, quats1) "right"
    = Ok (printed, quats).
Proof.
  unfold perform_calibration. cbn [foldR]. intros H.
  destruct (calibrate_side eigh3 eigh4 from_matrix static hip knee ankle fs ([], ∅) "left")
    as [[printed1 quats1] |]; cbn [mbind result_bind] in H; [| discriminate].
  exists printed1, quats1. split; [reflexivity |].
  destruct (calibrate_side eigh3 eigh4 from_matrix static hip knee ankle fs
              (printed1, quats1) "right") as [[p2 q2] |]; cbn [mbind result_bind] in H; [| discriminate].
  congruence.
Qed.
End Calibration.

(** X12: a returned dict has the six keys of the two sides and nothing else, and
    one diagnostic line was printed for the left side and then one for the
    right side. *)
Theorem perform_calibration_keys eigh3 eigh4 from_matrix
    (static_data hip_data knee_data ankle_data : gmap string (list arr4)) (fs : R)
    (printed : list diagnostic) (quats : gmap string arr4) :
  perform_calibration eigh3 eigh4 from_matrix static_data hip_data knee_data ankle_data fs
  = Ok (printed, quats) ->
  dom quats = list_to_set ["left_thigh"; "left_shank"; "left_foot";
                           "right_thigh"; "right_shank"; "right_foot"] /\
  map fst printed = ["left"; "right"].
Proof.
  intros H. apply perform_calibration_ok in H as (p1 & q1 & Hl & Hr).
  apply calibrate_side_ok in Hl as ((d1 & ->) & (t1 & s1 & f1 & ->) & _).
  apply calibrate_side_ok in Hr as ((d2 & ->) & (t2 & s2 & f2 & ->) & _).
  split; [| reflexivity].
  rewrite !dom_insert_L, dom_empty_L. cbn [String.append list_to_set foldr].
  set_solver.
Qed.

(** X13: a call that returns has found every stream it reads: three static
    streams, two knee streams, the hip stream of the thigh and two ankle
    streams, for each side. *)
Theorem perform_calibration_required_keys eigh3 eigh4 from_matrix
    (static_data hip_data knee_data ankle_data : gmap string (list arr4)) (fs : R)
    (result : list diagnostic * gmap string arr4) :
  perform_calibration eigh3 eigh4 from_matrix static_data hip_data knee_data ankle_data fs
  = Ok result ->
  Forall (fun k => is_Some (static_data !! k))
    ["left_thigh"; "left_shank"; "left_foot"; "right_thigh"; "right_shank"; "right_foot"] /\
  Forall (fun k => is_Some (knee_data !! k))
    ["left_thigh"; "left_shank"; "right_thigh"; "right_shank"] /\
  Forall (fun k => is_Some (hip_data !! k)) ["left_thigh"; "right_thigh"] /\
  Forall (fun k => is_Some (ankle_data !! k))
    ["left_shank"; "left_foot"; "right_shank"; "right_foot"].
Proof.
  destruct result as [printed quats]. intros H.
  apply perform_calibration_ok in H as (p1 & q1 & Hl & Hr).
  apply calibrate_side_ok in Hl
    as (_ & _ & (S1 & S2 & S3) & (K1 & K2) & (q & ax & Hq & _) & (A1 & A2)).
  apply calibrate_side_ok in Hr
    as (_ & _ & (S1' & S2' & S3') & (K1' & K2') & (q' & ax' & Hq' & _) & (A1' & A2')).
  cbn [String.append] in *.
  repeat split; repeat (constructor; [eauto |]); constructor.
Qed.

(** X14: the hip trial only feeds the printed diagnostic, but its failure is
    fatal: with a hip stream of the thigh of fewer than three samples, on
    either side, the call raises. *)
Theorem perform_calibration_short_hip eigh3 eigh4 from_matrix
    (static_data hip_data knee_data ankle_data : gmap string (list arr4)) (fs : R)
    (side : string) (q : list arr4) :
  side = "left" \/ side = "right" ->
  hip_data !! (side +:+ "_thigh") = Some q ->
  valid_stream q -> (length q < 3)%nat ->
  exists e,
    perform_calibration eigh3 eigh4 from_matrix static_data hip_data knee_data ankle_data fs
    = Raise e.
Proof.
  intros Hside Hq Hv Hn.
  destruct (perform_calibration eigh3 eigh4 from_matrix static_data hip_data knee_data
              ankle_data fs) as [[printed quats] | e] eqn:H; [exfalso | exists e; reflexivity].
  apply perform_calibration_ok in H as (p1 & q1 & Hl & Hr).
  apply calibrate_side_ok in Hl as (_ & _ & _ & _ & (ql & axl & Hql & Hfl) & _).
  apply calibrate_side_ok in Hr as (_ & _ & _ & _ & (qr & axr & Hqr & Hfr) & _).
  assert (Hshort : find_rotation_axis eigh3 eigh4 (tile_identity (length q)) q fs
                   = Raise (ValueError too_few_points_msg)).
  { apply find_rotation_axis_short.
    - unfold tile_identity. apply length_replicate.
    - apply valid_stream_still.
    - exact Hv.
    - unfold tile_identity. rewrite length_replicate. exact Hn. }
  destruct Hside as [-> | ->].
  - rewrite Hq in Hql. injection Hql as <-. congruence.
  - rewrite Hq in Hqr. injection Hqr as <-. congruence.
Qed.

Lemma perform_calibration_short_hip_witness :
  exists e,
    perform_calibration eigh3_diagonal eigh4_diagonal (fun _ => Ok identity)
      (sensors_at_rest 3) (sensors_at_rest 2) (sensors_at_rest 3) (sensors_at_rest 3) 100
    = Raise e.
Proof.
  apply (perform_calibration_short_hip eigh3_diagonal eigh4_diagonal (fun _ => Ok identity)
           (sensors_at_rest 3) (sensors_at_rest 2) (sensors_at_rest 3) (sensors_at_rest 3) 100
           "left" (replicate 2 (A4 1 0 0 0))).
  - left. reflexivity.
  - reflexivity.
  - apply valid_stream_still.
  - simpl. lia.
Defined.

(** ** A run on sensors at rest *)

Lemma static_mean_at_rest :
  static_mean eigh4_diagonal (replicate 3 (A4 1 0 0 0)) = Ok identity.
Proof.
  unfold static_mean.
  rewrite (from_quat_ok _ (Forall_nonzero_to_scipy _ (valid_stream_still 3))). simpl.
  f_equal. unfold mean.
  replace (accumulate _) with (diagonal4 0 0 0 3).
  - pose proof (eigh4_diagonal_top_w 0 0 0 3 ltac:(lra) ltac:(lra) ltac:(lra)) as E.
    destruct (eigh4_diagonal (diagonal4 0 0 0 3)) as [w v]. exact E.
  - symmetry. rewrite <- accumulate_still. f_equal.
    rewrite !(unitize_to_scipy _ unit4_wxyz_identity). reflexivity.
Qed.

Lemma long_axis_identity : exists v, long_axis identity = Ok v.
Proof.
  unfold long_axis. rewrite inv1_unit by (unfold unit4, identity; arr_unfold; lra).
  eexists. reflexivity.
Qed.

Lemma find_rotation_axis_at_rest :
  exists axes,
    find_rotation_axis eigh3_diagonal eigh4_diagonal
      (replicate 3 (A4 1 0 0 0)) (replicate 3 (A4 1 0 0 0)) 100 = Ok axes.
Proof.
  rewrite find_rotation_axis_long;
    [eexists; reflexivity | reflexivity | apply valid_stream_still
     | apply valid_stream_still | simpl; lia].
Qed.

Lemma calibrate_side_at_rest side st :
  side = "left" \/ side = "right" ->
  exists st',
    calibrate_side eigh3_diagonal eigh4_diagonal (fun _ => Ok identity)
      (sensors_at_rest 3) (sensors_at_rest 3) (sensors_at_rest 3) (sensors_at_rest 3) 100
      st side = Ok st'.
Proof.
  destruct st as [printed quats].
  destruct long_axis_identity as [v Hv].
  destruct find_rotation_axis_at_rest as [[ap ad] Hf].
  intros [-> | ->]; unfold calibrate_side, getitem; cbn [String.append];
    repeat match goal with
           | |- context [sensors_at_rest 3 !! ?k] =>
               change (sensors_at_rest 3 !! k) with (Some (replicate 3 (A4 1 0 0 0)))
           end;
    cbn [mbind result_bind];
    rewrite !static_mean_at_rest; cbn [mbind result_bind];
    rewrite !Hv; cbn [mbind result_bind];
    rewrite Hf; cbn [mbind result_bind];
    unfold tile_identity; rewrite length_replicate, Hf; cbn [mbind result_bind];
    unfold segment_calibration, create_anatomical_frame; cbn [mbind result_bind];
    eexists; reflexivity.
Qed.

Lemma perform_calibration_at_rest :
  exists result,
    perform_calibration eigh3_diagonal eigh4_diagonal (fun _ => Ok identity)
      (sensors_at_rest 3) (sensors_at_rest 3) (sensors_at_rest 3) (sensors_at_rest 3) 100
    = Ok result.
Proof.
  unfold perform_calibration. cbn [foldR].
  destruct (calibrate_side_at_rest "left" ([], ∅)) as [st1 ->]; [left; reflexivity |].
  cbn [mbind result_bind].
  destruct (calibrate_side_at_rest "right" st1) as [st2 ->]; [right; reflexivity |].
  cbn [mbind result_bind]. eexists. reflexivity.
Qed.

Lemma perform_calibration_keys_witness :
  exists printed quats,
    perform_calibration eigh3_diagonal eigh4_diagonal (fun _ => Ok identity)
      (sensors_at_rest 3) (sensors_at_rest 3) (sensors_at_rest 3) (sensors_at_rest 3) 100
    = Ok (printed, quats) /\
    dom quats = list_to_set ["left_thigh"; "left_shank"; "left_foot";
                             "right_thigh"; "right_shank"; "right_foot"] /\
    map fst printed = ["left"; "right"].
Proof.
  destruct perform_calibration_at_rest as [[printed quats] H].
  exists printed, quats. split; [exact H |].
  exact (perform_calibration_keys _ _ _ _ _ _ _ _ _ _ H).
Defined.

Lemma perform_calibration_required_keys_witness :
  Forall (fun k => is_Some (sensors_at_rest 3 !! k)) ["left_thigh"; "right_thigh"].
Proof.
  destruct perform_calibration_at_rest as [result H].
  exact (proj1 (proj2 (proj2
           (perform_calibration_required_keys _ _ _ _ _ _ _ _ _ H)))).
Defined.

(** * Further properties of the application of a calibration (align.py, lines 252-259) *)

Lemma anatomical_rotation_ok raw_q q_cal :
  norm4 raw_q <> 0 -> norm4 q_cal <> 0 ->
  anatomical_rotation raw_q q_cal
  = Ok (compose_quat (unitize (to_scipy_quat raw_q)) (conj (unitize (to_scipy_quat q_cal)))).
Proof.
  intros Hr Hc. unfold anatomical_rotation.
  assert (Ur : unit4 (unitize (to_scipy_quat raw_q)))
    by (apply unitize_unit; rewrite norm4_to_scipy; exact Hr).
  assert (Uc : unit4 (unitize (to_scipy_quat q_cal)))
    by (apply unitize_unit; rewrite norm4_to_scipy; exact Hc).
  rewrite !normalized_ok by (rewrite norm4_to_scipy; assumption). simpl.
  rewrite (inv1_unit _ Uc). simpl.
  apply mul1_unit; [exact Ur | apply conj_unit, Uc].
Qed.

(** X15: the computation of the anatomical rotation raises the error of
    [Rotation.from_quat] exactly when one of the two quaternions has norm
    zero, and returns a rotation exactly when none has. *)
Theorem anatomical_rotation_zero_norm (raw_q q_cal : arr4) :
  (norm4 raw_q = 0 \/ norm4 q_cal = 0 <->
   anatomical_rotation raw_q q_cal = Raise (ValueError zero_norm_msg)) /\
  (norm4 raw_q <> 0 /\ norm4 q_cal <> 0 <->
   exists r, anatomical_rotation raw_q q_cal = Ok r).
Proof.
  destruct (Req_dec_T (norm4 raw_q) 0) as [Hr | Hr].
  - assert (E : anatomical_rotation raw_q q_cal = Raise (ValueError zero_norm_msg)).
    { unfold anatomical_rotation.
      rewrite (normalized_zero (to_scipy_quat raw_q)) by (rewrite norm4_to_scipy; exact Hr).
      reflexivity. }
    rewrite E. split.
    + split; [intros _; reflexivity | intros _; left; exact Hr].
    + split; [intros [? _]; contradiction | intros [r Hx]; discriminate].
  - destruct (Req_dec_T (norm4 q_cal) 0) as [Hc | Hc].
    + assert (E : anatomical_rotation raw_q q_cal = Raise (ValueError zero_norm_msg)).
      { unfold anatomical_rotation.
        rewrite (normalized_ok (to_scipy_quat raw_q)) by (rewrite norm4_to_scipy; exact Hr). simpl.
        rewrite (normalized_zero (to_scipy_quat q_cal)) by (rewrite norm4_to_scipy; exact Hc).
        reflexivity. }
      rewrite E. split.
      * split; [intros _; reflexivity | intros _; right; exact Hc].
      * split; [intros [_ ?]; contradiction | intros [r Hx]; discriminate].
    + rewrite (anatomical_rotation_ok _ _ Hr Hc). split; split.
      * intros [? | ?]; contradiction.
      * discriminate.
      * intros _. eexists. reflexivity.
      * intros _. split; assumption.
Qed.

(** X16: for quaternions that are not zero, the anatomical rotation has
    unit length and does not see their lengths. *)
Theorem anatomical_rotation_normalizes (a b : R) (raw_q q_cal : arr4) :
  norm4 raw_q <> 0 -> norm4 q_cal <> 0 -> 0 < a -> 0 < b ->
  exists r,
    anatomical_rotation raw_q q_cal = Ok r /\ unit4 r /\
    anatomical_rotation (scale4 a raw_q) (scale4 b q_cal) = Ok r.
Proof.
  intros Hr Hc Ha Hb. eexists. split; [apply anatomical_rotation_ok; assumption |].
  split.
  - apply compose_unit; [| apply conj_unit];
      apply unitize_unit; rewrite norm4_to_scipy; assumption.
  - rewrite anatomical_rotation_ok.
    + rewrite !to_scipy_scale4, !unitize_scale_pos
        by (rewrite ?norm4_to_scipy; assumption).
      reflexivity.
    + rewrite norm4_scale4, Rabs_pos_eq by lra. nra.
    + rewrite norm4_scale4, Rabs_pos_eq by lra. nra.
Qed.

Lemma norm4_wxyz_345 : norm4 (A4 0 3 4 0) <> 0.
Proof. rewrite norm4_zero_iff. unfold dot4; simpl. lra. Qed.

Lemma anatomical_rotation_normalizes_witness :
  exists r,
    anatomical_rotation (A4 0 3 4 0) (A4 1 0 0 0) = Ok r /\ unit4 r /\
    anatomical_rotation (scale4 2 (A4 0 3 4 0)) (scale4 5 (A4 1 0 0 0)) = Ok r.
Proof.
  apply (anatomical_rotation_normalizes 2 5 (A4 0 3 4 0) (A4 1 0 0 0)).
  - apply norm4_wxyz_345.
  - apply norm4_wxyz_identity.
  - lra.
  - lra.
Defined.

(** X17: a sensor calibrated by its own orientation is at the identity, and the
    identity calibration keeps the normalised raw orientation. *)
Theorem anatomical_rotation_neutral (q : arr4) :
  norm4 q <> 0 ->
  anatomical_rotation q q = Ok identity /\
  anatomical_rotation q (A4 1 0 0 0) = Ok (unitize (to_scipy_quat q)).
Proof.
  intros Hq.
  assert (Uq : unit4 (unitize (to_scipy_quat q)))
    by (apply unitize_unit; rewrite norm4_to_scipy; exact Hq).
  split.
  - rewrite (anatomical_rotation_ok _ _ Hq Hq), (compose_conj_r _ Uq). reflexivity.
  - rewrite (anatomical_rotation_ok _ _ Hq norm4_wxyz_identity).
    rewrite (unitize_to_scipy _ unit4_wxyz_identity). f_equal.
    replace (conj (to_scipy_quat (A4 1 0 0 0))) with identity by quat_lra.
    apply compose_id_r.
Qed.

Lemma anatomical_rotation_neutral_witness :
  anatomical_rotation (A4 0 3 4 0) (A4 0 3 4 0) = Ok identity /\
  anatomical_rotation (A4 0 3 4 0) (A4 1 0 0 0) = Ok (unitize (to_scipy_quat (A4 0 3 4 0))).
Proof. apply (anatomical_rotation_neutral (A4 0 3 4 0)). apply norm4_wxyz_345. Defined.

(** X18: two calibrations applied one after the other are the calibration by
    their product. *)
Theorem anatomical_rotation_twice (raw_q cal1 cal2 : arr4) (r1 : Rotation.t) :
  norm4 raw_q <> 0 -> norm4 cal1 <> 0 -> norm4 cal2 <> 0 ->
  anatomical_rotation raw_q cal1 = Ok r1 ->
  anatomical_rotation (to_wxyz_quat (as_quat r1)) cal2
  = anatomical_rotation raw_q (compose_wxyz cal2 cal1).
Proof.
  intros Hr H1 H2 E. rewrite (anatomical_rotation_ok _ _ Hr H1) in E. injection E as <-.
  assert (Ur : unit4 (unitize (to_scipy_quat raw_q)))
    by (apply unitize_unit; rewrite norm4_to_scipy; exact Hr).
  assert (U1 : unit4 (unitize (to_scipy_quat cal1)))
    by (apply unitize_unit; rewrite norm4_to_scipy; exact H1).
  set (r := compose_quat (unitize (to_scipy_quat raw_q)) (conj (unitize (to_scipy_quat cal1)))).
  assert (U : unit4 r) by (apply compose_unit; [| apply conj_unit]; assumption).
  unfold as_quat.
  rewrite anatomical_rotation_ok;
    [| rewrite <- norm4_to_scipy, to_scipy_to_wxyz; apply unit4_norm_nonzero, U | exact H2].
  rewrite to_scipy_to_wxyz, (unitize_of_unit _ U).
  rewrite anatomical_rotation_ok;
    [| exact Hr | rewrite norm4_compose_wxyz; nra].
  rewrite unitize_scipy_compose_wxyz by assumption.
  rewrite conj_compose. unfold r. rewrite compose_assoc. reflexivity.
Qed.

Lemma anatomical_rotation_twice_witness :
  anatomical_rotation (to_wxyz_quat (as_quat identity)) third_turn
  = anatomical_rotation (A4 0 3 4 0) (compose_wxyz third_turn (A4 0 3 4 0)).
Proof.
  apply (anatomical_rotation_twice (A4 0 3 4 0) (A4 0 3 4 0) third_turn identity).
  - apply norm4_wxyz_345.
  - apply norm4_wxyz_345.
  - apply unit4_norm_nonzero, unit4_third_turn.
  - apply (anatomical_rotation_neutral (A4 0 3 4 0)), norm4_wxyz_345.
Defined.

(** * The error between the model and the sensors (human_move.py, lines 113-135) *)

Lemma link_error_dot m t : link_error m t = 1 - dot4 t m * dot4 t m.
Proof. unfold link_error, dot4; simpl. ring. Qed.

Lemma link_error_scalar_part m t :
  link_error m t = 1 - a3 (compose_quat t (conj m)) * a3 (compose_quat t (conj m)).
Proof. unfold link_error, compose_quat, conj; simpl. ring. Qed.

Lemma cauchy_schwarz4 p q : dot4 p q * dot4 p q <= dot4 p p * dot4 q q.
Proof.
  destruct p as [p0 p1 p2 p3], q as [q0 q1 q2 q3]. unfold dot4; simpl.
  assert (H : (p0*p0 + p1*p1 + p2*p2 + p3*p3) * (q0*q0 + q1*q1 + q2*q2 + q3*q3)
              - (p0*q0 + p1*q1 + p2*q2 + p3*q3) * (p0*q0 + p1*q1 + p2*q2 + p3*q3)
              = (p0*q1 - p1*q0) * (p0*q1 - p1*q0) + (p0*q2 - p2*q0) * (p0*q2 - p2*q0)
                + (p0*q3 - p3*q0) * (p0*q3 - p3*q0) + (p1*q2 - p2*q1) * (p1*q2 - p2*q1)
                + (p1*q3 - p3*q1) * (p1*q3 - p3*q1) + (p2*q3 - p3*q2) * (p2*q3 - p3*q2))
    by ring.
  pose proof (Rle_0_sqr (p0*q1 - p1*q0)). pose proof (Rle_0_sqr (p0*q2 - p2*q0)).
  pose proof (Rle_0_sqr (p0*q3 - p3*q0)). pose proof (Rle_0_sqr (p1*q2 - p2*q1)).
  pose proof (Rle_0_sqr (p1*q3 - p3*q1)). pose proof (Rle_0_sqr (p2*q3 - p3*q2)).
  unfold Rsqr in *. lra.
Qed.

Lemma sum_of_four_squares_zero a b c d :
  a * a + b * b + c * c + d * d = 0 -> a = 0 /\ b = 0 /\ c = 0 /\ d = 0.
Proof.
  intros H. pose proof (Rle_0_sqr a). pose proof (Rle_0_sqr b).
  pose proof (Rle_0_sqr c). pose proof (Rle_0_sqr d). unfold Rsqr in *.
  repeat split; apply Rsqr_0_uniq; unfold Rsqr; lra.
Qed.

Lemma link_error_bounds m t : unit4 m -> unit4 t -> 0 <= link_error m t <= 1.
Proof.
  unfold unit4. intros Hm Ht. rewrite link_error_dot.
  pose proof (cauchy_schwarz4 t m) as H. rewrite Hm, Ht in H. nra.
Qed.

Lemma link_error_zero m t : unit4 m -> unit4 t -> (link_error m t = 0 <-> same_rotation t m).
Proof.
  unfold unit4. intros Hm Ht. rewrite link_error_dot. split.
  - intros H. set (c := dot4 t m) in *.
    assert (Hc : (c - 1) * (c + 1) = 0) by lra.
    assert (Hd : dot4 (add4 t (scale4 (- c) m)) (add4 t (scale4 (- c) m)) = 0).
    { replace (dot4 (add4 t (scale4 (- c) m)) (add4 t (scale4 (- c) m)))
        with (dot4 t t - 2 * c * dot4 t m + c * c * dot4 m m)
        by (unfold dot4, add4, scale4; simpl; ring).
      fold c. rewrite Hm, Ht. lra. }
    assert (Et : t = scale4 c m).
    { destruct t as [t0 t1 t2 t3], m as [m0 m1 m2 m3].
      unfold dot4, add4, scale4 in Hd; simpl in Hd.
      apply sum_of_four_squares_zero in Hd. unfold scale4; simpl.
      f_equal; lra. }
    apply Rmult_integral in Hc. unfold same_rotation.
    destruct Hc; [left | right]; rewrite Et.
    + replace c with 1 by lra. apply scale4_1.
    + replace c with (-1) by lra. reflexivity.
  - intros [-> | ->].
    + rewrite Hm. ring.
    + replace (dot4 (scale4 (-1) m) m) with (- dot4 m m) by (unfold dot4; simpl; ring).
      rewrite Hm. ring.
Qed.

Lemma accumulate_error_sum states targets i total :
  (i + length states <= length targets)%nat ->
  accumulate_error states targets i total
  = Some (total + sum_errors states (drop i targets)).
Proof.
  revert i total. induction states as [| s states IH]; intros i total Hlen.
  - simpl. unfold sum_errors. simpl. f_equal. ring.
  - simpl in *. destruct (targets !! i) as [t |] eqn:Et.
    + rewrite IH by lia. f_equal. unfold sum_errors.
      rewrite (drop_S _ _ _ Et). simpl. ring.
    + apply lookup_ge_None in Et. lia.
Qed.

Lemma accumulate_error_short states targets i total :
  (i <= length targets)%nat ->
  (length targets < i + length states)%nat ->
  accumulate_error states targets i total = None.
Proof.
  revert i total. induction states as [| s states IH]; intros i total Hi Hlen.
  - simpl in Hlen. lia.
  - simpl in *. destruct (targets !! i) as [t |] eqn:Et; [| reflexivity].
    apply lookup_lt_Some in Et. apply IH; lia.
Qed.

Lemma sum_errors_bounds states targets :
  Forall unit4 states -> Forall unit4 targets ->
  0 <= sum_errors states targets <= INR (length states).
Proof.
  intros Hs. revert targets. induction Hs as [| s states Hu Hs IH]; intros targets Ht.
  - unfold sum_errors. simpl. lra.
  - destruct Ht as [| t targets Hut Ht].
    + unfold sum_errors. simpl. pose proof (pos_INR (length states)).
      destruct (length states); lra.
    + specialize (IH _ Ht). unfold sum_errors in *. cbn [zip_with foldr length].
      rewrite S_INR. pose proof (link_error_bounds _ _ Hu Hut). lra.
Qed.

Lemma sum_errors_zero states targets :
  Forall unit4 states -> Forall unit4 targets -> length states = length targets ->
  (sum_errors states targets = 0 <-> Forall2 same_rotation targets states).
Proof.
  intros Hs. revert targets. induction Hs as [| s states Hu Hs IH]; intros targets Ht Hlen.
  - destruct targets; [| discriminate]. unfold sum_errors; simpl. split; [constructor | reflexivity].
  - destruct Ht as [| t targets Hut Ht]; [discriminate |].
    simpl in Hlen. injection Hlen as Hlen. specialize (IH _ Ht Hlen).
    pose proof (link_error_bounds _ _ Hu Hut) as Hb.
    pose proof (sum_errors_bounds _ _ Hs Ht) as Hb'.
    pose proof (link_error_zero _ _ Hu Hut) as Hz.
    unfold sum_errors in *. cbn [zip_with foldr]. split.
    + intros H. constructor; [apply Hz; lra | apply IH; lra].
    + intros H. inversion H; subst.
      assert (link_error s t = 0) by tauto.
      assert (foldr Rplus 0 (zip_with link_error states targets) = 0) by tauto. lra.
Qed.

Lemma accumulate_error_double_cover states targets targets' i total :
  Forall2 same_rotation targets targets' ->
  accumulate_error states targets i total = accumulate_error states targets' i total.
Proof.
  intros Hf. revert i total. induction states as [| s states IH]; intros i total; [reflexivity |].
  simpl. destruct (targets !! i) as [t |] eqn:Et.
  - destruct (Forall2_lookup_l _ _ _ _ _ Hf Et) as (t' & -> & Hr).
    rewrite IH. do 2 f_equal. rewrite !link_error_dot.
    destruct Hr as [-> | ->]; [reflexivity |].
    replace (dot4 (scale4 (-1) t') s) with (- dot4 t' s) by (unfold dot4; simpl; ring).
    ring.
  - assert (targets' !! i = None) as ->; [| reflexivity].
    apply lookup_ge_None. apply lookup_ge_None in Et.
    rewrite <- (Forall2_length _ _ _ Hf). exact Et.
Qed.

Section PoseFacts.
Variable link_orientations : list R -> list arr4.

(** X19: when every link orientation of the model and every target is a
    unit quaternion and there is a target for each link, the cost is a
    number between zero and the number of links. *)
Theorem cost_function_bounds targets angles :
  Forall unit4 (link_orientations angles) -> Forall unit4 targets ->
  (length (link_orientations angles) <= length targets)%nat ->
  exists c, cost_function link_orientations targets angles = Some c
            /\ 0 <= c <= INR (length (link_orientations angles)).
Proof.
  intros Hs Ht Hlen. unfold cost_function.
  rewrite accumulate_error_sum by (simpl; lia). rewrite drop_0.
  eexists; split; [reflexivity |].
  pose proof (sum_errors_bounds _ _ Hs Ht). lra.
Qed.

(** X20: for unit quaternions, one target per link, the cost is zero
    exactly when every target is the orientation of its link or the
    opposite quaternion, that is the same rotation. *)
Theorem cost_function_zero targets angles :
  Forall unit4 (link_orientations angles) -> Forall unit4 targets ->
  length (link_orientations angles) = length targets ->
  (cost_function link_orientations targets angles = Some 0
   <-> Forall2 same_rotation targets (link_orientations angles)).
Proof.
  intros Hs Ht Hlen. unfold cost_function.
  rewrite accumulate_error_sum by (simpl; lia). rewrite drop_0.
  rewrite <- (sum_errors_zero _ _ Hs Ht Hlen). split.
  - intros H. injection H as H. lra.
  - intros ->. f_equal. lra.
Qed.

(** X21: with fewer targets than links the cost raises the IndexError of
    the list of targets. *)
Theorem cost_function_index_error targets angles :
  (length targets < length (link_orientations angles))%nat ->
  cost_function link_orientations targets angles = None.
Proof. intros H. apply accumulate_error_short; simpl; lia. Qed.

(** X22: the cost does not see the sign of a target quaternion. *)
Theorem cost_function_double_cover targets targets' angles :
  Forall2 same_rotation targets targets' ->
  cost_function link_orientations targets angles
  = cost_function link_orientations targets' angles.
Proof. intros H. apply accumulate_error_double_cover, H. Qed.

End PoseFacts.

Lemma unit4_identity : unit4 identity.
Proof. unfold unit4, dot4, identity; simpl. ring. Qed.

Lemma cost_function_bounds_witness :
  exists c, cost_function (fun _ => [identity]) [identity] [] = Some c
            /\ 0 <= c <= INR (length [identity]).
Proof.
  apply (cost_function_bounds (fun _ => [identity]) [identity] []).
  - repeat constructor. apply unit4_identity.
  - repeat constructor. apply unit4_identity.
  - simpl. lia.
Defined.

Lemma cost_function_zero_witness :
  cost_function (fun _ => [identity]) [scale4 (-1) identity] [] = Some 0
  <-> Forall2 same_rotation [scale4 (-1) identity] [identity].
Proof.
  apply (cost_function_zero (fun _ => [identity]) [scale4 (-1) identity] []).
  - repeat constructor. apply unit4_identity.
  - repeat constructor. unfold unit4, dot4, identity; simpl. ring.
  - reflexivity.
Defined.

Lemma cost_function_index_error_witness :
  cost_function (fun _ => [identity]) [] [] = None.
Proof.
  apply (cost_function_index_error (fun _ => [identity]) [] []). simpl. lia.
Defined.

Lemma cost_function_double_cover_witness :
  cost_function (fun _ => [identity]) [scale4 (-1) identity] []
  = cost_function (fun _ => [identity]) [identity] [].
Proof.
  apply (cost_function_double_cover (fun _ => [identity]) [scale4 (-1) identity] [identity] []).
  constructor; [right; reflexivity | constructor].
Defined.


(** * The reader of the serial stream (data process.py, lines 44-103) *)

Lemma split_length sep s : (1 <= length (split sep s))%nat.
Proof.
  induction s as [| c s IH]; simpl; [lia |].
  destruct (Ascii.eqb c sep); simpl; [lia |].
  destruct (split sep s); simpl in *; lia.
Qed.

Lemma dict_fold_is_Some {A} (pairs : list (string * A)) (d : gmap string A) (k : string) :
  is_Some (foldl (fun d kv => <[kv.1 := kv.2]> d) d pairs !! k)
  <-> is_Some (d !! k) \/ k ∈ pairs.*1.
Proof.
  revert d. induction pairs as [| [k' v] pairs IH]; intros d; simpl.
  - rewrite elem_of_nil. tauto.
  - rewrite IH, elem_of_cons. destruct (decide (k = k')) as [-> | Hne].
    + rewrite lookup_insert_eq. split; [intros _ | intros _; left; eauto]. right; left; reflexivity.
    + rewrite lookup_insert_ne by congruence. tauto.
Qed.

Lemma dict_zip_is_Some (hs vs : list string) (k : string) :
  length hs = length vs ->
  is_Some (dict (zip hs vs) !! k) <-> k ∈ hs.
Proof.
  intros Hlen. unfold dict. rewrite dict_fold_is_Some, fst_zip by lia.
  rewrite lookup_empty. split; [intros [[? ?] | ?]; [discriminate | assumption] | tauto].
Qed.

Lemma getitem_zip_missing (hs vs : list string) (k : string) :
  length hs = length vs -> k ∉ hs ->
  getitem (dict (zip hs vs)) k = Raise (KeyError k).
Proof.
  intros Hlen Hk. unfold getitem.
  destruct (dict (zip hs vs) !! k) eqn:E; [| reflexivity].
  exfalso. apply Hk. apply (dict_zip_is_Some hs vs k Hlen). eauto.
Qed.

Lemma getitem_zip_present (hs vs : list string) (k : string) :
  length hs = length vs -> k ∈ hs ->
  exists v, getitem (dict (zip hs vs)) k = Ok v.
Proof.
  intros Hlen Hk. apply (dict_zip_is_Some hs vs k Hlen) in Hk as [v Hv].
  exists v. unfold getitem. rewrite Hv. reflexivity.
Qed.

Lemma update_line_data {F} (float : string -> option F) st line :
  reading st = true -> data_line line ->
  update_line float st line
  = if negb (length (split tab line) =? length (headers st))%nat then Ok st
    else record_row float st (split tab line).
Proof.
  intros Hr (Hc & Hd & Hs & Ht). unfold update_line.
  rewrite Hc, Hr, Ht.
  destruct (String.eqb_spec line "===CALIBRATION_DONE==="); [contradiction |].
  destruct (String.eqb_spec line "===START==="); [contradiction |].
  reflexivity.
Qed.

(** X23: as long as no line is the start marker, a reader that is not
    reading records nothing: the lines change the calibration flag and
    nothing else, whatever they hold. *)
Theorem update_lines_before_start {F} (float : string -> option F) st lines :
  reading st = false ->
  Forall (fun line => line <> "===START===") lines ->
  exists flag,
    update_lines float st lines
    = Ok (Reader false flag (headers st) (data_rows st) (sample_count st)
            (x_data st) (pitch_data st) (roll_data st) (yaw_data st)).
Proof.
  intros Hr Hl. revert st Hr. induction Hl as [| line lines Hne Hl IH]; intros st Hr.
  - exists (calibrating st). simpl. destruct st; simpl in *; subst. reflexivity.
  - simpl. unfold update_line.
    destruct (String.prefix "Calibrating" line).
    { cbn [mbind result_bind]. destruct (IH (Reader (reading st) true (headers st) (data_rows st)
        (sample_count st) (x_data st) (pitch_data st) (roll_data st) (yaw_data st)) Hr) as [flag Hf].
      exists flag. rewrite Hf. reflexivity. }
    destruct (String.eqb line "===CALIBRATION_DONE===").
    { cbn [mbind result_bind]. destruct (IH (Reader (reading st) false (headers st) (data_rows st)
        (sample_count st) (x_data st) (pitch_data st) (roll_data st) (yaw_data st)) Hr) as [flag Hf].
      exists flag. rewrite Hf. reflexivity. }
    destruct (String.eqb_spec line "===START==="); [contradiction |].
    rewrite Hr. cbn [negb mbind result_bind]. apply IH, Hr.
Qed.

Lemma record_row_series_ordered {F} (float : string -> option F) st values st' :
  series_ordered st -> record_row float st values = Ok st' -> series_ordered st'.
Proof.
  unfold series_ordered, record_row. intros (H1 & H2 & H3).
  destruct (getitem _ "pitch") as [p |]; cbn [mbind result_bind]; [| discriminate].
  destruct (float p) as [pv |].
  2:{ intros [= <-]. simpl. rewrite length_app. simpl. lia. }
  destruct (getitem _ "roll") as [r |]; cbn [mbind result_bind]; [| discriminate].
  destruct (float r) as [rv |].
  2:{ intros [= <-]. simpl. rewrite !length_app. simpl. lia. }
  destruct (getitem _ "yaw") as [y |]; cbn [mbind result_bind]; [| discriminate].
  destruct (float y) as [yv |].
  2:{ intros [= <-]. simpl. rewrite !length_app. simpl. lia. }
  destruct (Nat.ltb_spec window_size (length (x_data st ++ [length (x_data st)]))) as [Hw | Hw];
    intros [= <-]; cbn [yaw_data roll_data pitch_data x_data];
    rewrite ?length_drop, !length_app in *; simpl in *; lia.
Qed.

Lemma update_line_series_ordered {F} (float : string -> option F) st line st' :
  series_ordered st -> update_line float st line = Ok st' -> series_ordered st'.
Proof.
  intros Hs. unfold update_line.
  repeat match goal with
  | |- (if ?b then _ else _) = _ -> _ => destruct b
  end; try (intros [= <-]; exact Hs).
  apply record_row_series_ordered, Hs.
Qed.

(** X24: the reader keeps the plotted series ordered by length (yaw, roll,
    pitch, sample indices, each at most as long as the next) and never
    keeps more than [window_size] values of yaw. *)
Theorem update_lines_series_ordered {F} (float : string -> option F) st lines st' :
  series_ordered st ->
  update_lines float st lines = Ok st' ->
  series_ordered st'.
Proof.
  revert st. induction lines as [| line lines IH]; intros st Hs; simpl.
  - intros [= <-]. exact Hs.
  - destruct (update_line float st line) as [st1 |] eqn:E; cbn [mbind result_bind]; [| discriminate].
    apply IH. eapply update_line_series_ordered; eauto.
Qed.

(** X25: a row of data with as many values as headers raises KeyError
    when no header is named pitch: the handler of the row catches
    ValueError only. *)
Theorem update_line_missing_column {F} (float : string -> option F) st line :
  reading st = true -> data_line line ->
  length (split tab line) = length (headers st) ->
  "pitch" ∉ headers st ->
  update_line float st line = Raise (KeyError "pitch").
Proof.
  intros Hr Hd Hlen Hp. rewrite update_line_data by assumption.
  rewrite Hlen, Nat.eqb_refl. cbn [negb]. unfold record_row.
  rewrite (getitem_zip_missing (headers st) (split tab line) "pitch" (eq_sym Hlen) Hp).
  reflexivity.
Qed.

Lemma record_row_ok {F} (float : string -> option F) st values :
  length (headers st) = length values ->
  Forall (fun column => column ∈ headers st) plotted_columns ->
  exists st', record_row float st values = Ok st' /\ headers st' = headers st.
Proof.
  intros Hlen Hc. unfold plotted_columns in Hc.
  apply Forall_cons in Hc as [Hp Hc]. apply Forall_cons in Hc as [Hr Hc].
  apply Forall_cons in Hc as [Hy _].
  destruct (getitem_zip_present _ _ _ Hlen Hp) as [p Ep].
  destruct (getitem_zip_present _ _ _ Hlen Hr) as [r Er].
  destruct (getitem_zip_present _ _ _ Hlen Hy) as [y Ey].
  unfold record_row. rewrite Ep. cbn [mbind result_bind].
  destruct (float p); [| eexists; split; reflexivity].
  rewrite Er. cbn [mbind result_bind].
  destruct (float r); [| eexists; split; reflexivity].
  rewrite Ey. cbn [mbind result_bind].
  destruct (float y); [| eexists; split; reflexivity].
  destruct (_ <? _)%nat; eexists; split; reflexivity.
Qed.

Lemma update_line_ok {F} (float : string -> option F) st line :
  columns_present st -> complete_header line ->
  exists st', update_line float st line = Ok st' /\ columns_present st'.
Proof.
  intros Hc Hh. unfold update_line.
  destruct (String.prefix "Calibrating" line); [eexists; split; [reflexivity | exact Hc] |].
  destruct (String.eqb line "===CALIBRATION_DONE==="); [eexists; split; [reflexivity | exact Hc] |].
  destruct (String.eqb line "===START==="); [eexists; split; [reflexivity | exact Hc] |].
  destruct (negb (reading st)); [eexists; split; [reflexivity | exact Hc] |].
  destruct (String.prefix "timestamp" line) eqn:Et.
  { eexists; split; [reflexivity |]. right. simpl. apply Hh. exact Et. }
  destruct (Nat.eqb_spec (length (split tab line)) (length (headers st))) as [Hlen | Hlen];
    cbn [negb]; [| eexists; split; [reflexivity | exact Hc]].
  destruct Hc as [He | Hc].
  { pose proof (split_length tab line). rewrite He in Hlen. simpl in Hlen. lia. }
  destruct (record_row_ok float st (split tab line) (eq_sym Hlen) Hc) as (st' & E & Eh).
  exists st'. split; [exact E |]. right. rewrite Eh. exact Hc.
Qed.

(** X26: when every header line of the stream names the three plotted
    columns, the reader raises nothing, whatever else the lines hold:
    malformed rows are skipped and values that are no numbers are
    caught. *)
Theorem update_lines_no_error {F} (float : string -> option F) st lines :
  columns_present st ->
  Forall complete_header lines ->
  exists st', update_lines float st lines = Ok st'.
Proof.
  intros Hc Hl. revert st Hc. induction Hl as [| line lines Hh Hl IH]; intros st Hc.
  - exists st. reflexivity.
  - destruct (update_line_ok float st line Hc Hh) as (st1 & E & Hc1).
    simpl. rewrite E. cbn [mbind result_bind]. apply IH, Hc1.
Qed.

Lemma update_line_unparsed {F} (float : string -> option F) st line v :
  reading st = true -> data_line line ->
  length (split tab line) = length (headers st) ->
  dict (zip (headers st) (split tab line)) !! "pitch" = Some v ->
  float v = None ->
  update_line float st line
  = Ok (Reader true (calibrating st) (headers st)
          (data_rows st ++ [dict (zip (headers st) (split tab line))])
          (S (sample_count st)) (x_data st ++ [length (x_data st)])
          (pitch_data st) (roll_data st) (yaw_data st)).
Proof.
  intros Hr Hd Hlen Hp Hf. rewrite update_line_data by assumption.
  rewrite Hlen, Nat.eqb_refl. cbn [negb]. unfold record_row, getitem.
  rewrite Hp. cbn [mbind result_bind]. rewrite Hf, Hr. reflexivity.
Qed.

(** X27: a row whose pitch is no number is still kept among the rows to
    save and still gets a sample index, while nothing joins the three
    plotted series; the window does not trim the sample indices then, so
    [n] such rows make [x_data] longer by [n], with no bound. *)
Theorem update_lines_unparsed {F} (float : string -> option F) st line v n :
  reading st = true -> data_line line ->
  length (split tab line) = length (headers st) ->
  dict (zip (headers st) (split tab line)) !! "pitch" = Some v ->
  float v = None ->
  exists st',
    update_lines float st (replicate n line) = Ok st'
    /\ length (x_data st') = (length (x_data st) + n)%nat
    /\ length (data_rows st') = (length (data_rows st) + n)%nat
    /\ pitch_data st' = pitch_data st /\ roll_data st' = roll_data st
    /\ yaw_data st' = yaw_data st.
Proof.
  intros Hr Hd Hlen Hp Hf.
  enough (H : exists st', update_lines float st (replicate n line) = Ok st'
            /\ reading st' = true /\ headers st' = headers st
            /\ length (x_data st') = (length (x_data st) + n)%nat
            /\ length (data_rows st') = (length (data_rows st) + n)%nat
            /\ pitch_data st' = pitch_data st /\ roll_data st' = roll_data st
            /\ yaw_data st' = yaw_data st).
  { destruct H as (st' & E & _ & _ & H). exists st'. split; [exact E | exact H]. }
  revert st Hr Hlen Hp. induction n as [| n IH]; intros st Hr Hlen Hp.
  - exists st. simpl. repeat split; try lia. exact Hr.
  - simpl. rewrite (update_line_unparsed float st line v Hr Hd Hlen Hp Hf).
    cbn [mbind result_bind].
    match goal with |- context [update_lines float ?s _] => set (st1 := s) end.
    destruct (IH st1 eq_refl Hlen Hp) as (st' & E & Hr' & Hh & Hx & Hrows & Hpd & Hrd & Hyd).
    exists st'. split; [exact E |]. subst st1. simpl in *.
    rewrite length_app in Hx, Hrows. simpl in *.
    repeat split; try assumption; lia.
Qed.

Lemma data_line_digit : data_line "5".
Proof. repeat split; try reflexivity; discriminate. Qed.

Lemma update_lines_before_start_witness :
  exists flag,
    update_lines float_one initial_reader ["Calibrating"; join tab ["0"; "1"; "1"; "1"]]
    = Ok (Reader false flag [] [] 0 [] [] [] []).
Proof.
  apply (update_lines_before_start float_one initial_reader
           ["Calibrating"; join tab ["0"; "1"; "1"; "1"]]).
  - reflexivity.
  - repeat constructor; discriminate.
Defined.

Lemma update_lines_series_ordered_witness :
  exists st',
    update_lines float_one initial_reader
      ["===START==="; join tab ["timestamp"; "pitch"; "roll"; "yaw"];
       join tab ["0"; "1"; "1"; "1"]; join tab ["0"; "1"; "x"; "1"]] = Ok st'
    /\ series_ordered st'.
Proof.
  eexists. split; [vm_compute; reflexivity |].
  eapply (update_lines_series_ordered float_one initial_reader
            ["===START==="; join tab ["timestamp"; "pitch"; "roll"; "yaw"];
             join tab ["0"; "1"; "1"; "1"]; join tab ["0"; "1"; "x"; "1"]]).
  - unfold series_ordered, window_size. simpl. lia.
  - vm_compute. reflexivity.
Defined.

Lemma update_line_missing_column_witness :
  update_line float_one (Reader true false ["timestamp"] [] 0 [] [] [] []) "5"
  = Raise (KeyError "pitch").
Proof.
  apply (update_line_missing_column float_one (Reader true false ["timestamp"] [] 0 [] [] [] []) "5").
  - reflexivity.
  - exact data_line_digit.
  - reflexivity.
  - intros H. apply elem_of_cons in H as [H | H]; [discriminate H | ].
    apply elem_of_nil in H. exact H.
Defined.

Lemma update_lines_no_error_witness :
  exists st',
    update_lines float_one initial_reader
      ["===START==="; join tab ["timestamp"; "pitch"; "roll"; "yaw"];
       join tab ["0"; "1"; "x"; "1"]; "5"] = Ok st'.
Proof.
  apply (update_lines_no_error float_one initial_reader).
  - left. reflexivity.
  - repeat (apply List.Forall_cons); try apply List.Forall_nil;
      intros H; try (vm_compute in H; discriminate H).
    assert (E : split tab (join tab ["timestamp"; "pitch"; "roll"; "yaw"])
                = ["timestamp"; "pitch"; "roll"; "yaw"]) by (vm_compute; reflexivity).
    rewrite E. unfold plotted_columns. repeat constructor.
Defined.

Lemma update_lines_unparsed_witness :
  exists st',
    update_lines float_one (Reader true false ["pitch"] [] 0 [] [] [] []) (replicate 3 "5") = Ok st'
    /\ length (x_data st') = (0 + 3)%nat
    /\ length (data_rows st') = (0 + 3)%nat
    /\ pitch_data st' = [] /\ roll_data st' = [] /\ yaw_data st' = [].
Proof.
  apply (update_lines_unparsed float_one (Reader true false ["pitch"] [] 0 [] [] [] []) "5" "5" 3).
  - reflexivity.
  - exact data_line_digit.
  - reflexivity.
  - vm_compute. reflexivity.
  - reflexivity.
Defined.

(** * Loading the recorded data (human_move.py, lines 16-67) *)

Section LoadingFacts.
Context {Row : Type}.
Variable row_values : Row -> list string -> result vec3.
Variable updateIMU : arr4 -> vec3 -> vec3 -> arr4.

Lemma load_frame_shape names st row st' :
  load_frame row_values updateIMU names st row = Ok st' ->
  exists frame, st'.2 = st.2 ++ [frame] /\ length frame = length names.
Proof.
  unfold load_frame.
  destruct (foldR _ _ names) as [st1 |]; cbn [mbind result_bind]; [| discriminate].
  destruct (mapR _ names) as [frame |] eqn:E; cbn [mbind result_bind]; [| discriminate].
  intros [= <-]. exists frame. split; [reflexivity |]. eapply mapR_length, E.
Qed.

Lemma load_frames_shape names rows st st' :
  foldR (load_frame row_values updateIMU names) st rows = Ok st' ->
  exists frames, st'.2 = st.2 ++ frames /\ length frames = length rows
                 /\ Forall (fun frame => length frame = length names) frames.
Proof.
  revert st. induction rows as [| row rows IH]; intros st; simpl.
  - intros [= <-]. exists []. rewrite app_nil_r. repeat split. constructor.
  - destruct (load_frame _ _ names st row) as [st1 |] eqn:E; cbn [mbind result_bind];
      [| discriminate].
    intros H. destruct (load_frame_shape _ _ _ _ E) as (frame & E1 & Hf).
    destruct (IH _ H) as (frames & E2 & Hl & Hfs).
    exists (frame :: frames). rewrite E2, E1, <- app_assoc. simpl.
    repeat split; [lia |]. constructor; assumption.
Qed.

(** X28: a load that returns frames returns one frame for each row of the
    table, and every frame holds one quaternion for each name of
    [sensor_link_names], in their order. *)
Theorem load_and_preprocess_data_shape rows names frames :
  load_and_preprocess_data row_values updateIMU (Some rows) names = Ok (Some frames) ->
  length frames = length rows
  /\ Forall (fun frame => length frame = length names) frames.
Proof.
  unfold load_and_preprocess_data.
  destruct (foldR _ _ rows) as [st |] eqn:E; cbn [mbind result_bind]; [| discriminate].
  intros [= <-]. destruct (load_frames_shape _ _ _ _ E) as (frames & E2 & Hl & Hf).
  simpl in E2. rewrite E2. split; assumption.
Qed.

Lemma update_links_unknown row names name st :
  name ∈ names -> sensor_columns !! name = None ->
  exists e, foldR (update_link row_values updateIMU row) st names = Raise e.
Proof.
  intros Hin Hn. revert st. induction names as [| n names IH]; intros st.
  - apply elem_of_nil in Hin. contradiction.
  - simpl. destruct (update_link _ _ row st n) as [st1 | e] eqn:E; cbn [mbind result_bind];
      [| eauto].
    apply elem_of_cons in Hin as [-> | Hin]; [| apply IH, Hin].
    unfold update_link, getitem in E. rewrite Hn in E. discriminate E.
Qed.

Lemma load_frame_unknown row names name st :
  name ∈ names -> sensor_columns !! name = None ->
  exists e, load_frame row_values updateIMU names st row = Raise e.
Proof.
  intros Hin Hn. unfold load_frame.
  destruct (update_links_unknown row names name (st.1, ∅) Hin Hn) as [e E].
  rewrite E. cbn [mbind result_bind]. eauto.
Qed.

(** X29: a name of [sensor_link_names] that is no key of [sensor_columns]
    makes the load of a table with a row raise; a table with no row
    loads as the empty list whatever the names. *)
Theorem load_and_preprocess_data_unknown_name row rows names name :
  name ∈ names -> sensor_columns !! name = None ->
  (exists e, load_and_preprocess_data row_values updateIMU (Some (row :: rows)) names = Raise e)
  /\ load_and_preprocess_data row_values updateIMU (Some []) names = Ok (Some []).
Proof.
  intros Hin Hn. split; [| reflexivity].
  unfold load_and_preprocess_data. cbv zeta. cbn [foldR].
  destruct (load_frame_unknown row names name
              (dict ((fun name => (name, A4 1 0 0 0)) <$> names), []) Hin Hn) as [e E].
  rewrite E. cbn [mbind result_bind]. eauto.
Qed.

End LoadingFacts.

Lemma dict_constant_lookup {A} (keys : list string) (c : A) (k : string) :
  k ∈ keys -> dict ((fun key => (key, c)) <$> keys) !! k = Some c.
Proof.
  unfold dict. intros Hk.
  enough (H : forall d : gmap string A, d !! k = Some c \/ k ∈ keys ->
            foldl (fun d kv => <[kv.1 := kv.2]> d) d ((fun key => (key, c)) <$> keys) !! k
            = Some c) by (apply H; right; exact Hk).
  clear Hk. induction keys as [| key keys IH]; intros d [Hd | Hk]; simpl.
  - exact Hd.
  - apply elem_of_nil in Hk. contradiction.
  - apply IH. left. destruct (decide (k = key)) as [-> | Hne].
    + apply lookup_insert_eq.
    + rewrite lookup_insert_ne by congruence. exact Hd.
  - apply elem_of_cons in Hk as [-> | Hk].
    + apply IH. left. apply lookup_insert_eq.
    + apply IH. right. exact Hk.
Qed.

Lemma mapR_getitem {A} (d : gmap string A) (g : string -> A) (keys : list string) :
  (forall k, k ∈ keys -> d !! k = Some (g k)) ->
  mapR (getitem d) keys = Ok (g <$> keys).
Proof.
  induction keys as [| key keys IH]; intros H; cbn [mapR]; [reflexivity |].
  assert (E : getitem d key = Ok (g key)).
  { unfold getitem. rewrite (H key) by (apply elem_of_cons; left; reflexivity). reflexivity. }
  rewrite E. cbn [mbind result_bind]. rewrite IH; [reflexivity |].
  intros k Hk. apply H, elem_of_cons. right. exact Hk.
Qed.

Section TrackingFacts.
Context {Row : Type}.
Variable values : Row -> list string -> vec3.
Variable updateIMU : arr4 -> vec3 -> vec3 -> arr4.

Lemma update_link_known row name columns (q : arr4) (lq fq : gmap string arr4) :
  sensor_columns !! name = Some columns -> lq !! name = Some q ->
  update_link (fun row columns => Ok (values row columns)) updateIMU row (lq, fq) name
  = Ok (<[name := filter_step updateIMU values columns q row]> lq,
        <[name := to_scipy_quat (filter_step updateIMU values columns q row)]> fq).
Proof.
  intros Hc Hq. unfold update_link, getitem. cbn [fst snd].
  rewrite Hc. cbn [mbind result_bind]. rewrite Hq. reflexivity.
Qed.

Lemma update_links_tracked row names :
  NoDup names ->
  Forall (fun name => is_Some (sensor_columns !! name)) names ->
  forall (q : string -> arr4) (lq fq : gmap string arr4),
  (forall n, n ∈ names -> lq !! n = Some (q n)) ->
  exists lq' fq',
    foldR (update_link (fun row columns => Ok (values row columns)) updateIMU row) (lq, fq) names
    = Ok (lq', fq')
    /\ (forall n, n ∈ names ->
          lq' !! n = Some (filter_step updateIMU values (columns_of n) (q n) row)
          /\ fq' !! n = Some (to_scipy_quat
                               (filter_step updateIMU values (columns_of n) (q n) row)))
    /\ (forall n, n ∉ names -> lq' !! n = lq !! n /\ fq' !! n = fq !! n).
Proof.
  intros Hnd Hk. induction names as [| name names IH]; intros q lq fq Hq.
  - exists lq, fq. simpl. split; [reflexivity |]. split; [| tauto].
    intros n Hn. apply elem_of_nil in Hn. contradiction.
  - apply NoDup_cons in Hnd as [Hnotin Hnd]. apply Forall_cons in Hk as [[columns Hc] Hk].
    cbn [foldR].
    rewrite (update_link_known row name columns (q name) lq fq Hc)
      by (apply Hq, elem_of_cons; left; reflexivity).
    cbn [mbind result_bind].
    set (q_new := filter_step updateIMU values columns (q name) row).
    assert (Eq : q_new = filter_step updateIMU values (columns_of name) (q name) row).
    { unfold q_new, columns_of. rewrite Hc. reflexivity. }
    destruct (IH Hnd Hk q (<[name := q_new]> lq) (<[name := to_scipy_quat q_new]> fq))
      as (lq' & fq' & E & Hin & Hout).
    { intros n Hn. rewrite lookup_insert_ne; [apply Hq, elem_of_cons; right; exact Hn |].
      intros ->. contradiction. }
    exists lq', fq'. split; [exact E |]. split.
    + intros n Hn. apply elem_of_cons in Hn as [-> | Hn]; [| apply Hin, Hn].
      destruct (Hout name Hnotin) as [H1 H2]. rewrite H1, H2, !lookup_insert_eq, <- Eq.
      split; reflexivity.
    + intros n Hn. rewrite elem_of_cons in Hn.
      assert (n <> name) by (intros ->; apply Hn; left; reflexivity).
      assert (n ∉ names) by (intros ?; apply Hn; right; assumption).
      destruct (Hout n) as [H1 H2]; [assumption |].
      rewrite H1, H2, !lookup_insert_ne by congruence. split; reflexivity.
Qed.

Lemma load_frame_tracked row names done lq frames :
  NoDup names ->
  Forall (fun name => is_Some (sensor_columns !! name)) names ->
  (forall n, n ∈ names -> lq !! n = Some (track updateIMU values (columns_of n) done)) ->
  exists lq',
    load_frame (fun row columns => Ok (values row columns)) updateIMU names (lq, frames) row
    = Ok (lq', frames ++ [(fun name => to_scipy_quat
                             (track updateIMU values (columns_of name) (done ++ [row])))
                          <$> names])
    /\ (forall n, n ∈ names ->
          lq' !! n = Some (track updateIMU values (columns_of n) (done ++ [row]))).
Proof.
  intros Hnd Hk Hq. unfold load_frame. cbn [fst snd].
  destruct (update_links_tracked row names Hnd Hk
              (fun n => track updateIMU values (columns_of n) done) lq ∅ Hq)
    as (lq' & fq' & E & Hin & _).
  rewrite E. cbn [mbind result_bind fst snd].
  assert (Et : forall n, filter_step updateIMU values (columns_of n)
                           (track updateIMU values (columns_of n) done) row
                         = track updateIMU values (columns_of n) (done ++ [row])).
  { intros n. unfold track. rewrite foldl_app. reflexivity. }
  rewrite (mapR_getitem fq' (fun name => to_scipy_quat
             (track updateIMU values (columns_of name) (done ++ [row])))).
  2:{ intros n Hn. destruct (Hin n Hn) as [_ H]. rewrite H, Et. reflexivity. }
  cbn [mbind result_bind]. exists lq'. split; [reflexivity |].
  intros n Hn. destruct (Hin n Hn) as [H _]. rewrite H, Et. reflexivity.
Qed.

Lemma load_frames_tracked names rows :
  NoDup names ->
  Forall (fun name => is_Some (sensor_columns !! name)) names ->
  forall done lq frames,
  (forall n, n ∈ names -> lq !! n = Some (track updateIMU values (columns_of n) done)) ->
  exists lq',
    foldR (load_frame (fun row columns => Ok (values row columns)) updateIMU names)
      (lq, frames) rows
    = Ok (lq', frames ++ ((fun k => (fun name => to_scipy_quat
                             (track updateIMU values (columns_of name)
                                (done ++ take (S k) rows))) <$> names)
                          <$> seq 0 (length rows))).
Proof.
  intros Hnd Hk. induction rows as [| row rows IH]; intros done lq frames Hq.
  - exists lq. simpl. rewrite app_nil_r. reflexivity.
  - cbn [foldR].
    destruct (load_frame_tracked row names done lq frames Hnd Hk Hq) as (lq1 & E & Hq1).
    rewrite E. cbn [mbind result_bind].
    set (frame := (fun name => to_scipy_quat
                     (track updateIMU values (columns_of name) (done ++ [row]))) <$> names).
    destruct (IH (done ++ [row]) lq1 (frames ++ [frame]) Hq1) as (lq' & E').
    exists lq'. rewrite E'. f_equal. f_equal. rewrite <- app_assoc. f_equal.
    cbn [length seq fmap list_fmap app].
    replace (take 1 (row :: rows)) with [row] by reflexivity.
    subst frame. f_equal.
    rewrite <- fmap_S_seq, <- list_fmap_compose.
    apply list_fmap_ext. intros i k Hi. cbn [compose].
    rewrite <- app_assoc. reflexivity.
Qed.

(** X30: for distinct names of [sensor_columns] and a table whose values
    are read without error, the load returns, for row [k] and each name,
    the quaternion in [x, y, z, w] order of the filter of that sensor
    alone, run from the identity over rows [0..k]. *)
Theorem load_and_preprocess_data_tracked rows names :
  NoDup names ->
  Forall (fun name => is_Some (sensor_columns !! name)) names ->
  load_and_preprocess_data (fun row columns => Ok (values row columns)) updateIMU
    (Some rows) names
  = Ok (Some (tracked_frames updateIMU values rows names)).
Proof.
  intros Hnd Hk. unfold load_and_preprocess_data. cbv zeta.
  destruct (load_frames_tracked names rows Hnd Hk []
              (dict ((fun name => (name, A4 1 0 0 0)) <$> names)) [])
    as (lq' & E).
  { intros n Hn. rewrite (dict_constant_lookup names (A4 1 0 0 0) n Hn). reflexivity. }
  rewrite E. reflexivity.
Qed.

End TrackingFacts.

Lemma sensor_columns_thigh_r : is_Some (sensor_columns !! "thigh_r").
Proof. eexists. vm_compute. reflexivity. Qed.

Lemma sensor_columns_shank_r : is_Some (sensor_columns !! "shank_r").
Proof. eexists. vm_compute. reflexivity. Qed.

Lemma sensor_columns_hip : sensor_columns !! "hip" = None.
Proof. vm_compute. reflexivity. Qed.

Lemma load_constant_thigh :
  load_and_preprocess_data (fun (row : vec3) (_ : list string) => Ok row) (fun q _ _ => q)
    (Some [vzero]) ["thigh_r"]
  = Ok (Some [[A4 0 0 0 1]]).
Proof. vm_compute. reflexivity. Qed.

Lemma load_and_preprocess_data_shape_witness :
  length [[A4 0 0 0 1]] = length [vzero]
  /\ Forall (fun frame : list arr4 => length frame = length ["thigh_r"]) [[A4 0 0 0 1]].
Proof.
  apply (load_and_preprocess_data_shape (fun (row : vec3) (_ : list string) => Ok row)
           (fun q _ _ => q) [vzero] ["thigh_r"] [[A4 0 0 0 1]]).
  exact load_constant_thigh.
Defined.

Lemma load_and_preprocess_data_unknown_name_witness :
  (exists e, load_and_preprocess_data (fun (row : vec3) (_ : list string) => Ok row)
               (fun q _ _ => q) (Some [vzero]) ["thigh_r"; "hip"] = Raise e)
  /\ load_and_preprocess_data (fun (row : vec3) (_ : list string) => Ok row)
       (fun q _ _ => q) (Some []) ["thigh_r"; "hip"] = Ok (Some []).
Proof.
  apply (load_and_preprocess_data_unknown_name (fun (row : vec3) (_ : list string) => Ok row)
           (fun q _ _ => q) vzero [] ["thigh_r"; "hip"] "hip").
  - apply elem_of_cons. right. apply elem_of_cons. left. reflexivity.
  - exact sensor_columns_hip.
Defined.

Lemma load_and_preprocess_data_tracked_witness :
  load_and_preprocess_data (fun (row : vec3) (columns : list string) => Ok row)
    (fun q _ _ => q) (Some [vzero; vzero]) ["thigh_r"; "shank_r"]
  = Ok (Some (tracked_frames (fun q _ _ => q) (fun (row : vec3) (_ : list string) => row)
                [vzero; vzero] ["thigh_r"; "shank_r"])).
Proof.
  apply (load_and_preprocess_data_tracked (fun (row : vec3) (_ : list string) => row)
           (fun q _ _ => q) [vzero; vzero] ["thigh_r"; "shank_r"]).
  - apply NoDup_cons. split.
    + intros H. apply elem_of_cons in H as [H | H]; [discriminate H |].
      apply elem_of_nil in H. exact H.
    + apply NoDup_cons. split; [intros H; apply elem_of_nil in H; exact H | apply NoDup_nil_2].
  - apply List.Forall_cons; [exact sensor_columns_thigh_r |].
    apply List.Forall_cons; [exact sensor_columns_shank_r | apply List.Forall_nil].
Defined.
